(** * PlateScope: the waste ledger and its analytics

    A shallow embedding of [FoodWasteMonitor/data/waste_database.cpp] and
    [FoodWasteMonitor/analysis/stats_analyzer.cpp], and of the weight
    estimate of [FoodWasteMonitor/detection/food_detector.cpp].

    - [float] is IEEE binary32, computed with the Standard Library's
      [SpecFloat] (round to nearest even, one NaN); every operation of
      the source rounds once, to binary32.
    - [std::map<std::string, V>] is an association list kept in increasing
      key order, so iteration visits the keys as the C++ container does.
    - The C and C++ library calls the code makes ([std::get_time],
      [std::put_time], [std::mktime], [std::localtime], [operator<<] on a
      float, [std::stof]) are the fields of the class [CLib.Platform]; the
      wall clock is an explicit argument [now] (seconds since the epoch).
    - [std::lock_guard<std::mutex>] is modelled by the flag "the calling
      thread owns [m_databaseMutex]": [std::mutex] is not recursive, and a
      method that locks it again on the same thread does not return. *)

From Stdlib Require Import ZArith List String Ascii Bool Lia Sorted Permutation.
From Stdlib Require Import DecimalString Floats.SpecFloat.
Import ListNotations.

Local Open Scope string_scope.
Local Open Scope list_scope.
Local Open Scope Z_scope.

(* ================================================================== *)
(** ** binary32 arithmetic *)

Definition float : Type := spec_float.

Module F32.

Definition prec : Z := 24.
Definition emax : Z := 128.

Definition add : float -> float -> float := SFadd prec emax.
Definition sub : float -> float -> float := SFsub prec emax.
Definition mul : float -> float -> float := SFmul prec emax.
Definition div : float -> float -> float := SFdiv prec emax.
Definition sqrt : float -> float := SFsqrt prec emax.
Definition abs : float -> float := SFabs.
Definition ltb : float -> float -> bool := SFltb.
Definition eqb : float -> float -> bool := SFeqb.

(** [0.0f] *)
Definition zero : float := S754_zero false.

(** Conversion of an integer ([int], [size_t]) to [float]. *)
Definition of_Z (z : Z) : float := binary_normalize prec emax z 0 false.

(** [std::max(a, b)] is [(a < b) ? b : a]. *)
Definition max (a b : float) : float := if ltb a b then b else a.

Definition is_nan (x : float) : bool :=
  match x with S754_nan => true | _ => false end.

(** The literals of the source. *)
Definition lit_100 : float := of_Z 100.                       (* 100.0f *)
Definition lit_0_1 : float := S754_finite false 13421773 (-27). (* 0.1f *)
Definition lit_1_5 : float := S754_finite false 12582912 (-23). (* 1.5f *)

(** [x < 1e-9]: the float is promoted to double and compared with the
    double literal. *)
Definition to_double (x : float) : spec_float :=
  match x with
  | S754_finite s m e => binary_normalize 53 1024 (cond_Zopp s (Zpos m)) e s
  | _ => x
  end.
Definition double_1e_9 : spec_float := S754_finite false 4835703278458517 (-82).
Definition lt_1e_9 (x : float) : bool := SFltb (to_double x) double_1e_9.

Definition leb : float -> float -> bool := SFleb.

(** [std::min(a, b)] is [(b < a) ? b : a]. *)
Definition min (a b : float) : float := if ltb b a then b else a.

Definition lit_5 : float := of_Z 5.                              (* 5.0f *)
Definition lit_1000 : float := of_Z 1000.                        (* 1000.0f *)
Definition lit_10000 : float := of_Z 10000.                      (* 10000.0f *)
Definition lit_0_3 : float := S754_finite false 10066330 (-25).  (* 0.3f *)

End F32.

(* ================================================================== *)
(** ** [std::map] with ordered keys *)

(** [std::map<std::string, V>]: [std::string] compares byte-wise. *)
Definition smap (V : Type) : Type := list (string * V).

Module StdMap.

Section WithKey.
Context {K V : Type}.
Variable cmp : K -> K -> comparison.

(** [m[k] = f(m[k])], where a missing [m[k]] is first value-initialised
    to [dflt] (what [operator[]] does). *)
Fixpoint modify (k : K) (f : V -> V) (dflt : V) (m : list (K * V))
  : list (K * V) :=
  match m with
  | [] => [(k, f dflt)]
  | (k', v) :: rest =>
      match cmp k k' with
      | Lt => (k, f dflt) :: m
      | Eq => (k', f v) :: rest
      | Gt => (k', v) :: modify k f dflt rest
      end
  end.

Fixpoint find (k : K) (m : list (K * V)) : option V :=
  match m with
  | [] => None
  | (k', v) :: rest =>
      match cmp k k' with
      | Eq => Some v
      | _ => find k rest
      end
  end.

Definition count (k : K) (m : list (K * V)) : bool :=
  match find k m with Some _ => true | None => false end.
End WithKey.

(** [m[k] += w] on a [std::map<std::string, float>]. *)
Definition add_weight (k : string) (w : float) (m : smap float) : smap float :=
  modify String.compare k (fun v => F32.add v w) F32.zero m.

(** [m[k]++] on a [std::map<std::string, int>]. *)
Definition incr (k : string) (m : smap Z) : smap Z :=
  modify String.compare k (fun v => v + 1) 0 m.

Definition sfind {V} (k : string) (m : smap V) : option V :=
  find String.compare k m.

End StdMap.

(* ================================================================== *)
(** ** The C library as seen by the code *)

Module CLib.

(** [struct tm] *)
Record tm := mk_tm {
  tm_sec : Z; tm_min : Z; tm_hour : Z;
  tm_mday : Z; tm_mon : Z; tm_year : Z;
  tm_wday : Z; tm_yday : Z; tm_isdst : Z
}.

(** [std::tm t = {}] *)
Definition tm_zero : tm := mk_tm 0 0 0 0 0 0 0 0 0.

Class Platform := {
  (** [ss >> std::get_time(&tm, fmt)] on a stream holding [text], with
      [tm = {}] before: [None] when [ss.fail()]. *)
  get_time : string -> string -> option tm;
  (** [os << std::put_time(&tm, fmt)] *)
  put_time : tm -> string -> string;
  (** [std::mktime(&tm)]: the calendar time and the normalised [tm] it
      writes back. *)
  mktime : tm -> Z * tm;
  (** [std::localtime] *)
  localtime : Z -> tm;
  (** [os << x] for a [float], with the stream's default format. *)
  ostream_float : float -> string;
  (** [std::stof]: [None] when it throws ([std::invalid_argument],
      [std::out_of_range]). *)
  stof : string -> option float;
  (** [mktime] of an already normalised [tm] is the same calendar time. *)
  mktime_stable : forall t, fst (mktime (snd (mktime t))) = fst (mktime t)
}.

(** [os << std::fixed << std::setprecision(1) << x] for a [float]. *)
Class Formatting := {
  ostream_fixed1 : float -> string
}.

End CLib.

(* ================================================================== *)
(** ** A reference C library

    One [Platform] to evaluate the code on concrete inputs: the "C" locale,
    time zone UTC, and the formats the code uses.  [get_time] reads a
    number of up to [n] digits for each conversion and then fills in
    [tm_wday] and [tm_yday] from the date; [mktime] expects fields that are
    in range and completes [tm_wday], [tm_yday] and [tm_isdst]. *)

Module RefLib.
Import CLib.

Definition is_digit (c : ascii) : bool :=
  let n := Z.of_N (N_of_ascii c) in (48 <=? n) && (n <=? 57).

Definition digit_val (c : ascii) : Z := Z.of_N (N_of_ascii c) - 48.

Definition isspace (c : ascii) : bool :=
  let n := Z.of_N (N_of_ascii c) in (n =? 32) || ((9 <=? n) && (n <=? 13)).

Fixpoint skip_spaces (s : string) : string :=
  match s with
  | String c r => if isspace c then skip_spaces r else s
  | EmptyString => s
  end.

(** At most [n] digits from the front of [s]: their count, their value and
    what follows. *)
Fixpoint read_digits (n : nat) (acc : Z) (read : nat) (s : string)
  : nat * Z * string :=
  match n, s with
  | S n', String c r =>
      if is_digit c then read_digits n' (acc * 10 + digit_val c) (S read) r
      else (read, acc, s)
  | _, _ => (read, acc, s)
  end.

Definition read_num (n : nat) (lo hi : Z) (s : string) : option (Z * string) :=
  match read_digits n 0 O s with
  | (O, _, _) => None
  | (_, v, r) => if (lo <=? v) && (v <=? hi) then Some (v, r) else None
  end.

(** Days from 1970-01-01 to the civil date [y]-[m]-[d]. *)
Definition days_from_civil (y m d : Z) : Z :=
  let y' := if m <=? 2 then y - 1 else y in
  let era := y' / 400 in
  let yoe := y' - era * 400 in
  let doy := (153 * (if 2 <? m then m - 3 else m + 9) + 2) / 5 + d - 1 in
  let doe := yoe * 365 + yoe / 4 - yoe / 100 + doy in
  era * 146097 + doe - 719468.

Definition civil_from_days (z : Z) : Z * Z * Z :=
  let z := z + 719468 in
  let era := z / 146097 in
  let doe := z - era * 146097 in
  let yoe := (doe - doe / 1460 + doe / 36524 - doe / 146096) / 365 in
  let y := yoe + era * 400 in
  let doy := doe - (365 * yoe + yoe / 4 - yoe / 100) in
  let mp := (5 * doy + 2) / 153 in
  let d := doy - (153 * mp + 2) / 5 + 1 in
  let m := if mp <? 10 then mp + 3 else mp - 9 in
  (if m <=? 2 then y + 1 else y, m, d).

Definition tm_days (t : tm) : Z :=
  days_from_civil (tm_year t + 1900) (tm_mon t + 1) (tm_mday t).

(** [tm_wday] and [tm_yday] from the date; [tm_isdst = 0]. *)
Definition complete (t : tm) : tm :=
  let days := tm_days t in
  mk_tm (tm_sec t) (tm_min t) (tm_hour t) (tm_mday t) (tm_mon t) (tm_year t)
        ((days + 4) mod 7)
        (days - days_from_civil (tm_year t + 1900) 1 1)
        0.

Fixpoint get_time_fmt (fuel : nat) (fmt text : string) (t : tm) : option tm :=
  match fuel with
  | O => None
  | S fuel =>
      match fmt with
      | EmptyString => Some t
      | String "%" (String conv fmt') =>
          let field (n : nat) (lo hi : Z) (set : Z -> tm) :=
            match read_num n lo hi text with
            | Some (v, rest) => get_time_fmt fuel fmt' rest (set v)
            | None => None
            end in
          match conv with
          | "Y"%char => field 4%nat 0 9999 (fun v =>
              mk_tm (tm_sec t) (tm_min t) (tm_hour t) (tm_mday t) (tm_mon t)
                    (v - 1900) (tm_wday t) (tm_yday t) (tm_isdst t))
          | "m"%char => field 2%nat 1 12 (fun v =>
              mk_tm (tm_sec t) (tm_min t) (tm_hour t) (tm_mday t) (v - 1)
                    (tm_year t) (tm_wday t) (tm_yday t) (tm_isdst t))
          | "d"%char => field 2%nat 1 31 (fun v =>
              mk_tm (tm_sec t) (tm_min t) (tm_hour t) v (tm_mon t)
                    (tm_year t) (tm_wday t) (tm_yday t) (tm_isdst t))
          | "H"%char => field 2%nat 0 23 (fun v =>
              mk_tm (tm_sec t) (tm_min t) v (tm_mday t) (tm_mon t)
                    (tm_year t) (tm_wday t) (tm_yday t) (tm_isdst t))
          | "M"%char => field 2%nat 0 59 (fun v =>
              mk_tm (tm_sec t) v (tm_hour t) (tm_mday t) (tm_mon t)
                    (tm_year t) (tm_wday t) (tm_yday t) (tm_isdst t))
          | "S"%char => field 2%nat 0 60 (fun v =>
              mk_tm v (tm_min t) (tm_hour t) (tm_mday t) (tm_mon t)
                    (tm_year t) (tm_wday t) (tm_yday t) (tm_isdst t))
          | _ => None
          end
      | String c fmt' =>
          if isspace c then get_time_fmt fuel fmt' (skip_spaces text) t
          else match text with
               | String c' rest =>
                   if Ascii.eqb c c' then get_time_fmt fuel fmt' rest t else None
               | EmptyString => None
               end
      end
  end.

Definition ref_get_time (text fmt : string) : option tm :=
  match get_time_fmt (S (String.length fmt)) fmt text tm_zero with
  | Some t => Some (complete t)
  | None => None
  end.

Definition dec (n : Z) : string :=
  NilZero.string_of_uint (N.to_uint (Z.to_N n)).

(** The last [width] decimal digits of [n], zero padded. *)
Fixpoint dec_pad (width : nat) (n : Z) : string :=
  match width with
  | O => ""
  | S w => (dec_pad w (n / 10) ++ String (ascii_of_N (Z.to_N (48 + n mod 10))) "")%string
  end.

Definition day_name (wday : Z) : string :=
  nth (Z.to_nat wday)
      ["Sunday"; "Monday"; "Tuesday"; "Wednesday"; "Thursday"; "Friday"; "Saturday"]
      "?".

Definition month_name (mon : Z) : string :=
  nth (Z.to_nat mon)
      ["January"; "February"; "March"; "April"; "May"; "June"; "July";
       "August"; "September"; "October"; "November"; "December"]
      "?".

Fixpoint ref_put_time (t : tm) (fmt : string) : string :=
  match fmt with
  | EmptyString => ""
  | String "%" (String conv fmt') =>
      (match conv with
       | "Y"%char => dec (tm_year t + 1900)
       | "m"%char => dec_pad 2 (tm_mon t + 1)
       | "d"%char => dec_pad 2 (tm_mday t)
       | "H"%char => dec_pad 2 (tm_hour t)
       | "M"%char => dec_pad 2 (tm_min t)
       | "S"%char => dec_pad 2 (tm_sec t)
       | "A"%char => day_name (tm_wday t)
       | "B"%char => month_name (tm_mon t)
       | _ => ""
       end ++ ref_put_time t fmt')%string
  | String c fmt' => String c (ref_put_time t fmt')
  end.

Definition ref_mktime (t : tm) : Z * tm :=
  (tm_days t * 86400 + tm_hour t * 3600 + tm_min t * 60 + tm_sec t, complete t).

Definition ref_localtime (clock : Z) : tm :=
  let days := clock / 86400 in
  let secs := clock mod 86400 in
  let '(y, m, d) := civil_from_days days in
  complete (mk_tm (secs mod 60) (secs / 60 mod 60) (secs / 3600) d (m - 1)
                  (y - 1900) 0 0 0).

(** *** Floats as text *)

Fixpoint trim_zeros (s : string) : string :=
  match s with
  | EmptyString => EmptyString
  | String c r =>
      match trim_zeros r with
      | EmptyString => if Ascii.eqb c "0" then EmptyString else String c EmptyString
      | r' => String c r'
      end
  end.

Fixpoint zeros (n : nat) : string :=
  match n with O => "" | S n' => String "0" (zeros n') end.

(** [10^x <= n / d] *)
Definition ge_pow10 (n d x : Z) : bool :=
  if 0 <=? x then d * 10 ^ x <=? n else d <=? n * 10 ^ (- x).

Fixpoint decimal_exponent (fuel : nat) (n d x : Z) : Z :=
  match fuel with
  | O => x
  | S fuel => if ge_pow10 n d x then x else decimal_exponent fuel n d (x - 1)
  end.

Definition with_fraction (int_part frac : string) : string :=
  match trim_zeros frac with
  | EmptyString => int_part
  | f => (int_part ++ "." ++ f)%string
  end.

(** [printf("%g")] with the default precision 6 for the positive rational
    [n / d]: six significant digits, rounded to nearest even, in fixed or
    scientific notation, trailing zeros removed. *)
Definition format_g (n d : Z) : string :=
  let x0 := decimal_exponent 100 n d 40 in
  let '(num, den) :=
    if x0 <=? 5 then (n * 10 ^ (5 - x0), d) else (n, d * 10 ^ (x0 - 5)) in
  let q := num / den in
  let r := num mod den in
  let q := if (den <? 2 * r) || ((den =? 2 * r) && Z.odd q) then q + 1 else q in
  let '(x, q) := if q =? 1000000 then (x0 + 1, 100000) else (x0, q) in
  let ds := dec_pad 6 q in
  if (x <? -4) || (6 <=? x) then
    (with_fraction (substring 0 1 ds) (substring 1 5 ds)
       ++ "e" ++ (if (x <? 0)%Z then "-" else "+") ++ dec_pad 2 (Z.abs x))%string
  else if 0 <=? x then
    with_fraction (substring 0 (Z.to_nat (x + 1)) ds)
                  (substring (Z.to_nat (x + 1)) (Z.to_nat (5 - x)) ds)
  else
    with_fraction "0" (zeros (Z.to_nat (- x - 1)) ++ ds)%string.

Definition ref_ostream_float (x : float) : string :=
  match x with
  | S754_nan => "nan"
  | S754_infinity s => if s then "-inf" else "inf"
  | S754_zero s => if s then "-0" else "0"
  | S754_finite s m e =>
      ((if s then "-" else "")
       ++ (if (0 <=? e)%Z then format_g (Zpos m * 2 ^ e)%Z 1%Z
           else format_g (Zpos m) (2 ^ (- e))%Z))%string
  end.

Definition lower (c : ascii) : ascii :=
  let n := Z.of_N (N_of_ascii c) in
  if (65 <=? n) && (n <=? 90) then ascii_of_N (Z.to_N (n + 32)) else c.

Fixpoint lower_prefix (n : nat) (s : string) : string :=
  match n, s with
  | S n', String c r => String (lower c) (lower_prefix n' r)
  | _, _ => EmptyString
  end.

(** All the digits at the front of [s]: their count, their value and what
    follows. *)
Fixpoint read_all_digits (acc : Z) (read : nat) (s : string) : nat * Z * string :=
  match s with
  | String c r =>
      if is_digit c then read_all_digits (acc * 10 + digit_val c) (S read) r
      else (read, acc, s)
  | EmptyString => (read, acc, s)
  end.

(** The exponent part of a decimal float: ["e"], a sign and digits; 0 when
    there is none. *)
Definition read_exponent (s : string) : Z :=
  match s with
  | String c r =>
      if Ascii.eqb (lower c) "e" then
        let '(neg, r) :=
          match r with
          | String "-" r' => (true, r')
          | String "+" r' => (false, r')
          | _ => (false, r)
          end in
        match read_all_digits 0 O r with
        | (O, _, _) => 0
        | (_, v, _) => if neg then - v else v
        end
      else 0
  | EmptyString => 0
  end.

(** [strtof] on decimal text, correctly rounded; [None] where [std::stof]
    throws: no number at the front, or a value outside the normal range. *)
Definition ref_stof (text : string) : option float :=
  let s := skip_spaces text in
  let '(neg, s) :=
    match s with
    | String "-" r => (true, r)
    | String "+" r => (false, r)
    | _ => (false, s)
    end in
  if String.eqb (lower_prefix 3 s) "inf" then Some (S754_infinity neg)
  else if String.eqb (lower_prefix 3 s) "nan" then Some S754_nan
  else
    let '(n1, int_part, s) := read_all_digits 0 O s in
    let '(n2, mant, s) :=
      match s with
      | String "." r => read_all_digits int_part O r
      | _ => (O, int_part, s)
      end in
    match (n1 + n2)%nat with
    | O => None
    | _ =>
        let x := read_exponent s - Z.of_nat n2 in
        match mant with
        | Zpos m =>
            let '(n, d) :=
              if 0 <=? x then (Zpos m * 10 ^ x, 1) else (Zpos m, 10 ^ (- x)) in
            match SFdiv F32.prec F32.emax
                    (S754_finite neg (Z.to_pos n) 0)
                    (S754_finite false (Z.to_pos d) 0) with
            | S754_finite s' m' e' =>
                if Zpos (digits2_pos m') <? F32.prec then None
                else Some (S754_finite s' m' e')
            | _ => None
            end
        | _ => Some (S754_zero neg)
        end
    end.

(** [printf("%.1f")]: one digit after the point, rounded to nearest even. *)
Definition ref_ostream_fixed1 (x : float) : string :=
  match x with
  | S754_nan => "nan"
  | S754_infinity s => if s then "-inf" else "inf"
  | S754_zero s => if s then "-0.0" else "0.0"
  | S754_finite s m e =>
      let '(num, den) :=
        if 0 <=? e then (Zpos m * 2 ^ e * 10, 1) else (Zpos m * 10, 2 ^ (- e)) in
      let q := num / den in
      let r := num mod den in
      let q := if (den <? 2 * r) || ((den =? 2 * r) && Z.odd q) then q + 1 else q in
      ((if s then "-" else "") ++ dec (q / 10) ++ "." ++ dec (q mod 10))%string
  end.

#[export] Instance ref_formatting : Formatting := {|
  ostream_fixed1 := ref_ostream_fixed1
|}.

#[export] Instance ref_platform : Platform := {|
  get_time := ref_get_time;
  put_time := ref_put_time;
  mktime := ref_mktime;
  localtime := ref_localtime;
  ostream_float := ref_ostream_float;
  stof := ref_stof;
  mktime_stable := fun t => eq_refl
|}.

End RefLib.

(* ================================================================== *)
(** ** Streams and sequences of the C++ library *)

Module Std.

(** Line feed *)
Definition nl : ascii := ascii_of_nat 10.

(** [std::string::empty] *)
Definition empty (s : string) : bool :=
  match s with EmptyString => true | _ => false end.

(** The text up to the first [delim] and the text after it. *)
Fixpoint split_at (delim : ascii) (s : string) : string * string :=
  match s with
  | EmptyString => (EmptyString, EmptyString)
  | String c r =>
      if Ascii.eqb c delim then (EmptyString, r)
      else let '(tok, rest) := split_at delim r in (String c tok, rest)
  end.

(** [std::getline(stream, token, delim)] on a stream with [s] left to read:
    [None] when the call fails (nothing left), else the token and what is
    left after the delimiter. *)
Definition getline (delim : ascii) (s : string) : option (string * string) :=
  match s with
  | EmptyString => None
  | _ => Some (split_at delim s)
  end.

(** The tokens that successive [getline] calls read until one fails. *)
Fixpoint getline_all (delim : ascii) (s : string) : list string :=
  match s with
  | EmptyString => []
  | String c r =>
      if Ascii.eqb c delim then EmptyString :: getline_all delim r
      else match getline_all delim r with
           | [] => [String c EmptyString]
           | tok :: toks => String c tok :: toks
           end
  end.

(** [os << n] for an [int]. *)
Definition show_int (n : Z) : string :=
  match n with
  | Zneg p => String "-" (NilZero.string_of_uint (Pos.to_uint p))
  | _ => NilZero.string_of_uint (N.to_uint (Z.to_N n))
  end.

(** [os << std::setw(2) << std::setfill('0') << n] *)
Definition setw2_fill0 (n : Z) : string :=
  let s := show_int n in
  if (String.length s <? 2)%nat then String "0" s else s.

(** Conversions between [int] and [size_t] (64 bits), and of a [size_t] to
    [int] (32 bits, two's complement). *)
Definition to_size_t (z : Z) : Z := z mod 2 ^ 64.
Definition to_int (z : Z) : Z := (z + 2 ^ 31) mod 2 ^ 32 - 2 ^ 31.

(** [std::sort(first, last, comp)], as the insertion sort that keeps the
    order of elements neither of which goes before the other.  (The
    standard leaves that order open.) *)
Section Sort.
Context {A : Type}.
Variable comp : A -> A -> bool.

Fixpoint insert_sorted (x : A) (l : list A) : list A :=
  match l with
  | [] => [x]
  | y :: l' => if comp x y then x :: l else y :: insert_sorted x l'
  end.

Definition sort (l : list A) : list A :=
  fold_left (fun acc x => insert_sorted x acc) l [].
End Sort.

(** [operator<] of [std::pair<std::string, float>] *)
Definition pair_lt (a b : string * float) : bool :=
  String.ltb (fst a) (fst b)
  || (negb (String.ltb (fst b) (fst a)) && F32.ltb (snd a) (snd b)).

(** [std::accumulate(v.begin(), v.end(), 0.0f)] *)
Definition accumulate (v : list float) : float := fold_left F32.add v F32.zero.

End Std.

(* ================================================================== *)
(** ** Detection::FoodItem *)

Module Detection.

Record FoodItem := {
  className : string;
  confidence : float;
  boundingBox : Z * Z * Z * Z;
  estimatedWeight : float;
  isWaste : bool;
  timestamp : string
}.

Definition DetectionResult : Type := list FoodItem.

(** The reference weights that the constructor of [FoodDetector] sets, in
    the order of the map. *)
Definition m_referenceWeights : smap float :=
  [("apple", F32.of_Z 150); ("banana", F32.of_Z 120); ("bread", F32.of_Z 40);
   ("burger", F32.of_Z 150); ("cake", F32.of_Z 100); ("carrot", F32.of_Z 60);
   ("chicken", F32.of_Z 200); ("cookie", F32.of_Z 30); ("fries", F32.of_Z 100);
   ("pasta", F32.of_Z 180); ("pizza", F32.of_Z 100); ("rice", F32.of_Z 150);
   ("salad", F32.of_Z 200); ("sandwich", F32.of_Z 180);
   ("vegetable", F32.of_Z 80)].

(** [FoodDetector::estimateWeight], for a map of reference weights and a
    box [(x, y, width, height)].  The area [width * height] is an [int]. *)
Definition estimateWeight (referenceWeights : smap float)
  (bbox : Z * Z * Z * Z) (foodClass : string) : float :=
  let '(_, _, width, height) := bbox in
  let referenceWeight :=
    match StdMap.sfind foodClass referenceWeights with
    | Some w => w
    | None => F32.lit_100
    end in
  let area := F32.of_Z (Std.to_int (width * height)) in
  let referenceArea := F32.lit_10000 in
  let sizeFactor := F32.div area referenceArea in
  let estimatedWeight := F32.mul referenceWeight sizeFactor in
  F32.max F32.lit_5 (F32.min estimatedWeight F32.lit_1000).

End Detection.

(* ================================================================== *)
(** ** Data::WasteDatabase *)

Module Data.
Import CLib.

Inductive TimePeriod := DAY | WEEK | MONTH | YEAR | ALL_TIME.

Inductive MealPeriod := BREAKFAST | LUNCH | DINNER | SNACK | UNKNOWN.

Record WasteEntry := {
  foodType : string;
  weight : float;
  timestamp : string;
  confidence : float;
  mealPeriod : string;
  imageFilename : string
}.

(** [WasteEntry()] *)
Definition WasteEntry_new : WasteEntry :=
  {| foodType := ""; weight := F32.zero; timestamp := "";
     confidence := F32.zero; mealPeriod := ""; imageFilename := "" |}.

Record WasteStatistics := {
  totalWeight : float;
  totalItems : Z;
  weightByType : smap float;
  countByType : smap Z;
  topWastedFoods : list string;
  weightByDay : smap float;
  weightByMeal : smap float;
  weightByMonth : smap float;
  dailyTrend : list float;
  weeklyTrend : list float;
  monthlyTrend : list float;
  wasteSavedTotal : float;
  wasteSavedPercentage : float
}.

(** [WasteStatistics()] *)
Definition WasteStatistics_new : WasteStatistics :=
  {| totalWeight := F32.zero; totalItems := 0;
     weightByType := []; countByType := []; topWastedFoods := [];
     weightByDay := []; weightByMeal := []; weightByMonth := [];
     dailyTrend := []; weeklyTrend := []; monthlyTrend := [];
     wasteSavedTotal := F32.zero; wasteSavedPercentage := F32.zero |}.

Record TimeRange := {
  startHour : Z; startMinute : Z; endHour : Z; endMinute : Z
}.

(** The file at [m_databasePath]. *)
Inductive File :=
| NoFile
| Unopenable
| FileText (text : string).

(** The members of [WasteDatabase] (the mutex apart), the file behind
    [m_databasePath], and the callbacks invoked so far.  A callback is
    known by its position in [m_changeCallbacks]. *)
Record WasteDatabase := {
  m_databasePath : string;
  m_entries : list WasteEntry;
  m_statistics : WasteStatistics;
  m_statisticsDirty : bool;
  m_currentMealPeriod : MealPeriod;
  m_mealTimeRanges : list (MealPeriod * TimeRange);
  m_changeCallbacks : list nat;
  disk : File;
  invoked : list nat
}.

Definition with_entries (db : WasteDatabase) (es : list WasteEntry) (dirty : bool)
  : WasteDatabase :=
  {| m_databasePath := m_databasePath db; m_entries := es;
     m_statistics := m_statistics db; m_statisticsDirty := dirty;
     m_currentMealPeriod := m_currentMealPeriod db;
     m_mealTimeRanges := m_mealTimeRanges db;
     m_changeCallbacks := m_changeCallbacks db;
     disk := disk db; invoked := invoked db |}.

Definition with_statistics (db : WasteDatabase) (s : WasteStatistics) (dirty : bool)
  : WasteDatabase :=
  {| m_databasePath := m_databasePath db; m_entries := m_entries db;
     m_statistics := s; m_statisticsDirty := dirty;
     m_currentMealPeriod := m_currentMealPeriod db;
     m_mealTimeRanges := m_mealTimeRanges db;
     m_changeCallbacks := m_changeCallbacks db;
     disk := disk db; invoked := invoked db |}.

Definition with_meal (db : WasteDatabase) (ranges : list (MealPeriod * TimeRange))
  (current : MealPeriod) : WasteDatabase :=
  {| m_databasePath := m_databasePath db; m_entries := m_entries db;
     m_statistics := m_statistics db; m_statisticsDirty := m_statisticsDirty db;
     m_currentMealPeriod := current;
     m_mealTimeRanges := ranges;
     m_changeCallbacks := m_changeCallbacks db;
     disk := disk db; invoked := invoked db |}.

Definition with_disk (db : WasteDatabase) (f : File) : WasteDatabase :=
  {| m_databasePath := m_databasePath db; m_entries := m_entries db;
     m_statistics := m_statistics db; m_statisticsDirty := m_statisticsDirty db;
     m_currentMealPeriod := m_currentMealPeriod db;
     m_mealTimeRanges := m_mealTimeRanges db;
     m_changeCallbacks := m_changeCallbacks db;
     disk := f; invoked := invoked db |}.

Definition with_callbacks (db : WasteDatabase) (cbs called : list nat)
  : WasteDatabase :=
  {| m_databasePath := m_databasePath db; m_entries := m_entries db;
     m_statistics := m_statistics db; m_statisticsDirty := m_statisticsDirty db;
     m_currentMealPeriod := m_currentMealPeriod db;
     m_mealTimeRanges := m_mealTimeRanges db;
     m_changeCallbacks := cbs;
     disk := disk db; invoked := called |}.

(** *** Methods

    A method runs on the database from a thread that does or does not
    already own [m_databaseMutex].  It returns a value and the database it
    leaves, or it never returns: [std::lock_guard] on a [std::mutex] that
    the thread already owns is a self-deadlock. *)

Inductive Outcome (A : Type) : Type :=
| Returns (a : A) (db : WasteDatabase)
| SelfDeadlock (db : WasteDatabase).
Arguments Returns {A} a db.
Arguments SelfDeadlock {A} db.

Definition Method (A : Type) : Type := bool -> WasteDatabase -> Outcome A.

Definition ret {A} (a : A) : Method A := fun _ db => Returns a db.

Definition bind {A B} (m : Method A) (k : A -> Method B) : Method B :=
  fun owned db =>
    match m owned db with
    | Returns a db' => k a owned db'
    | SelfDeadlock db' => SelfDeadlock db'
    end.

Notation "x <- m ;; k" := (bind m (fun x => k))
  (at level 61, m at next level, right associativity).

(** The members as they are. *)
Definition this : Method WasteDatabase := fun _ db => Returns db db.

(** An assignment to members. *)
Definition assign (db' : WasteDatabase) : Method unit := fun _ _ => Returns tt db'.

(** [std::lock_guard<std::mutex> lock(m_databaseMutex);] and the rest of
    its scope. *)
Definition lock_guard {A} (scope : Method A) : Method A :=
  fun owned db =>
    if owned then SelfDeadlock db else scope true db.

(** A call from a thread that does not hold the mutex. *)
Definition call {A} (m : Method A) (db : WasteDatabase) : Outcome A := m false db.

(** The database as a call leaves it. *)
Definition final {A} (o : Outcome A) : WasteDatabase :=
  match o with Returns _ db => db | SelfDeadlock db => db end.

Section Methods.
Context {P : Platform}.

(** The format of a stored timestamp. *)
Definition timestamp_format : string := "%Y-%m-%d %H:%M:%S".
Definition date_format : string := "%Y-%m-%d".

(** *** Meal periods *)

Definition MealPeriod_index (p : MealPeriod) : Z :=
  match p with
  | BREAKFAST => 0 | LUNCH => 1 | DINNER => 2 | SNACK => 3 | UNKNOWN => 4
  end.

Definition MealPeriod_compare (a b : MealPeriod) : comparison :=
  Z.compare (MealPeriod_index a) (MealPeriod_index b).

(** [m_mealTimeRanges[p] = r] *)
Definition set_range (p : MealPeriod) (r : TimeRange)
  (m : list (MealPeriod * TimeRange)) : list (MealPeriod * TimeRange) :=
  StdMap.modify MealPeriod_compare p (fun _ => r) r m.

(** [determineMealPeriod(int hour, int minute)]: the first range, in the
    order of the map, that holds the time; [SNACK] when none does. *)
Fixpoint determineMealPeriod_in (ranges : list (MealPeriod * TimeRange))
  (hour minute : Z) : MealPeriod :=
  match ranges with
  | [] => SNACK
  | (period, range) :: rest =>
      let startMinutes := startHour range * 60 + startMinute range in
      let endMinutes := endHour range * 60 + endMinute range in
      let currentMinutes := hour * 60 + minute in
      if (startMinutes <=? currentMinutes) && (currentMinutes <=? endMinutes)
      then period
      else determineMealPeriod_in rest hour minute
  end.

Definition determineMealPeriod_hm (db : WasteDatabase) (hour minute : Z)
  : MealPeriod :=
  determineMealPeriod_in (m_mealTimeRanges db) hour minute.

(** [determineMealPeriod(const std::string& timestamp)] *)
Definition determineMealPeriod (db : WasteDatabase) (ts : string) : MealPeriod :=
  match get_time ts timestamp_format with
  | None => UNKNOWN
  | Some t => determineMealPeriod_hm db (tm_hour t) (tm_min t)
  end.

Definition initializeMealPeriods (now : Z) : Method unit :=
  db <- this ;;
  let ranges := m_mealTimeRanges db in
  let ranges := set_range BREAKFAST {| startHour := 6; startMinute := 0;
                                       endHour := 10; endMinute := 30 |} ranges in
  let ranges := set_range LUNCH {| startHour := 11; startMinute := 0;
                                   endHour := 14; endMinute := 30 |} ranges in
  let ranges := set_range DINNER {| startHour := 17; startMinute := 0;
                                    endHour := 21; endMinute := 0 |} ranges in
  let ranges := set_range SNACK {| startHour := 21; startMinute := 0;
                                   endHour := 23; endMinute := 59 |} ranges in
  let localTime := localtime now in
  let db := with_meal db ranges (m_currentMealPeriod db) in
  assign (with_meal db ranges
            (determineMealPeriod_hm db (tm_hour localTime) (tm_min localTime))).

Definition setMealPeriod (period : MealPeriod) : Method unit :=
  db <- this ;;
  assign (with_meal db (m_mealTimeRanges db) period).

Definition getCurrentMealPeriod : Method MealPeriod :=
  db <- this ;; ret (m_currentMealPeriod db).

Definition getMealPeriodString : Method string :=
  db <- this ;;
  ret match m_currentMealPeriod db with
      | BREAKFAST => "Breakfast"
      | LUNCH => "Lunch"
      | DINNER => "Dinner"
      | SNACK => "Snack"
      | UNKNOWN => "Unknown"
      end.

(** *** Appending *)

Definition notifyDatabaseChanged : Method unit :=
  db <- this ;;
  assign (with_callbacks db (m_changeCallbacks db)
            (invoked db ++ m_changeCallbacks db)).

Definition registerChangeCallback : Method unit :=
  db <- this ;;
  assign (with_callbacks db
            (m_changeCallbacks db ++ [List.length (m_changeCallbacks db)])
            (invoked db)).

Definition addEntry (entry : WasteEntry) : Method unit :=
  _ <- lock_guard
         (db <- this ;;
          assign (with_entries db (m_entries db ++ [entry]) true)) ;;
  notifyDatabaseChanged.

Definition addDetection (item : Detection.FoodItem) : Method unit :=
  period <- getMealPeriodString ;;
  addEntry {| foodType := Detection.className item;
              weight := Detection.estimatedWeight item;
              timestamp := Detection.timestamp item;
              confidence := Detection.confidence item;
              mealPeriod := period;
              imageFilename := "" |}.

Fixpoint addDetections (detections : Detection.DetectionResult) : Method unit :=
  match detections with
  | [] => ret tt
  | item :: rest => _ <- addDetection item ;; addDetections rest
  end.

(** *** Queries *)

(** [endTm.tm_hour = 23; endTm.tm_min = 59; endTm.tm_sec = 59;] *)
Definition end_of_day (t : tm) : tm :=
  mk_tm 59 59 23 (tm_mday t) (tm_mon t) (tm_year t)
        (tm_wday t) (tm_yday t) (tm_isdst t).

(** The loop of [filterEntriesByDate].  [mktime] writes the normalised
    fields back into [entryTm], [startTm] and [endTm]; the last two live
    across the iterations. *)
Fixpoint filterEntriesByDate_loop (hasStartDate hasEndDate : bool)
  (startTm endTm : tm) (entries : list WasteEntry) : list WasteEntry :=
  match entries with
  | [] => []
  | entry :: rest =>
      match get_time (timestamp entry) timestamp_format with
      | None => filterEntriesByDate_loop hasStartDate hasEndDate startTm endTm rest
      | Some entryTm =>
          let '(include, entryTm, startTm) :=
            if hasStartDate then
              let '(entryTime, entryTm) := mktime entryTm in
              let '(startTime, startTm) := mktime startTm in
              (startTime <=? entryTime, entryTm, startTm)
            else (true, entryTm, startTm) in
          let '(include, endTm) :=
            if hasEndDate then
              let '(entryTime, _) := mktime entryTm in
              let '(endTime, endTm) := mktime endTm in
              (include && (entryTime <=? endTime), endTm)
            else (include, endTm) in
          let result :=
            filterEntriesByDate_loop hasStartDate hasEndDate startTm endTm rest in
          if include then entry :: result else result
      end
  end.

Definition filterEntriesByDate (entries : list WasteEntry)
  (startDate endDate : string) : list WasteEntry :=
  let start :=
    if Std.empty startDate then None else get_time startDate date_format in
  let finish :=
    if Std.empty endDate then None
    else match get_time endDate date_format with
         | Some endTm => Some (end_of_day endTm)
         | None => None
         end in
  filterEntriesByDate_loop
    (match start with Some _ => true | None => false end)
    (match finish with Some _ => true | None => false end)
    (match start with Some t => t | None => tm_zero end)
    (match finish with Some t => t | None => tm_zero end)
    entries.

Definition getEntries (foodType_ startDate endDate : string)
  : Method (list WasteEntry) :=
  lock_guard
    (db <- this ;;
     let filteredEntries :=
       if negb (Std.empty foodType_)
       then filter (fun entry => String.eqb (foodType entry) foodType_)
                   (m_entries db)
       else m_entries db in
     ret (if negb (Std.empty startDate) || negb (Std.empty endDate)
          then filterEntriesByDate filteredEntries startDate endDate
          else filteredEntries)).

(** *** Statistics *)

(** The maps and the total that the first loop of [calculateStatistics]
    fills.  (Its [weeklyWeight] and [monthlyWeight] are written and never
    read.) *)
Record Totals := {
  t_totalWeight : float;
  t_weightByType : smap float;
  t_countByType : smap Z;
  t_weightByMeal : smap float;
  t_weightByDay : smap float;
  t_weightByMonth : smap float;
  t_dailyWeight : smap float
}.

Definition Totals_new : Totals :=
  {| t_totalWeight := F32.zero; t_weightByType := []; t_countByType := [];
     t_weightByMeal := []; t_weightByDay := []; t_weightByMonth := [];
     t_dailyWeight := [] |}.

Definition accumulate_entry (acc : Totals) (entry : WasteEntry) : Totals :=
  let w := weight entry in
  let parsed := get_time (timestamp entry) timestamp_format in
  {| t_totalWeight := F32.add (t_totalWeight acc) w;
     t_weightByType := StdMap.add_weight (foodType entry) w (t_weightByType acc);
     t_countByType := StdMap.incr (foodType entry) (t_countByType acc);
     t_weightByMeal := StdMap.add_weight (mealPeriod entry) w (t_weightByMeal acc);
     t_weightByDay :=
       match parsed with
       | Some t => StdMap.add_weight (put_time t "%A") w (t_weightByDay acc)
       | None => t_weightByDay acc
       end;
     t_weightByMonth :=
       match parsed with
       | Some t => StdMap.add_weight (put_time t "%B") w (t_weightByMonth acc)
       | None => t_weightByMonth acc
       end;
     t_dailyWeight :=
       match parsed with
       | Some t => StdMap.add_weight (put_time t date_format) w (t_dailyWeight acc)
       | None => t_dailyWeight acc
       end |}.

(** The five heaviest food types: sorted by weight, heaviest first. *)
Definition top_foods (weights : smap float) : list string :=
  let foodWeights :=
    Std.sort (fun a b : string * float => F32.ltb (snd b) (snd a)) weights in
  map fst (firstn 5 foodWeights).

(** The dates of the last [n] days, oldest first: [now - 24h * i] for
    [i = n - 1 .. 0]. *)
Fixpoint recent_dates (now : Z) (n : nat) : list string :=
  match n with
  | O => []
  | S i => put_time (localtime (now - 3600 * (24 * Z.of_nat i))) date_format
           :: recent_dates now i
  end.

(** The weights of the last week and of the week before it. *)
Definition accumulate_week (now : Z) (acc : float * float) (entry : WasteEntry)
  : float * float :=
  let '(lastWeekWeight, previousWeekWeight) := acc in
  match get_time (timestamp entry) timestamp_format with
  | Some t =>
      let entryTime := fst (mktime t) in
      let oneWeekAgoTime := now - 3600 * (24 * 7) in
      let twoWeeksAgoTime := now - 3600 * (24 * 14) in
      if oneWeekAgoTime <=? entryTime
      then (F32.add lastWeekWeight (weight entry), previousWeekWeight)
      else if twoWeeksAgoTime <=? entryTime
      then (lastWeekWeight, F32.add previousWeekWeight (weight entry))
      else acc
  | None => acc
  end.

(** [calculateStatistics()]: the value it leaves in [m_statistics]. *)
Definition calculateStatistics (now : Z) (entries : list WasteEntry)
  : WasteStatistics :=
  match entries with
  | [] => WasteStatistics_new
  | _ =>
      let acc := fold_left accumulate_entry entries Totals_new in
      let dailyWeight := t_dailyWeight acc in
      let '(lastWeekWeight, previousWeekWeight) :=
        fold_left (accumulate_week now) entries (F32.zero, F32.zero) in
      let saved := F32.sub previousWeekWeight lastWeekWeight in
      let reduced := F32.ltb F32.zero previousWeekWeight
                     && F32.ltb F32.zero saved in
      {| totalWeight := t_totalWeight acc;
         totalItems := Std.to_int (Z.of_nat (List.length entries));
         weightByType := t_weightByType acc;
         countByType := t_countByType acc;
         topWastedFoods := top_foods (t_weightByType acc);
         weightByDay := t_weightByDay acc;
         weightByMeal := t_weightByMeal acc;
         weightByMonth := t_weightByMonth acc;
         dailyTrend :=
           map (fun date =>
                  match StdMap.sfind date dailyWeight with
                  | Some w => w
                  | None => F32.zero
                  end)
               (recent_dates now 30);
         weeklyTrend := [];
         monthlyTrend := [];
         wasteSavedTotal := if reduced then saved else F32.zero;
         wasteSavedPercentage :=
           if reduced
           then F32.mul (F32.div saved previousWeekWeight) F32.lit_100
           else F32.zero |}
  end.

(** The window of a bounded period, in hours. *)
Definition period_hours (period : TimePeriod) : Z :=
  match period with
  | DAY => 24
  | WEEK => 24 * 7
  | MONTH => 24 * 30
  | YEAR => 24 * 365
  | ALL_TIME => 0
  end.

Definition is_ALL_TIME (period : TimePeriod) : bool :=
  match period with ALL_TIME => true | _ => false end.

(** The period statistics that [getStatistics] builds from the entries of
    a bounded period. *)
Definition period_statistics (periodEntries : list WasteEntry) : WasteStatistics :=
  let acc :=
    fold_left
      (fun (acc : float * smap float * smap Z * smap float) entry =>
         let '(total, byType, count, byMeal) := acc in
         (F32.add total (weight entry),
          StdMap.add_weight (foodType entry) (weight entry) byType,
          StdMap.incr (foodType entry) count,
          StdMap.add_weight (mealPeriod entry) (weight entry) byMeal))
      periodEntries (F32.zero, [], [], []) in
  let '(total, byType, count, byMeal) := acc in
  {| totalWeight := total;
     totalItems := Std.to_int (Z.of_nat (List.length periodEntries));
     weightByType := byType;
     countByType := count;
     topWastedFoods := top_foods byType;
     weightByDay := []; weightByMeal := byMeal; weightByMonth := [];
     dailyTrend := []; weeklyTrend := []; monthlyTrend := [];
     wasteSavedTotal := F32.zero; wasteSavedPercentage := F32.zero |}.

Definition getStatistics (period : TimePeriod) (now : Z) : Method WasteStatistics :=
  lock_guard
    (db <- this ;;
     _ <- (if m_statisticsDirty db || negb (is_ALL_TIME period)
           then assign (with_statistics db
                          (calculateStatistics now (m_entries db)) false)
           else ret tt) ;;
     db <- this ;;
     if is_ALL_TIME period then ret (m_statistics db)
     else
       let startTime := now - 3600 * period_hours period in
       let startDateStr := put_time (localtime startTime) date_format in
       periodEntries <- getEntries "" startDateStr "" ;;
       ret (period_statistics periodEntries)).

Definition getTotalWasteWeight (period : TimePeriod) (now : Z) : Method float :=
  stats <- getStatistics period now ;; ret (totalWeight stats).

Definition getWasteByType (period : TimePeriod) (now : Z) : Method (smap float) :=
  stats <- getStatistics period now ;; ret (weightByType stats).

Definition getWasteByMeal (period : TimePeriod) (now : Z) : Method (smap float) :=
  stats <- getStatistics period now ;; ret (weightByMeal stats).

(** [trend[key] = 0.0f] *)
Definition set_zero (key : string) (trend : smap float) : smap float :=
  StdMap.modify String.compare key (fun _ => F32.zero) F32.zero trend.

(** The 24 labels ["00:00"] .. ["23:00"], in the order the loop writes
    them. *)
Definition hour_labels : list string :=
  map (fun hour => (Std.setw2_fill0 (Z.of_nat hour) ++ ":00")%string) (seq 0 24).

Definition getWasteTrend (period : TimePeriod) (now : Z) : Method (smap float) :=
  stats <- getStatistics period now ;;
  match period with
  | DAY | WEEK =>
      let today := localtime now in
      let trend := fold_left (fun trend label => set_zero label trend)
                             hour_labels [] in
      let dateStr := put_time today date_format in
      todayEntries <- getEntries "" dateStr dateStr ;;
      ret (fold_left
             (fun trend entry =>
                match get_time (timestamp entry) timestamp_format with
                | Some t =>
                    StdMap.add_weight
                      (Std.setw2_fill0 (tm_hour t) ++ ":00")%string
                      (weight entry) trend
                | None => trend
                end)
             todayEntries trend)
  | _ =>
      let days := match period with
                  | MONTH => 30%nat
                  | YEAR => 365%nat
                  | _ => 7%nat
                  end in
      let trend := fold_left (fun trend dateStr => set_zero dateStr trend)
                             (recent_dates now days) [] in
      entries <- getEntries "" "" "" ;;
      ret (fold_left
             (fun trend entry =>
                match get_time (timestamp entry) timestamp_format with
                | Some t =>
                    let dateStr := put_time t date_format in
                    if StdMap.count String.compare dateStr trend
                    then StdMap.add_weight dateStr (weight entry) trend
                    else trend
                | None => trend
                end)
             entries trend)
  end.

(** *** Persistence *)

Definition header : string :=
  "FoodType,Weight,Timestamp,Confidence,MealPeriod,ImageFilename".

Definition nl_string : string := String Std.nl EmptyString.

(** The fields of one record, in the order they are written. *)
Definition record_text (entry : WasteEntry) : string :=
  (foodType entry ++ "," ++ ostream_float (weight entry) ++ ","
   ++ timestamp entry ++ "," ++ ostream_float (confidence entry) ++ ","
   ++ mealPeriod entry ++ "," ++ imageFilename entry)%string.

(** What the loop over [m_entries] writes: every record and its line feed. *)
Fixpoint write_entries (entries : list WasteEntry) : string :=
  match entries with
  | [] => ""
  | entry :: rest =>
      ((record_text entry ++ nl_string) ++ write_entries rest)%string
  end.

Definition write_file (entries : list WasteEntry) : string :=
  ((header ++ nl_string) ++ write_entries entries)%string.

Definition saveToFile : Method bool :=
  lock_guard
    (db <- this ;;
     match disk db with
     | Unopenable => ret false
     | _ =>
         _ <- assign (with_disk db (FileText (write_file (m_entries db)))) ;;
         ret true
     end).

(** The six [if (std::getline(ss, token, ',')) ...] of [loadFromFile] on
    one line: [None] when [std::stof] throws. *)
Definition read_entry (line : string) : option WasteEntry :=
  let entry := WasteEntry_new in
  let comma : ascii := ","%char in
  let '(foodType_, ss) :=
    match Std.getline comma line with
    | Some (token, ss) => (token, ss)
    | None => (foodType entry, EmptyString)
    end in
  match
    match Std.getline comma ss with
    | Some (token, ss) =>
        match stof token with Some w => Some (w, ss) | None => None end
    | None => Some (weight entry, EmptyString)
    end
  with
  | None => None
  | Some (weight_, ss) =>
      let '(timestamp_, ss) :=
        match Std.getline comma ss with
        | Some (token, ss) => (token, ss)
        | None => (timestamp entry, EmptyString)
        end in
      match
        match Std.getline comma ss with
        | Some (token, ss) =>
            match stof token with Some c => Some (c, ss) | None => None end
        | None => Some (confidence entry, EmptyString)
        end
      with
      | None => None
      | Some (confidence_, ss) =>
          let '(mealPeriod_, ss) :=
            match Std.getline comma ss with
            | Some (token, ss) => (token, ss)
            | None => (mealPeriod entry, EmptyString)
            end in
          let imageFilename_ :=
            match Std.getline comma ss with
            | Some (token, _) => token
            | None => imageFilename entry
            end in
          Some {| foodType := foodType_; weight := weight_;
                  timestamp := timestamp_; confidence := confidence_;
                  mealPeriod := mealPeriod_; imageFilename := imageFilename_ |}
      end
  end.

(** The [while (std::getline(file, line))] loop: the entries pushed, and
    whether it ended without an exception. *)
Fixpoint read_entries (lines : list string) (entries : list WasteEntry)
  : list WasteEntry * bool :=
  match lines with
  | [] => (entries, true)
  | line :: rest =>
      match read_entry line with
      | Some entry => read_entries rest (entries ++ [entry])
      | None => (entries, false)
      end
  end.

Definition loadFromFile : Method bool :=
  lock_guard
    (db <- this ;;
     match disk db with
     | FileText text =>
         (* the first line is the header *)
         let lines := tl (Std.getline_all Std.nl text) in
         let '(entries, ok) := read_entries lines [] in
         if ok then
           _ <- assign (with_entries db entries true) ;; ret true
         else
           (* the exception is caught: [m_statisticsDirty] is not set *)
           _ <- assign (with_entries db entries (m_statisticsDirty db)) ;;
           ret false
     | _ => ret false
     end).

(** [initialize()], directories apart. *)
Definition initialize : Method bool :=
  db <- this ;;
  match disk db with
  | NoFile =>
      _ <- lock_guard (db <- this ;; assign (with_entries db [] true)) ;;
      ret true
  | _ => loadFromFile
  end.

(** [WasteDatabase(databasePath)] *)
Definition WasteDatabase_new (databasePath : string) (file : File) (now : Z)
  : Outcome bool :=
  call (_ <- initializeMealPeriods now ;; initialize)
       {| m_databasePath := databasePath;
          m_entries := [];
          m_statistics := WasteStatistics_new;
          m_statisticsDirty := true;
          m_currentMealPeriod := UNKNOWN;
          m_mealTimeRanges := [];
          m_changeCallbacks := [];
          disk := file;
          invoked := [] |}.

(** *** More requests *)

Definition getTopWastedFoods (limit : Z) (now : Z) : Method (list string) :=
  lock_guard
    (db <- this ;;
     _ <- (if m_statisticsDirty db
           then assign (with_statistics db
                          (calculateStatistics now (m_entries db)) false)
           else ret tt) ;;
     db <- this ;;
     let top := topWastedFoods (m_statistics db) in
     ret (firstn (Z.to_nat (Z.min (Std.to_size_t limit)
                                  (Z.of_nat (List.length top))))
                 top)).

(** The least and the greatest timestamp of the entries, as texts: the
    first loop of [getAverageWastePerDay]. *)
Definition extreme_timestamps (entries : list WasteEntry) : string * string :=
  fold_left
    (fun (acc : string * string) entry =>
       let '(firstDate, lastDate) := acc in
       (if Std.empty firstDate || String.ltb (timestamp entry) firstDate
        then timestamp entry else firstDate,
        if Std.empty lastDate || String.ltb lastDate (timestamp entry)
        then timestamp entry else lastDate))
    entries (EmptyString, EmptyString).

(** The days that the all-time average divides by, or [None] where the
    method returns [0.0f] at once: no entry, or an extreme timestamp that
    does not parse.  ([/] on [time_t] truncates.) *)
Definition ledger_days (entries : list WasteEntry) : option Z :=
  match entries with
  | [] => None
  | _ =>
      let '(firstDate, lastDate) := extreme_timestamps entries in
      match get_time firstDate timestamp_format,
            get_time lastDate timestamp_format with
      | Some firstTm, Some lastTm =>
          let firstTime := fst (mktime firstTm) in
          let lastTime := fst (mktime lastTm) in
          let days :=
            Std.to_int (Z.quot (lastTime - firstTime) (60 * 60 * 24)) + 1 in
          Some (if days <=? 0 then 1 else days)
      | _, _ => None
      end
  end.

(** [getAverageWastePerDay]: the [std::lock_guard] lives in the block of
    [if (days == 0)] and is released before the total is requested. *)
Definition getAverageWastePerDay (period : TimePeriod) (now : Z) : Method float :=
  let days := match period with
              | DAY => 1 | WEEK => 7 | MONTH => 30 | YEAR => 365
              | ALL_TIME => 0
              end in
  counted <- (if days =? 0
              then lock_guard (db <- this ;; ret (ledger_days (m_entries db)))
              else ret (Some days)) ;;
  match counted with
  | None => ret F32.zero
  | Some days =>
      totalWeight <- getTotalWasteWeight period now ;;
      ret (F32.div totalWeight (F32.of_Z days))
  end.

End Methods.

End Data.

(* ================================================================== *)
(** ** Analysis::StatsAnalyzer *)

Module Analysis.
Import CLib Data.

Record TrendData := {
  timeLabels : list string;
  values : list float;
  changePercentage : float;
  increasing : bool
}.

(** [TrendData()] *)
Definition TrendData_new : TrendData :=
  {| timeLabels := []; values := []; changePercentage := F32.zero;
     increasing := false |}.

Record PredictionModel := {
  intercept : float;
  slope : float;
  rSquared : float
}.

(** [PredictionModel()] *)
Definition PredictionModel_new : PredictionModel :=
  {| intercept := F32.zero; slope := F32.zero; rSquared := F32.zero |}.

(** The members of [StatsAnalyzer]; [m_database] points to the database
    that the methods below run on. *)
Record StatsAnalyzer := {
  m_currentStats : WasteStatistics;
  m_dailyTrend : TrendData;
  m_foodTypeTrends : smap TrendData;
  m_mealPeriodTrends : smap TrendData;
  m_wastePredictionModel : PredictionModel;
  m_insights : list string;
  m_insightsDirty : bool
}.

(** A method of the analyzer returns a value and the analyzer it leaves. *)
Definition AMethod (A : Type) : Type := StatsAnalyzer -> Method (A * StatsAnalyzer).

(** [std::vector<float> xValues(n); std::iota(xValues.begin(), xValues.end(), 0);] *)
Definition iota (n : nat) : list float :=
  map (fun i => F32.of_Z (Z.of_nat i)) (seq 0 n).

(** [performLinearRegression]: the values it writes to [intercept],
    [slope] and [rSquared].  Every operation rounds to [float]. *)
Definition performLinearRegression (xValues yValues : list float)
  : float * float * float :=
  if negb (List.length xValues =? List.length yValues)%nat
     || (List.length xValues <? 2)%nat
  then (F32.zero, F32.zero, F32.zero)
  else
    let n := Std.to_int (Z.of_nat (List.length xValues)) in
    let meanX := F32.div (Std.accumulate xValues) (F32.of_Z n) in
    let meanY := F32.div (Std.accumulate yValues) (F32.of_Z n) in
    let points := firstn (Z.to_nat n) (combine xValues yValues) in
    let '(sumXY, sumXX, sumYY) :=
      fold_left
        (fun (acc : float * float * float) (p : float * float) =>
           let '(sumXY, sumXX, sumYY) := acc in
           let xDiff := F32.sub (fst p) meanX in
           let yDiff := F32.sub (snd p) meanY in
           (F32.add sumXY (F32.mul xDiff yDiff),
            F32.add sumXX (F32.mul xDiff xDiff),
            F32.add sumYY (F32.mul yDiff yDiff)))
        points (F32.zero, F32.zero, F32.zero) in
    if F32.lt_1e_9 sumXX then (meanY, F32.zero, F32.zero)
    else
      let slope := F32.div sumXY sumXX in
      let intercept := F32.sub meanY (F32.mul slope meanX) in
      let ssr :=
        fold_left
          (fun ssr (p : float * float) =>
             let predicted := F32.add intercept (F32.mul slope (fst p)) in
             let residual := F32.sub (snd p) predicted in
             F32.add ssr (F32.mul residual residual))
          points F32.zero in
      let sst := sumYY in
      (intercept, slope,
       if F32.lt_1e_9 sst then F32.zero
       else F32.sub (F32.of_Z 1) (F32.div ssr sst)).

Definition calculateTrendPercentage (values : list float) : float :=
  if (List.length values <? 2)%nat then F32.zero
  else
    let xValues := iota (List.length values) in
    let '(intercept, slope, rSquared) :=
      performLinearRegression xValues values in
    let startValue := hd F32.zero values in
    let endValue := last values F32.zero in
    if F32.eqb startValue F32.zero then F32.zero
    else F32.mul (F32.div (F32.sub endValue startValue) startValue) F32.lit_100.

Definition createPredictionModel (data : list float) : PredictionModel :=
  if (List.length data <? 2)%nat then PredictionModel_new
  else
    let '(intercept, slope, rSquared) :=
      performLinearRegression (iota (List.length data)) data in
    {| intercept := intercept; slope := slope; rSquared := rSquared |}.

(** [if (sortedData.size() > static_cast<size_t>(days))
       sortedData.erase(sortedData.begin(), sortedData.end() - days);] *)
Definition limit_days {A} (sortedData : list A) (days : Z) : list A :=
  if Std.to_size_t days <? Z.of_nat (List.length sortedData)
  then skipn (List.length sortedData - Z.to_nat days) sortedData
  else sortedData.

(** The trend that the three [analyze...Trend] methods build from their
    sorted data. *)
Definition trend_of (sortedData : list (string * float)) : TrendData :=
  let values := map snd sortedData in
  let changePercentage := calculateTrendPercentage values in
  {| timeLabels := map fst sortedData;
     values := values;
     changePercentage := changePercentage;
     increasing := F32.ltb F32.zero changePercentage |}.

Section Methods.
Context {P : Platform}.

Definition with_currentStats (a : StatsAnalyzer) (s : WasteStatistics)
  : StatsAnalyzer :=
  {| m_currentStats := s; m_dailyTrend := m_dailyTrend a;
     m_foodTypeTrends := m_foodTypeTrends a;
     m_mealPeriodTrends := m_mealPeriodTrends a;
     m_wastePredictionModel := m_wastePredictionModel a;
     m_insights := m_insights a; m_insightsDirty := true |}.

Definition with_dailyTrend (a : StatsAnalyzer) (t : TrendData)
  (m : PredictionModel) : StatsAnalyzer :=
  {| m_currentStats := m_currentStats a; m_dailyTrend := t;
     m_foodTypeTrends := m_foodTypeTrends a;
     m_mealPeriodTrends := m_mealPeriodTrends a;
     m_wastePredictionModel := m;
     m_insights := m_insights a; m_insightsDirty := m_insightsDirty a |}.

Definition with_trends (a : StatsAnalyzer) (byFood byMeal : smap TrendData)
  : StatsAnalyzer :=
  {| m_currentStats := m_currentStats a; m_dailyTrend := m_dailyTrend a;
     m_foodTypeTrends := byFood;
     m_mealPeriodTrends := byMeal;
     m_wastePredictionModel := m_wastePredictionModel a;
     m_insights := m_insights a; m_insightsDirty := m_insightsDirty a |}.

Definition analyzeDailyTrend (days : Z) (now : Z) : AMethod TrendData :=
  fun a =>
    wasteTrend <- getWasteTrend (if days <=? 7 then WEEK
                                 else if days <=? 30 then MONTH else YEAR) now ;;
    let sortedData := Std.sort Std.pair_lt wasteTrend in
    ret (trend_of (limit_days sortedData days), a).

Definition analyzeFoodTypeTrend (foodType_ : string) (days : Z)
  : AMethod TrendData :=
  fun a =>
    entries <- getEntries foodType_ "" "" ;;
    match entries with
    | [] => ret (TrendData_new, a)
    | _ =>
        let dailyWeights :=
          fold_left
            (fun dailyWeights entry =>
               StdMap.add_weight (substring 0 10 (timestamp entry))
                                 (weight entry) dailyWeights)
            entries [] in
        let sortedData := Std.sort Std.pair_lt dailyWeights in
        let trend := trend_of (limit_days sortedData days) in
        ret (trend,
             with_trends a
               (StdMap.modify String.compare foodType_ (fun _ => trend) trend
                              (m_foodTypeTrends a))
               (m_mealPeriodTrends a))
    end.

Definition analyzeMealPeriodTrend (mealPeriod_ : string) (days : Z)
  : AMethod TrendData :=
  fun a =>
    entries <- getEntries "" "" "" ;;
    match entries with
    | [] => ret (TrendData_new, a)
    | _ =>
        let dailyWeights :=
          fold_left
            (fun dailyWeights entry =>
               if String.eqb (mealPeriod entry) mealPeriod_
               then StdMap.add_weight (substring 0 10 (timestamp entry))
                                      (weight entry) dailyWeights
               else dailyWeights)
            entries [] in
        let sortedData := Std.sort Std.pair_lt dailyWeights in
        let trend := trend_of (limit_days sortedData days) in
        ret (trend,
             with_trends a
               (m_foodTypeTrends a)
               (StdMap.modify String.compare mealPeriod_ (fun _ => trend) trend
                              (m_mealPeriodTrends a)))
    end.

Definition updateStats (now : Z) : AMethod unit :=
  fun a =>
    stats <- getStatistics ALL_TIME now ;;
    let a := with_currentStats a stats in
    r <- analyzeDailyTrend 30 now a ;;
    let '(trend, a) := r in
    let model :=
      match values trend with
      | [] => m_wastePredictionModel a
      | _ =>
          let '(intercept, slope, rSquared) :=
            performLinearRegression (iota (List.length (values trend)))
                                    (values trend) in
          {| intercept := intercept; slope := slope; rSquared := rSquared |}
      end in
    ret (tt, with_dailyTrend a trend model).

(** [m_wastePredictionModel.intercept + m_wastePredictionModel.slope * futureDay]
    for [futureDay = (float)(m_dailyTrend.values.size() - 1) + daysInFuture],
    no less than [0.0f]. *)
Definition forecast (a : StatsAnalyzer) (daysInFuture : Z) : float :=
  let currentDay :=
    F32.of_Z (Std.to_size_t (Z.of_nat (List.length (values (m_dailyTrend a))) - 1)) in
  let futureDay := F32.add currentDay (F32.of_Z daysInFuture) in
  let predictedWaste :=
    F32.add (intercept (m_wastePredictionModel a))
            (F32.mul (slope (m_wastePredictionModel a)) futureDay) in
  F32.max F32.zero predictedWaste.

(** [std::abs(m_wastePredictionModel.rSquared) < 0.1f] *)
Definition poor_fit (a : StatsAnalyzer) : bool :=
  F32.ltb (F32.abs (rSquared (m_wastePredictionModel a))) F32.lit_0_1.

Definition predictFutureWaste (daysInFuture : Z) (now : Z) : AMethod float :=
  fun a =>
    if daysInFuture <? 0 then ret (F32.zero, a)
    else
      r <- (if poor_fit a then updateStats now a else ret (tt, a)) ;;
      let a := snd r in
      ret (forecast a daysInFuture, a).

(** [StatsAnalyzer(database)] *)
Definition StatsAnalyzer_new (now : Z) : Method (unit * StatsAnalyzer) :=
  updateStats now
    {| m_currentStats := WasteStatistics_new; m_dailyTrend := TrendData_new;
       m_foodTypeTrends := []; m_mealPeriodTrends := [];
       m_wastePredictionModel := PredictionModel_new;
       m_insights := []; m_insightsDirty := true |}.

End Methods.

(** *** Outliers *)

(** The mean and the standard deviation that [identifyOutliers] computes
    for a distribution that is not empty. *)
Definition mean_stdDev (data : smap float) : float * float :=
  let values := map snd data in
  let sum := Std.accumulate values in
  let size := F32.of_Z (Z.of_nat (List.length values)) in
  let mean := F32.div sum size in
  let varianceSum :=
    fold_left (fun varianceSum value =>
                 let diff := F32.sub value mean in
                 F32.add varianceSum (F32.mul diff diff))
              values F32.zero in
  (mean, F32.sqrt (F32.div varianceSum size)).

(** [std::abs(value - mean) / stdDev] *)
Definition zScore (value mean stdDev : float) : float :=
  F32.div (F32.abs (F32.sub value mean)) stdDev.

(** The [zScore] that the second loop of [identifyOutliers] computes for
    each key. *)
Definition zScores (data : smap float) : smap float :=
  let '(mean, stdDev) := mean_stdDev data in
  map (fun kv : string * float => (fst kv, zScore (snd kv) mean stdDev)) data.

Definition identifyOutliers (data : smap float) (threshold : float) : smap float :=
  match data with
  | [] => []
  | _ =>
      let '(mean, stdDev) := mean_stdDev data in
      fold_left
        (fun outliers (kv : string * float) =>
           if F32.ltb threshold (zScore (snd kv) mean stdDev)
           then StdMap.modify String.compare (fst kv) (fun _ => snd kv) (snd kv)
                              outliers
           else outliers)
        data []
  end.

(** *** Reports *)

Module WasteRecommendation.
Record t := {
  foodType : string;
  mealPeriod : string;
  recommendation : string;
  potentialSavings : float
}.
End WasteRecommendation.

(** [operator<] of [std::pair<std::string, std::string>], as a comparison. *)
Definition pair_compare (a b : string * string) : comparison :=
  match String.compare (fst a) (fst b) with
  | Eq => String.compare (snd a) (snd b)
  | c => c
  end.

(** [combinedWaste[{foodType, mealPeriod}] += weight] over the entries. *)
Definition combinedWaste (entries : list WasteEntry)
  : list (string * string * float) :=
  fold_left
    (fun combined entry =>
       StdMap.modify pair_compare (foodType entry, mealPeriod entry)
                     (fun v => F32.add v (weight entry)) F32.zero combined)
    entries [].

(** [std::max_element] with the comparison of the second components: the
    first of the greatest. *)
Fixpoint max_element_from (best : string * float) (rest : smap float)
  : string * float :=
  match rest with
  | [] => best
  | x :: rest' =>
      max_element_from (if F32.ltb (snd best) (snd x) then x else best) rest'
  end.

Definition dayNames : list string :=
  ["Sunday"; "Monday"; "Tuesday"; "Wednesday"; "Thursday"; "Friday"; "Saturday"].

(** [pattern[day] = 0.0f; dayCounts[day] = 0;] for the seven days. *)
Definition day_pattern_init : smap float * smap Z :=
  fold_left
    (fun (acc : smap float * smap Z) day =>
       (set_zero day (fst acc),
        StdMap.modify String.compare day (fun _ => 0) 0 (snd acc)))
    dayNames ([], []).

(** The averages that the last loop of [calculateDayOfWeekPattern] leaves
    in [pattern]. *)
Definition day_averages (pattern : smap float) (dayCounts : smap Z) : smap float :=
  map (fun kv : string * float =>
         let count := match StdMap.sfind (fst kv) dayCounts with
                      | Some c => c
                      | None => 0
                      end in
         (fst kv,
          if 0 <? count then F32.div (snd kv) (F32.of_Z count) else snd kv))
      pattern.

Section Reports.
Context {P : Platform} {F : Formatting}.

Definition with_insights (a : StatsAnalyzer) (insights : list string)
  (dirty : bool) : StatsAnalyzer :=
  {| m_currentStats := m_currentStats a; m_dailyTrend := m_dailyTrend a;
     m_foodTypeTrends := m_foodTypeTrends a;
     m_mealPeriodTrends := m_mealPeriodTrends a;
     m_wastePredictionModel := m_wastePredictionModel a;
     m_insights := insights; m_insightsDirty := dirty |}.

(** The record that [generateRecommendations] makes of one combination. *)
Definition recommend (combination : string * string * float)
  : WasteRecommendation.t :=
  let '(foodType_, mealPeriod_, weight_) := combination in
  let potentialSavings := F32.mul weight_ F32.lit_0_3 in
  {| WasteRecommendation.foodType := foodType_;
     WasteRecommendation.mealPeriod := mealPeriod_;
     WasteRecommendation.potentialSavings := potentialSavings;
     WasteRecommendation.recommendation :=
       ("Consider reducing portion sizes for " ++ foodType_ ++ " during "
        ++ mealPeriod_ ++ ". Current waste is approximately "
        ++ ostream_fixed1 weight_ ++ "g, with potential savings of "
        ++ ostream_fixed1 potentialSavings ++ "g per day.")%string |}.

Definition generateRecommendations (limit : Z) (now : Z)
  : AMethod (list WasteRecommendation.t) :=
  fun a =>
    topFoods <- getTopWastedFoods 5 now ;;
    wasteByMeal <- getWasteByMeal ALL_TIME now ;;
    entries <- getEntries "" "" "" ;;
    let sortedCombinations :=
      Std.sort (fun x y : string * string * float => F32.ltb (snd y) (snd x))
               (combinedWaste entries) in
    ret (map recommend
             (firstn (Z.to_nat (Z.min (Std.to_size_t limit)
                                      (Z.of_nat (List.length sortedCombinations))))
                     sortedCombinations),
         a).

(** [calculatePotentialSavings]: its call of [getAverageWastePerDay] takes
    the default period, [TimePeriod::MONTH]. *)
Definition calculatePotentialSavings (days : Z) (pricePerKg : float) (now : Z)
  : AMethod float :=
  fun a =>
    average <- getAverageWastePerDay MONTH now ;;
    let potentialDailyReduction := F32.mul average F32.lit_0_3 in
    let potentialWeightSavings :=
      F32.mul potentialDailyReduction (F32.of_Z days) in
    ret (F32.mul (F32.div potentialWeightSavings F32.lit_1000) pricePerKg, a).

(** The second loop of [calculateDayOfWeekPattern]: [None] once
    [dayNames[tm.tm_wday]] is read outside the array (undefined in the
    source). *)
Definition accumulate_day (acc : option (smap float * smap Z))
  (entry : WasteEntry) : option (smap float * smap Z) :=
  match acc with
  | None => None
  | Some (pattern, dayCounts) =>
      match get_time (timestamp entry) timestamp_format with
      | None => acc
      | Some t =>
          if (0 <=? tm_wday t) && (tm_wday t <? 7) then
            let dayName := nth (Z.to_nat (tm_wday t)) dayNames EmptyString in
            Some (StdMap.add_weight dayName (weight entry) pattern,
                  StdMap.incr dayName dayCounts)
          else None
      end
  end.

Definition calculateDayOfWeekPattern : Method (option (smap float)) :=
  entries <- getEntries "" "" "" ;;
  ret match fold_left accumulate_day entries (Some day_pattern_init) with
      | Some (pattern, dayCounts) => Some (day_averages pattern dayCounts)
      | None => None
      end.

(** The sentence that [findCorrelations] writes for a flagged key. *)
Definition correlation_found (kv : string * float) : string :=
  ("Correlation found: " ++ fst kv ++ " consistently has higher waste ("
   ++ ostream_fixed1 (snd kv) ++ "g on average).")%string.

Definition findCorrelations : AMethod (option (list string)) :=
  fun a =>
    dayPattern <- calculateDayOfWeekPattern ;;
    ret (match dayPattern with
         | Some dayPattern =>
             let mealPattern := weightByMeal (m_currentStats a) in
             let dayOutliers := identifyOutliers dayPattern F32.lit_1_5 in
             let mealOutliers := identifyOutliers mealPattern F32.lit_1_5 in
             Some (map correlation_found dayOutliers
                   ++ map correlation_found mealOutliers)
         | None => None
         end,
         a).

(** The sentences that [getInsights] writes before it asks for the
    forecast.  The stream keeps [std::fixed] and the precision 1 once they
    are set, so every float is written that way; the counts are integers.
    [stats.weightByType[...]] reads a copy of the statistics. *)
Definition insights_before_forecast (a : StatsAnalyzer) : list string :=
  let stats := m_currentStats a in
  let trend := m_dailyTrend a in
  let insights :=
    [("Total food waste recorded: " ++ ostream_fixed1 (totalWeight stats)
      ++ "g across " ++ Std.show_int (totalItems stats) ++ " items.")%string] in
  let insights :=
    match topWastedFoods stats with
    | [] => insights
    | top :: _ =>
        insights
        ++ [("The most wasted food is " ++ top ++ " at "
             ++ ostream_fixed1 match StdMap.sfind top (weightByType stats) with
                               | Some w => w
                               | None => F32.zero
                               end
             ++ "g.")%string]
    end in
  let insights :=
    if (1 <? List.length (values trend))%nat
    then insights
         ++ [("Waste is "
              ++ (if increasing trend then "increasing" else "decreasing")
              ++ " by " ++ ostream_fixed1 (F32.abs (changePercentage trend))
              ++ "% over the last "
              ++ Std.show_int (Z.of_nat (List.length (values trend)))
              ++ " days.")%string]
    else insights in
  let insights :=
    match weightByMeal stats with
    | [] => insights
    | first :: rest =>
        let maxMeal := max_element_from first rest in
        insights
        ++ [("The meal period with highest waste is " ++ fst maxMeal ++ " at "
             ++ ostream_fixed1 (snd maxMeal) ++ "g.")%string]
    end in
  let insights :=
    match weightByDay stats with
    | [] => insights
    | first :: rest =>
        let maxDay := max_element_from first rest in
        insights
        ++ [("The day with highest waste is " ++ fst maxDay ++ " at "
             ++ ostream_fixed1 (snd maxDay) ++ "g.")%string]
    end in
  if F32.ltb F32.zero (wasteSavedTotal stats)
  then insights
       ++ [("Waste has been reduced by "
            ++ ostream_fixed1 (wasteSavedTotal stats) ++ "g ("
            ++ ostream_fixed1 (wasteSavedPercentage stats)
            ++ "%) compared to the previous period.")%string]
  else insights.

(** The sentence about the forecast. *)
Definition forecast_insight (nextWeekPrediction : float) : string :=
  ("Predicted waste for next week: " ++ ostream_fixed1 nextWeekPrediction
   ++ "g.")%string.

Definition getInsights (now : Z) : AMethod (list string) :=
  fun a =>
    if m_insightsDirty a
       || match m_insights a with [] => true | _ => false end
    then
      (* [m_insights] is cleared and filled before the forecast is asked *)
      let a := with_insights a (insights_before_forecast a) (m_insightsDirty a) in
      r <- predictFutureWaste 7 now a ;;
      let '(nextWeekPrediction, a) := r in
      let insights := m_insights a ++ [forecast_insight nextWeekPrediction] in
      ret (insights, with_insights a insights false)
    else ret (m_insights a, a).

End Reports.

End Analysis.

(* ================================================================== *)
(** ** Sample data *)

Module Samples.
Import CLib Data Analysis.

(** 2024-03-10 (a Sunday) at 08:00:00 and at 23:59:59, UTC. *)
Definition morning : Z := 1710057600.
Definition last_second : Z := 1710115199.

(** Half a unit: [0.5f]. *)
Definition half : float := S754_finite false 8388608 (-24).

(** [-25.0f] *)
Definition minus_25 : float := F32.of_Z (-25).

Definition rice_lunch : WasteEntry :=
  {| foodType := "rice"; weight := F32.of_Z 120;
     timestamp := "2024-03-10 12:30:00"; confidence := half;
     mealPeriod := "Lunch"; imageFilename := "images/rice.jpg" |}.

Definition bread_boundary : WasteEntry :=
  {| foodType := "bread"; weight := F32.of_Z 40;
     timestamp := "2024-03-10 23:59:59"; confidence := half;
     mealPeriod := "Snack"; imageFilename := "" |}.

Definition negative_entry : WasteEntry :=
  {| foodType := "soup"; weight := minus_25;
     timestamp := "2024-03-10 12:30:00"; confidence := half;
     mealPeriod := "Lunch"; imageFilename := "" |}.

Definition undated_entry : WasteEntry :=
  {| foodType := "pasta"; weight := F32.of_Z 10;
     timestamp := "yesterday noon"; confidence := half;
     mealPeriod := "Lunch"; imageFilename := "" |}.

Definition comma_entry : WasteEntry :=
  {| foodType := "rice, fried"; weight := F32.of_Z 10;
     timestamp := "2024-03-10 12:30:00"; confidence := half;
     mealPeriod := "Lunch"; imageFilename := "" |}.

(** A weight of 100/3 g, rounded to [float]: 33.33333206... *)
Definition third_entry : WasteEntry :=
  {| foodType := "beans"; weight := F32.div (F32.of_Z 100) (F32.of_Z 3);
     timestamp := "2024-03-10 18:05:00"; confidence := half;
     mealPeriod := "Dinner"; imageFilename := "" |}.

Definition noon_item : Detection.FoodItem :=
  {| Detection.className := "rice"; Detection.confidence := half;
     Detection.boundingBox := (0, 0, 64, 64);
     Detection.estimatedWeight := F32.of_Z 120; Detection.isWaste := true;
     Detection.timestamp := "2024-03-10 12:30:00" |}.

(** A database created in the morning on a machine with no file yet. *)
Definition fresh : WasteDatabase :=
  final (WasteDatabase_new (P := RefLib.ref_platform) "data/waste.csv" NoFile morning).

Definition ledger_of (entries : list WasteEntry) : WasteDatabase :=
  with_entries fresh entries true.

(** An analyzer whose daily trend is the series 100, 50, 0 and whose model
    is fitted to it. *)
Definition falling : StatsAnalyzer :=
  {| m_currentStats := WasteStatistics_new;
     m_dailyTrend := trend_of [("2024-03-08", F32.of_Z 100);
                               ("2024-03-09", F32.of_Z 50);
                               ("2024-03-10", F32.zero)];
     m_foodTypeTrends := []; m_mealPeriodTrends := [];
     m_wastePredictionModel :=
       createPredictionModel [F32.of_Z 100; F32.of_Z 50; F32.zero];
     m_insights := []; m_insightsDirty := true |}.

Definition blank : StatsAnalyzer :=
  {| m_currentStats := WasteStatistics_new; m_dailyTrend := TrendData_new;
     m_foodTypeTrends := []; m_mealPeriodTrends := [];
     m_wastePredictionModel := PredictionModel_new;
     m_insights := []; m_insightsDirty := true |}.

End Samples.

(* ================================================================== *)
(** ** Predicates of the statements *)

Module Props.
Import CLib Data Analysis.

Section WithPlatform.
Context {P : Platform}.

(** The calendar time of a broken-down time. *)
Definition instant (t : tm) : Z := fst (mktime t).

(** The snapshot that a request leaves in the cache. *)
Definition refreshed (now : Z) (db : WasteDatabase) : WasteDatabase :=
  with_statistics db (calculateStatistics now (m_entries db)) false.

(** The total weight is the running [+=] over the entries, in order. *)
Definition sum_weights (entries : list WasteEntry) : float :=
  fold_left (fun total entry => F32.add total (weight entry)) entries F32.zero.

(** The cached snapshot, when it is not marked dirty, is a snapshot of the
    current entries (computed at some time). *)
Definition cache_coherent (db : WasteDatabase) : Prop :=
  m_statisticsDirty db = false ->
  exists now, m_statistics db = calculateStatistics now (m_entries db).

(** The time of day is inside the range, bounds included. *)
Definition in_range (range : TimeRange) (hour minute : Z) : bool :=
  (startHour range * 60 + startMinute range <=? hour * 60 + minute)
  && (hour * 60 + minute <=? endHour range * 60 + endMinute range).

(** What the loop of [filterEntriesByDate] keeps, given the calendar
    times of the two bounds. *)
Definition passes (hasStartDate hasEndDate : bool) (startTime endTime : Z)
  (entry : WasteEntry) : bool :=
  match get_time (timestamp entry) timestamp_format with
  | None => false
  | Some entryTm =>
      (if hasStartDate then startTime <=? instant entryTm else true)
      && (if hasEndDate then instant entryTm <=? endTime else true)
  end.

(** The entry passes the date filter of [filterEntriesByDate]. *)
Definition in_window (startDate endDate : string) (entry : WasteEntry) : bool :=
  match get_time (timestamp entry) timestamp_format with
  | None => false
  | Some entryTm =>
      (if Std.empty startDate then true
       else match get_time startDate date_format with
            | Some startTm => instant startTm <=? instant entryTm
            | None => true
            end)
      && (if Std.empty endDate then true
          else match get_time endDate date_format with
               | Some endTm => instant entryTm <=? instant (end_of_day endTm)
               | None => true
               end)
  end.

(** The character does not occur in the text. *)
Fixpoint lacks (c : ascii) (s : string) : bool :=
  match s with
  | EmptyString => true
  | String c' r => negb (Ascii.eqb c' c) && lacks c r
  end.

(** The text has no comma and no line feed. *)
Definition plain (s : string) : bool := lacks "," s && lacks Std.nl s.

(** An entry that the file format can hold: its texts are [plain], and
    its two floats are written as plain text that [std::stof] reads back
    to the same float. *)
Definition storable (entry : WasteEntry) : Prop :=
  plain (foodType entry) = true
  /\ plain (timestamp entry) = true
  /\ plain (mealPeriod entry) = true
  /\ plain (imageFilename entry) = true
  /\ plain (ostream_float (weight entry)) = true
  /\ plain (ostream_float (confidence entry)) = true
  /\ stof (ostream_float (weight entry)) = Some (weight entry)
  /\ stof (ostream_float (confidence entry)) = Some (confidence entry).

End WithPlatform.



(** The float is one of the two zeros. *)
Definition is_zero (x : float) : bool :=
  match x with S754_zero _ => true | _ => false end.

(** Zero or NaN. *)
Definition zero_or_nan (x : float) : bool := is_zero x || F32.is_nan x.


(** The label of a meal period, as [getMealPeriodString] spells it. *)
Definition label_of (period : MealPeriod) : string :=
  match period with
  | BREAKFAST => "Breakfast"
  | LUNCH => "Lunch"
  | DINNER => "Dinner"
  | SNACK => "Snack"
  | UNKNOWN => "Unknown"
  end.

(** The entry that [addDetection] builds from a detected item. *)
Definition entry_of (label : string) (item : Detection.FoodItem) : WasteEntry :=
  {| foodType := Detection.className item;
     weight := Detection.estimatedWeight item;
     timestamp := Detection.timestamp item;
     confidence := Detection.confidence item;
     mealPeriod := label;
     imageFilename := "" |}.

(** The keys of a map increase strictly. *)
Definition increasing_keys {V} (m : smap V) : Prop :=
  Sorted.StronglySorted
    (fun a b : string * V => String.compare (fst a) (fst b) = Lt) m.

(** The sum of the counts of a map. *)
Definition sum_counts (m : smap Z) : Z := fold_right Z.add 0 (map snd m).

Section MorePredicates.
Context {P : Platform}.

(** The timestamp of the entry parses. *)
Definition dated (entry : WasteEntry) : bool :=
  match get_time (timestamp entry) timestamp_format with
  | Some _ => true
  | None => false
  end.

(** The entry answers the query: its food type is the one asked for (any,
    when none is), and, when a date is given, its timestamp parses and
    lies within the dates that parse. *)
Definition matches_query (foodType_ startDate endDate : string)
  (entry : WasteEntry) : bool :=
  (Std.empty foodType_ || String.eqb (foodType entry) foodType_)
  && ((Std.empty startDate && Std.empty endDate)
      || in_window startDate endDate entry).

(** The public operations that return, and the statistics requests. *)
Inductive Operation :=
| AddEntry (entry : WasteEntry)
| AddDetections (items : Detection.DetectionResult)
| SetMealPeriod (period : MealPeriod)
| RegisterChangeCallback
| GetEntries (foodType_ startDate endDate : string)
| GetStatistics (period : TimePeriod) (now : Z)
| GetTopWastedFoods (limit : Z) (now : Z)
| GetAverageWastePerDay (period : TimePeriod) (now : Z)
| SaveToFile.

(** The database after an operation. *)
Definition perform (db : WasteDatabase) (op : Operation) : WasteDatabase :=
  match op with
  | AddEntry entry => final (call (addEntry entry) db)
  | AddDetections items => final (call (addDetections items) db)
  | SetMealPeriod period => final (call (setMealPeriod period) db)
  | RegisterChangeCallback => final (call registerChangeCallback db)
  | GetEntries f s e => final (call (getEntries f s e) db)
  | GetStatistics period now => final (call (getStatistics period now) db)
  | GetTopWastedFoods limit now => final (call (getTopWastedFoods limit now) db)
  | GetAverageWastePerDay period now =>
      final (call (getAverageWastePerDay period now) db)
  | SaveToFile => final (call saveToFile db)
  end.

End MorePredicates.

(** The comparison [a <= b] of two floats holds. *)
Definition le (a b : float) : Prop := F32.leb a b = true.

(** [v += entry.weight] *)
Definition weigh (entry : WasteEntry) (v : float) : float :=
  F32.add v (weight entry).

(** The keys under which the snapshot files an entry. *)
Definition by_type (entry : WasteEntry) : option string := Some (foodType entry).
Definition by_meal (entry : WasteEntry) : option string := Some (mealPeriod entry).

Section Keys.
Context {P : Platform}.

(** The timestamp of the entry, when it parses, printed with [fmt]. *)
Definition by_time (fmt : string) (entry : WasteEntry) : option string :=
  match get_time (timestamp entry) timestamp_format with
  | Some t => Some (put_time t fmt)
  | None => None
  end.

(** The weight on record for a key: the [+=] sum over the entries of that
    key, in ledger order; none when no entry has the key. *)
Definition group_weight (key : WasteEntry -> option string) (k : string)
  (entries : list WasteEntry) : option float :=
  match filter (fun entry => match key entry with
                             | Some k' => String.eqb k' k
                             | None => false
                             end) entries with
  | [] => None
  | sel => Some (sum_weights sel)
  end.

(** The number of entries on record for a key; none when there is none. *)
Definition group_count (key : WasteEntry -> option string) (k : string)
  (entries : list WasteEntry) : option Z :=
  match filter (fun entry => match key entry with
                             | Some k' => String.eqb k' k
                             | None => false
                             end) entries with
  | [] => None
  | sel => Some (Z.of_nat (List.length sel))
  end.

(** The last loop of [getWasteTrend]: an entry adds its weight under its
    date when the date is a key of the trend. *)
Definition add_dated (trend : smap float) (entry : WasteEntry) : smap float :=
  match get_time (timestamp entry) timestamp_format with
  | Some t =>
      let dateStr := put_time t date_format in
      if StdMap.count String.compare dateStr trend
      then StdMap.add_weight dateStr (weight entry) trend
      else trend
  | None => trend
  end.

(** The name of the weekday of an entry whose timestamp parses:
    [dayNames[tm.tm_wday]]. *)
Definition weekday_of (entry : WasteEntry) : option string :=
  match get_time (timestamp entry) timestamp_format with
  | Some t => Some (nth (Z.to_nat (tm_wday t)) dayNames EmptyString)
  | None => None
  end.

(** Every timestamp that parses has a weekday from 0 (Sunday) to 6. *)
Definition weekdays_in_range (entries : list WasteEntry) : Prop :=
  forall entry t,
    In entry entries ->
    get_time (timestamp entry) timestamp_format = Some t ->
    0 <= tm_wday t < 7.

(** The average weight of the entries of a key: their [+=] sum divided by
    their number; 0 when there is none. *)
Definition group_average (key : WasteEntry -> option string) (k : string)
  (entries : list WasteEntry) : float :=
  match filter (fun entry => match key entry with
                             | Some k' => String.eqb k' k
                             | None => false
                             end) entries with
  | [] => F32.zero
  | sel => F32.div (sum_weights sel) (F32.of_Z (Z.of_nat (List.length sel)))
  end.

(** The value is more than [threshold] standard deviations away from the
    mean of the distribution. *)
Definition far_from_mean (data : smap float) (threshold : float)
  (kv : string * float) : bool :=
  F32.ltb threshold
          (zScore (snd kv) (fst (mean_stdDev data)) (snd (mean_stdDev data))).

End Keys.

(** The date text of an entry: the first ten characters of its timestamp,
    parsed or not. *)
Definition by_date_text (entry : WasteEntry) : option string :=
  Some (substring 0 10 (timestamp entry)).

(** The same for the entries of one meal period; the others have none. *)
Definition by_date_text_in (mealPeriod_ : string) (entry : WasteEntry)
  : option string :=
  if String.eqb (mealPeriod entry) mealPeriod_
  then Some (substring 0 10 (timestamp entry))
  else None.

(** The labels increase strictly, compared as texts. *)
Definition increasing_labels (labels : list string) : Prop :=
  Sorted.StronglySorted (fun a b : string => String.compare a b = Lt) labels.

(** A map filled in a loop, [for (e : es) m[key(e)] = f(e, m[key(e)])],
    where an element may have no key and then leaves the map as it is. *)
Section Grouping.
Context {A V : Type}.
Variable key : A -> option string.
Variable f : A -> V -> V.
Variable d : V.

Definition fill_step (m : smap V) (e : A) : smap V :=
  match key e with
  | Some k => StdMap.modify String.compare k (f e) d m
  | None => m
  end.

Definition has_key (k : string) (e : A) : bool :=
  match key e with Some k' => String.eqb k' k | None => false end.

End Grouping.

End Props.

(** Unfolds a call down to the members it reads and writes. *)
Ltac run_method :=
  unfold Data.call, Data.lock_guard, Data.bind, Data.this, Data.assign, Data.ret.

(* ================================================================== *)
(** ** Appending to the ledger *)

Module Append.
Import CLib Data Samples.

(** [addEntry] takes the mutex once, so it returns from any caller that
    does not hold it, with the entry at the end of the ledger. *)
Lemma addEntry_returns (entry : WasteEntry) (db : WasteDatabase) :
  call (addEntry entry) db =
  Returns tt (with_callbacks (with_entries db (m_entries db ++ [entry]) true)
                (m_changeCallbacks db) (invoked db ++ m_changeCallbacks db)).
Proof. reflexivity. Qed.

(** C1, as the code has it: append does not look at the weight.  For every
    observation, negative weight included, [addEntry] returns (it has no
    result to signal a failure with), the ledger is the old one followed
    by exactly that entry, the dirty flag is set, and the cached snapshot,
    the meal period state and the file are as before. *)
Theorem addEntry_appends_whatever_the_weight :
  forall (entry : WasteEntry) (db : WasteDatabase),
  exists db',
    call (addEntry entry) db = Returns tt db'
    /\ m_entries db' = m_entries db ++ [entry]
    /\ m_statisticsDirty db' = true
    /\ m_statistics db' = m_statistics db
    /\ m_currentMealPeriod db' = m_currentMealPeriod db
    /\ disk db' = disk db.
Proof.
  intros entry db. eexists. split; [apply addEntry_returns|].
  repeat split.
Qed.

(** C1 as stated fails: an observation of weight -25 is appended, and the
    dirty flag, clear before, is set. *)
Lemma negative_weight_is_appended :
  F32.ltb (weight negative_entry) F32.zero = true
  /\ call (addEntry negative_entry) (with_entries fresh [] false)
     = Returns tt (with_entries fresh [negative_entry] true).
Proof. split; reflexivity. Qed.

End Append.

(* ================================================================== *)
(** ** The meal period of a stored entry *)

Module Meal.
Import CLib Data Props Samples.

Section WithPlatform.
Context {P : Platform}.

Lemma determineMealPeriod_in_none (ranges : list (MealPeriod * TimeRange))
  (hour minute : Z) :
  forallb (fun pr => negb (in_range (snd pr) hour minute)) ranges = true ->
  determineMealPeriod_in ranges hour minute = SNACK.
Proof.
  induction ranges as [|[period range] rest IH]; simpl; [reflexivity|].
  intros H. apply andb_true_iff in H. destruct H as [Hout Hrest].
  unfold in_range in Hout. apply negb_true_iff in Hout.
  rewrite Hout. auto.
Qed.

(** The first range, in the order of the map, that holds the time names
    the period. *)
Lemma determineMealPeriod_in_first (before after : list (MealPeriod * TimeRange))
  (period : MealPeriod) (range : TimeRange) (hour minute : Z) :
  forallb (fun pr => negb (in_range (snd pr) hour minute)) before = true ->
  in_range range hour minute = true ->
  determineMealPeriod_in (before ++ (period, range) :: after) hour minute = period.
Proof.
  induction before as [|[p r] rest IH]; simpl; intros Hb Hin.
  - unfold in_range in Hin. rewrite Hin. reflexivity.
  - apply andb_true_iff in Hb. destruct Hb as [Hout Hrest].
    unfold in_range in Hout. apply negb_true_iff in Hout.
    rewrite Hout. auto.
Qed.

(** The table that [initializeMealPeriods] sets up. *)
Lemma WasteDatabase_new_ranges (path : string) (file : File) (now : Z) :
  m_mealTimeRanges (final (WasteDatabase_new path file now))
  = [(BREAKFAST, {| startHour := 6; startMinute := 0;
                    endHour := 10; endMinute := 30 |});
     (LUNCH, {| startHour := 11; startMinute := 0;
                endHour := 14; endMinute := 30 |});
     (DINNER, {| startHour := 17; startMinute := 0;
                 endHour := 21; endMinute := 0 |});
     (SNACK, {| startHour := 21; startMinute := 0;
                endHour := 23; endMinute := 59 |})].
Proof.
  unfold WasteDatabase_new, call, initialize, loadFromFile,
    initializeMealPeriods, bind, lock_guard, this, assign, ret.
  destruct file as [| |text]; cbn; try reflexivity.
  destruct (read_entries _ _) as [entries [|]]; reflexivity.
Qed.

(** A new database takes its current meal period from the wall clock, by
    the table. *)
Lemma WasteDatabase_new_current_period (path : string) (file : File) (now : Z) :
  m_currentMealPeriod (final (WasteDatabase_new path file now))
  = determineMealPeriod_hm (final (WasteDatabase_new path file now))
      (tm_hour (localtime now)) (tm_min (localtime now)).
Proof.
  unfold determineMealPeriod_hm. rewrite WasteDatabase_new_ranges.
  unfold WasteDatabase_new, call, initialize, loadFromFile,
    initializeMealPeriods, bind, lock_guard, this, assign, ret.
  destruct file as [| |text]; cbn; try reflexivity.
  destruct (read_entries _ _) as [entries [|]]; reflexivity.
Qed.

End WithPlatform.

(** C2, as the code has it: [addDetection] stores the label of the
    database's current meal period (set from the wall clock when the
    database is created, or by [setMealPeriod]), whatever the timestamp of
    the observation; [addEntry] stores the meal period it is given.  The
    classifier of timestamps, which append does not call, gives [UNKNOWN]
    for a timestamp that does not parse and [SNACK] for one whose time of
    day is in no configured range. *)
Theorem addDetection_stores_current_meal_period :
  forall (P : Platform) (item : Detection.FoodItem) (db : WasteDatabase)
         (ts : string),
    (exists label,
        call getMealPeriodString db = Returns label db
        /\ label = match m_currentMealPeriod db with
                   | BREAKFAST => "Breakfast"
                   | LUNCH => "Lunch"
                   | DINNER => "Dinner"
                   | SNACK => "Snack"
                   | UNKNOWN => "Unknown"
                   end
        /\ call (addDetection item) db
           = call (addEntry {| foodType := Detection.className item;
                               weight := Detection.estimatedWeight item;
                               timestamp := Detection.timestamp item;
                               confidence := Detection.confidence item;
                               mealPeriod := label;
                               imageFilename := "" |}) db
        /\ m_entries (final (call (addDetection item) db))
           = m_entries db
             ++ [{| foodType := Detection.className item;
                    weight := Detection.estimatedWeight item;
                    timestamp := Detection.timestamp item;
                    confidence := Detection.confidence item;
                    mealPeriod := label;
                    imageFilename := "" |}])
    /\ (get_time ts timestamp_format = None ->
        determineMealPeriod db ts = UNKNOWN)
    /\ (forall t, get_time ts timestamp_format = Some t ->
        forallb (fun pr => negb (in_range (snd pr) (tm_hour t) (tm_min t)))
                (m_mealTimeRanges db) = true ->
        determineMealPeriod db ts = SNACK).
Proof.
  intros P item db ts. split; [|split].
  - eexists. split; [|split; [|split]]; reflexivity.
  - intros H. unfold determineMealPeriod. rewrite H. reflexivity.
  - intros t H Hout. unfold determineMealPeriod, determineMealPeriod_hm.
    rewrite H. apply determineMealPeriod_in_none. exact Hout.
Qed.

(** On the reference library: an observation of 03:15 falls in no range
    of the table and is classified [SNACK]; one with no date is
    [UNKNOWN]; and [addDetection] stores ["Breakfast"] in both cases. *)
Lemma addDetection_stores_current_meal_period_witness :
  determineMealPeriod (P := RefLib.ref_platform) fresh "2024-03-10 03:15:00" = SNACK
  /\ determineMealPeriod (P := RefLib.ref_platform) fresh "yesterday noon" = UNKNOWN
  /\ call getMealPeriodString fresh = Returns "Breakfast" fresh.
Proof.
  destruct (addDetection_stores_current_meal_period RefLib.ref_platform
              noon_item fresh "2024-03-10 03:15:00") as [_ [_ Hsnack]].
  destruct (addDetection_stores_current_meal_period RefLib.ref_platform
              noon_item fresh "yesterday noon") as [_ [Hunknown _]].
  split; [|split].
  - apply (Hsnack (mk_tm 0 15 3 10 2 124 0 69 0)); reflexivity.
  - apply Hunknown; reflexivity.
  - reflexivity.
Defined.

(** C2 as stated fails: the observation is stamped 12:30, which the table
    classifies as lunch, and the entry stored for it says ["Breakfast"],
    the period of the morning in which the database was created. *)
Lemma meal_period_is_not_taken_from_the_timestamp :
  determineMealPeriod (P := RefLib.ref_platform) fresh
                      (Detection.timestamp noon_item) = LUNCH
  /\ map mealPeriod (m_entries (final (call (addDetection noon_item) fresh)))
     = ["Breakfast"].
Proof. split; reflexivity. Qed.

End Meal.

(* ================================================================== *)
(** ** Statistics requests and the mutex *)

Module Locking.
Import CLib Data Props Samples.

Section WithPlatform.
Context {P : Platform}.

(** A request for the whole ledger takes the mutex once and returns. *)
Lemma getStatistics_ALL_TIME (now : Z) (db : WasteDatabase) :
  call (getStatistics ALL_TIME now) db =
  if m_statisticsDirty db
  then Returns (calculateStatistics now (m_entries db)) (refreshed now db)
  else Returns (m_statistics db) db.
Proof.
  unfold getStatistics. run_method. simpl.
  destruct (m_statisticsDirty db); reflexivity.
Qed.

(** A request for a bounded period refreshes the cache and then calls
    [getEntries] while it still holds the mutex. *)
Lemma getStatistics_bounded (period : TimePeriod) (now : Z) (db : WasteDatabase) :
  is_ALL_TIME period = false ->
  call (getStatistics period now) db = SelfDeadlock (refreshed now db).
Proof.
  intros H. unfold getStatistics. run_method.
  rewrite H. rewrite orb_true_r. reflexivity.
Qed.

(** No statistics request touches the entries. *)
Lemma getStatistics_keeps_entries (period : TimePeriod) (now : Z)
  (db : WasteDatabase) :
  m_entries (final (call (getStatistics period now) db)) = m_entries db.
Proof.
  destruct (is_ALL_TIME period) eqn:H.
  - destruct period; try discriminate H.
    rewrite getStatistics_ALL_TIME. destruct (m_statisticsDirty db); reflexivity.
  - rewrite (getStatistics_bounded period now db H). reflexivity.
Qed.

End WithPlatform.

(** C10: the code misses it.  A request for [DAY], [WEEK], [MONTH] or
    [YEAR] does recompute the cached all-time snapshot from the current
    entries and clear the dirty flag, and it leaves the entries as they
    are; but it then calls [getEntries] with [m_databaseMutex] still
    locked by its own [std::lock_guard], and so never returns: no request
    can follow it. *)
Theorem getStatistics_bounded_period_never_returns :
  forall (P : Platform) (now : Z) (db : WasteDatabase),
    Forall
      (fun period =>
         call (getStatistics period now) db
         = SelfDeadlock
             (with_statistics db (calculateStatistics now (m_entries db)) false))
      [DAY; WEEK; MONTH; YEAR].
Proof.
  intros P now db.
  repeat constructor; apply getStatistics_bounded; reflexivity.
Qed.

End Locking.

(* ================================================================== *)
(** ** The cached snapshot *)

Module Cache.
Import CLib Data Props Samples.

Lemma to_int_small (z : Z) : 0 <= z < 2 ^ 31 -> Std.to_int z = z.
Proof.
  intros H. unfold Std.to_int.
  change (2 ^ 31) with 2147483648 in *. change (2 ^ 32) with 4294967296.
  rewrite Z.mod_small by lia. lia.
Qed.

Section WithPlatform.
Context {P : Platform}.



Lemma calculateStatistics_totalItems (now : Z) (entries : list WasteEntry) :
  totalItems (calculateStatistics now entries)
  = Std.to_int (Z.of_nat (List.length entries)).
Proof.
  destruct entries as [|e es]; [reflexivity|].
  unfold calculateStatistics.
  destruct (fold_left (accumulate_week now) (e :: es) (F32.zero, F32.zero)).
  reflexivity.
Qed.


(** *** The invariant of the dirty flag *)




(** A load that succeeds marks the cache dirty; one that stops at a record
    [std::stof] rejects leaves the flag as it was. *)
Lemma cache_coherent_loadFromFile (db : WasteDatabase) :
  m_statisticsDirty db = true ->
  cache_coherent (final (call loadFromFile db)).
Proof.
  intros Hd. unfold cache_coherent, loadFromFile. run_method.
  destruct (disk db) as [| |text]; cbn; try (rewrite Hd; discriminate).
  destruct (read_entries _ _) as [entries [|]]; cbn;
    [discriminate|rewrite Hd; discriminate].
Qed.


End WithPlatform.



End Cache.

(* ================================================================== *)
(** ** The date filter of a query *)

Module Query.
Import CLib Data Props Samples.

Section WithPlatform.
Context {P : Platform}.

(** [mktime] writes the normalised time back, and the next [mktime] of it
    gives the same calendar time: the loop compares every entry with the
    bounds as first parsed. *)
Lemma filterEntriesByDate_loop_filter (hasStartDate hasEndDate : bool)
  (entries : list WasteEntry) :
  forall startTm endTm : tm,
    filterEntriesByDate_loop hasStartDate hasEndDate startTm endTm entries
    = filter (passes hasStartDate hasEndDate (instant startTm) (instant endTm))
             entries.
Proof.
  induction entries as [|entry rest IH]; intros startTm endTm; [reflexivity|].
  cbn [filterEntriesByDate_loop filter]. unfold passes at 1.
  destruct (get_time (timestamp entry) timestamp_format) as [entryTm|];
    [|apply IH].
  pose proof (mktime_stable entryTm) as HstE.
  pose proof (mktime_stable startTm) as HstS.
  pose proof (mktime_stable endTm) as HstF.
  unfold instant in *.
  destruct (mktime entryTm) as [entryTime entryTm'] eqn:HE.
  destruct (mktime startTm) as [startTime startTm'] eqn:HS.
  destruct (mktime endTm) as [endTime endTm'] eqn:HF.
  cbn [fst snd] in *.
  destruct hasStartDate, hasEndDate; cbn [andb].
  - destruct (mktime entryTm') as [entryTime' entryTm''] eqn:HE'.
    cbn [fst] in HstE. subst entryTime'.
    rewrite IH, HstS, HstF.
    destruct ((startTime <=? entryTime) && (entryTime <=? endTime)); reflexivity.
  - rewrite IH, HstS, HF. cbn [fst]. rewrite andb_true_r. reflexivity.
  - rewrite HE. rewrite IH, HS, HstF. cbn [fst].
    destruct (entryTime <=? endTime); reflexivity.
  - rewrite IH, HS, HF. reflexivity.
Qed.

(** The date filter keeps, in their order, the entries [in_window]. *)
Lemma filterEntriesByDate_filter (entries : list WasteEntry)
  (startDate endDate : string) :
  filterEntriesByDate entries startDate endDate
  = filter (in_window startDate endDate) entries.
Proof.
  unfold filterEntriesByDate. rewrite filterEntriesByDate_loop_filter.
  apply filter_ext. intros entry. unfold passes, in_window.
  destruct (get_time (timestamp entry) timestamp_format) as [entryTm|];
    [|reflexivity].
  destruct (Std.empty startDate), (Std.empty endDate);
    try destruct (get_time startDate date_format);
    try destruct (get_time endDate date_format); reflexivity.
Qed.

(** A query takes the mutex once and returns. *)
Lemma getEntries_returns (foodType_ startDate endDate : string)
  (db : WasteDatabase) :
  call (getEntries foodType_ startDate endDate) db
  = Returns
      (let byType :=
         if Std.empty foodType_ then m_entries db
         else filter (fun entry => String.eqb (foodType entry) foodType_)
                     (m_entries db) in
       if Std.empty startDate && Std.empty endDate then byType
       else filter (in_window startDate endDate) byType)
      db.
Proof.
  unfold getEntries. run_method.
  rewrite <- filterEntriesByDate_filter.
  destruct (Std.empty foodType_), (Std.empty startDate), (Std.empty endDate);
    reflexivity.
Qed.

End WithPlatform.

(** C9: a query with an end date that parses returns every entry of the
    requested food type (any, when none is requested) whose timestamp
    parses to a calendar time no later than 23:59:59 of the end date (and
    no earlier than the start date, when one is given and parses); in
    particular an entry stamped at exactly 23:59:59 of the end date is
    returned. *)
Theorem end_date_is_inclusive_to_the_last_second :
  forall (P : Platform) (db : WasteDatabase) (foodType_ startDate endDate : string)
         (endTm entryTm : tm) (entry : WasteEntry),
    Std.empty endDate = false ->
    get_time endDate date_format = Some endTm ->
    In entry (m_entries db) ->
    Std.empty foodType_ = true \/ foodType entry = foodType_ ->
    get_time (timestamp entry) timestamp_format = Some entryTm ->
    (forall startTm,
        Std.empty startDate = false ->
        get_time startDate date_format = Some startTm ->
        instant startTm <= instant entryTm) ->
    exists result,
      call (getEntries foodType_ startDate endDate) db = Returns result db
      /\ (instant entryTm <= instant (end_of_day endTm) -> In entry result)
      /\ (entryTm = end_of_day endTm -> In entry result).
Proof.
  intros P db foodType_ startDate endDate endTm entryTm entry
         Hend Hparse Hin Htype Hts Hstart.
  eexists. split; [apply getEntries_returns|].
  assert (Hle : instant entryTm <= instant (end_of_day endTm) ->
                In entry
                  (let byType :=
                     if Std.empty foodType_ then m_entries db
                     else filter (fun entry => String.eqb (foodType entry) foodType_)
                                 (m_entries db) in
                   if Std.empty startDate && Std.empty endDate then byType
                   else filter (in_window startDate endDate) byType)).
  { intros Hbefore. cbv zeta. rewrite Hend, andb_false_r.
    apply filter_In. split.
    - destruct Htype as [Hany|Hsame].
      + rewrite Hany. exact Hin.
      + destruct (Std.empty foodType_); [exact Hin|].
        apply filter_In. split; [exact Hin|]. apply String.eqb_eq. exact Hsame.
    - unfold in_window. rewrite Hts, Hend, Hparse.
      apply andb_true_iff. split; [|apply Z.leb_le; exact Hbefore].
      destruct (Std.empty startDate) eqn:Hs; [reflexivity|].
      destruct (get_time startDate date_format) as [startTm|] eqn:Hps;
        [|reflexivity].
      apply Z.leb_le. apply Hstart; auto. }
  split; [exact Hle|].
  intros Heq. apply Hle. rewrite Heq. apply Z.le_refl.
Qed.

(** On the reference library: the entry stamped 2024-03-10 23:59:59 is
    returned by the query that ends on 2024-03-10 and starts on
    2024-03-01. *)
Lemma end_date_is_inclusive_to_the_last_second_witness :
  exists result,
    call (getEntries (P := RefLib.ref_platform) "" "2024-03-01" "2024-03-10")
         (ledger_of [rice_lunch; bread_boundary])
    = Returns result (ledger_of [rice_lunch; bread_boundary])
    /\ In bread_boundary result.
Proof.
  destruct (end_date_is_inclusive_to_the_last_second RefLib.ref_platform
              (ledger_of [rice_lunch; bread_boundary]) "" "2024-03-01" "2024-03-10"
              (mk_tm 0 0 0 10 2 124 0 69 0) (mk_tm 59 59 23 10 2 124 0 69 0)
              bread_boundary) as (result & Hcall & _ & Hboundary).
  - reflexivity.
  - vm_compute. reflexivity.
  - right. left. reflexivity.
  - left. reflexivity.
  - vm_compute. reflexivity.
  - intros startTm _ Hs. vm_compute in Hs. injection Hs as <-.
    vm_compute. discriminate.
  - exists result. split; [exact Hcall|]. apply Hboundary. reflexivity.
Defined.

End Query.

(* ================================================================== *)
(** ** The file of the ledger *)

Module Persistence.
Import CLib Data Props Samples.

Lemma append_assoc (a b c : string) :
  ((a ++ b) ++ c = a ++ (b ++ c))%string.
Proof. induction a as [|x a IH]; simpl; [reflexivity|]. rewrite IH. reflexivity. Qed.

Lemma lacks_app (c : ascii) (a b : string) :
  lacks c (a ++ b) = lacks c a && lacks c b.
Proof.
  induction a as [|x a IH]; simpl; [reflexivity|].
  rewrite IH. apply andb_assoc.
Qed.

(** *** One call of [getline] *)

Lemma split_at_delim (d : ascii) (tok rest : string) :
  lacks d tok = true ->
  Std.split_at d (tok ++ String d rest) = (tok, rest).
Proof.
  induction tok as [|x tok IH]; simpl; intros H.
  - rewrite Ascii.eqb_refl. reflexivity.
  - apply andb_true_iff in H. destruct H as [Hx Htok].
    apply negb_true_iff in Hx. rewrite Hx, (IH Htok). reflexivity.
Qed.

Lemma split_at_no_delim (d : ascii) (tok : string) :
  lacks d tok = true -> Std.split_at d tok = (tok, EmptyString).
Proof.
  induction tok as [|x tok IH]; simpl; intros H; [reflexivity|].
  apply andb_true_iff in H. destruct H as [Hx Htok].
  apply negb_true_iff in Hx. rewrite Hx, (IH Htok). reflexivity.
Qed.

Lemma getline_delim (d : ascii) (tok rest : string) :
  lacks d tok = true ->
  Std.getline d (tok ++ String d rest) = Some (tok, rest).
Proof.
  intros H. unfold Std.getline.
  rewrite <- (split_at_delim d tok rest H).
  destruct tok; reflexivity.
Qed.

(** The last field of a line: what is left is the token, and nothing left
    keeps the default, the empty text. *)
Lemma getline_last (d : ascii) (tok : string) :
  lacks d tok = true ->
  match Std.getline d tok with
  | Some (token, _) => token
  | None => EmptyString
  end = tok.
Proof.
  intros H. destruct tok as [|x tok]; [reflexivity|].
  unfold Std.getline. rewrite (split_at_no_delim d _ H). reflexivity.
Qed.

(** *** The lines of a file *)

Lemma getline_all_line (d : ascii) (line rest : string) :
  lacks d line = true ->
  Std.getline_all d (line ++ String d rest) = line :: Std.getline_all d rest.
Proof.
  induction line as [|x line IH]; simpl; intros H.
  - rewrite Ascii.eqb_refl. reflexivity.
  - apply andb_true_iff in H. destruct H as [Hx Hline].
    apply negb_true_iff in Hx. rewrite Hx, (IH Hline). reflexivity.
Qed.

(** [getline_all] is the loop over [getline]. *)
Lemma getline_all_step (d : ascii) (s : string) :
  Std.getline_all d s =
  match Std.getline d s with
  | Some (tok, rest) => tok :: Std.getline_all d rest
  | None => []
  end.
Proof.
  induction s as [|x s IH]; [reflexivity|].
  unfold Std.getline. cbn [Std.getline_all Std.split_at].
  destruct (Ascii.eqb x d); [reflexivity|].
  rewrite IH. unfold Std.getline.
  destruct s as [|y s]; [reflexivity|].
  destruct (Std.split_at d (String y s)) as [tok rest]. reflexivity.
Qed.

Section WithPlatform.
Context {P : Platform}.

Lemma storable_record_lacks_nl (entry : WasteEntry) :
  storable entry -> lacks Std.nl (record_text entry) = true.
Proof.
  intros (Hf & Ht & Hm & Hi & Hw & Hc & _ & _).
  unfold plain in *.
  apply andb_true_iff in Hf, Ht, Hm, Hi, Hw, Hc.
  unfold record_text. rewrite !lacks_app. cbn [lacks].
  destruct Hf as [_ ->], Ht as [_ ->], Hm as [_ ->], Hi as [_ ->],
           Hw as [_ ->], Hc as [_ ->].
  reflexivity.
Qed.

Lemma write_file_lines (entries : list WasteEntry) :
  Forall storable entries ->
  Std.getline_all Std.nl (write_file entries) = header :: map record_text entries.
Proof.
  intros H. unfold write_file, nl_string. rewrite append_assoc.
  cbn [append]. rewrite getline_all_line by reflexivity. f_equal.
  induction H as [|entry rest Hentry Hrest IH]; [reflexivity|].
  cbn [write_entries map]. unfold nl_string. rewrite append_assoc.
  cbn [append]. rewrite getline_all_line by (apply storable_record_lacks_nl; exact Hentry).
  rewrite IH. reflexivity.
Qed.

Lemma read_entry_record_text (entry : WasteEntry) :
  storable entry -> read_entry (record_text entry) = Some entry.
Proof.
  intros (Hf & Ht & Hm & Hi & Hw & Hc & Hsw & Hsc).
  unfold plain in *.
  apply andb_true_iff in Hf, Ht, Hm, Hi, Hw, Hc.
  destruct Hf as [Hf _], Ht as [Ht _], Hm as [Hm _], Hi as [Hi _],
           Hw as [Hw _], Hc as [Hc _].
  destruct entry as [f w t c m i]. cbn [foodType weight timestamp confidence
    mealPeriod imageFilename] in *.
  unfold read_entry, record_text.
  cbn [foodType weight timestamp confidence mealPeriod imageFilename append].
  rewrite (getline_delim _ f _ Hf).
  rewrite (getline_delim _ _ _ Hw), Hsw.
  rewrite (getline_delim _ t _ Ht).
  rewrite (getline_delim _ _ _ Hc), Hsc.
  rewrite (getline_delim _ m _ Hm).
  pose proof (getline_last ","%char i Hi) as Hlast.
  destruct (Std.getline ","%char i) as [[token rest]|];
    cbn [WasteEntry_new imageFilename]; rewrite Hlast; reflexivity.
Qed.

Lemma read_entries_records (entries acc : list WasteEntry) :
  Forall storable entries ->
  read_entries (map record_text entries) acc = (acc ++ entries, true).
Proof.
  intros H. revert acc.
  induction H as [|entry rest Hentry Hrest IH]; intros acc; cbn [map read_entries].
  - rewrite app_nil_r. reflexivity.
  - rewrite (read_entry_record_text entry Hentry), IH, <- app_assoc. reflexivity.
Qed.

End WithPlatform.

(** C6, as the code has it: the file is the header line and then one
    record per entry, the fields in the order foodType, weight, timestamp,
    confidence, mealPeriod, imageFilename; nothing is quoted or escaped and
    a float is written in the stream's default format.  So persist and
    then load is the identity on the ledgers whose entries are
    [storable]: the four texts have no comma and no line feed, and the
    weight and the confidence are written as text that [std::stof] reads
    back to the same float. *)
Theorem load_after_save_restores_storable_entries :
  forall (P : Platform) (db : WasteDatabase),
    disk db <> Unopenable ->
    Forall storable (m_entries db) ->
    Std.getline_all Std.nl (write_file (m_entries db))
    = header :: map record_text (m_entries db)
    /\ call (_ <- saveToFile ;; loadFromFile) db
       = Returns true
           (with_entries
              (with_disk db (FileText (write_file (m_entries db))))
              (m_entries db) true).
Proof.
  intros P db Hopen Hstorable. split; [apply write_file_lines; exact Hstorable|].
  unfold saveToFile, loadFromFile. run_method.
  destruct (disk db) eqn:Hdisk; try contradiction;
    cbn [disk with_disk m_entries];
    rewrite (write_file_lines _ Hstorable); cbn [tl];
    rewrite (read_entries_records _ [] Hstorable); reflexivity.
Qed.

(** On the reference library: a ledger of two entries, weights 120 and
    40, confidence 0.5. *)
Lemma load_after_save_restores_storable_entries_witness :
  call (_ <- saveToFile (P := RefLib.ref_platform) ;;
        loadFromFile (P := RefLib.ref_platform))
       (ledger_of [rice_lunch; bread_boundary])
  = Returns true
      (with_entries
         (with_disk (ledger_of [rice_lunch; bread_boundary])
            (FileText (write_file (P := RefLib.ref_platform)
                         [rice_lunch; bread_boundary])))
         [rice_lunch; bread_boundary] true).
Proof.
  apply (load_after_save_restores_storable_entries RefLib.ref_platform
           (ledger_of [rice_lunch; bread_boundary])).
  - vm_compute. discriminate.
  - repeat constructor; vm_compute; reflexivity.
Defined.

(** C6 as stated fails.  A food type with a comma in it is written as it
    is, the loader takes the text after the comma for the weight,
    [std::stof] throws, and load returns false with no entry.  And a
    weight of 100/3 g is written with six significant digits, "33.3333",
    which reads back as another float. *)
Lemma load_after_save_is_not_the_identity :
  (exists db',
      call (_ <- saveToFile (P := RefLib.ref_platform) ;;
            loadFromFile (P := RefLib.ref_platform))
           (ledger_of [comma_entry]) = Returns false db'
      /\ m_entries db' = [])
  /\ (exists db',
        call (_ <- saveToFile (P := RefLib.ref_platform) ;;
              loadFromFile (P := RefLib.ref_platform))
             (ledger_of [third_entry]) = Returns true db'
        /\ map (fun entry => RefLib.ref_ostream_float (weight entry)) (m_entries db')
           = ["33.3333"]
        /\ m_entries db' <> [third_entry]).
Proof.
  split.
  - eexists. split; [vm_compute; reflexivity|reflexivity].
  - eexists. split; [vm_compute; reflexivity|]. split; [vm_compute; reflexivity|].
    intros H. vm_compute in H. discriminate H.
Qed.

End Persistence.

(* ================================================================== *)
(** ** Trends and forecasts *)

Module Trend.
Import CLib Data Analysis Props Samples.





Section WithPlatform.
Context {P : Platform}.

(** The trend of a bounded period starts with a statistics request for
    that period. *)
Lemma getWasteTrend_bounded (period : TimePeriod) (now : Z) (db : WasteDatabase) :
  is_ALL_TIME period = false ->
  call (getWasteTrend period now) db = SelfDeadlock (refreshed now db).
Proof.
  intros H. unfold call, getWasteTrend, bind.
  change (getStatistics period now false db)
    with (call (getStatistics period now) db).
  rewrite (Locking.getStatistics_bounded period now db H). reflexivity.
Qed.

(** The daily trend asks for a week, a month or a year. *)
Lemma analyzeDailyTrend_never_returns (days now : Z) (a : StatsAnalyzer)
  (db : WasteDatabase) :
  call (analyzeDailyTrend days now a) db = SelfDeadlock (refreshed now db).
Proof.
  unfold call, analyzeDailyTrend, bind.
  match goal with
  | |- context [getWasteTrend ?p now false db] =>
      change (getWasteTrend p now false db) with (call (getWasteTrend p now) db);
      rewrite (getWasteTrend_bounded p now db)
  end; [reflexivity|].
  destruct (days <=? 7); [reflexivity|]. destruct (days <=? 30); reflexivity.
Qed.

(** The refresh of a model of poor fit computes the daily trend: it never
    returns. *)
Lemma updateStats_never_returns (now : Z) (a : StatsAnalyzer) (db : WasteDatabase) :
  exists db', call (updateStats now a) db = SelfDeadlock db'.
Proof.
  unfold call, updateStats, bind.
  change (getStatistics ALL_TIME now false db)
    with (call (getStatistics ALL_TIME now) db).
  rewrite Locking.getStatistics_ALL_TIME.
  destruct (m_statisticsDirty db);
    match goal with
    | |- context [analyzeDailyTrend 30 now ?x false ?d] =>
        change (analyzeDailyTrend 30 now x false d)
          with (call (analyzeDailyTrend 30 now x) d);
        rewrite analyzeDailyTrend_never_returns
    end; eexists; reflexivity.
Qed.


End WithPlatform.

(** C7: the change of a series of fewer than two values is 0; for a longer
    series it is 0 when the first value is 0, and else
    (last - first) / first * 100, computed in [float]; the series 0, 5, 8
    gives 0; and the flag [increasing] of a trend is [changePercentage > 0],
    in particular in the trends returned for a food type and for a meal
    period. *)
Theorem change_is_the_endpoint_delta :
  forall (P : Platform) (series : list float) (key : string) (days : Z)
         (a : StatsAnalyzer) (db : WasteDatabase),
    calculateTrendPercentage series
    = match series with
      | [] | [_] => F32.zero
      | first :: _ =>
          if F32.eqb first F32.zero then F32.zero
          else F32.mul (F32.div (F32.sub (last series F32.zero) first) first)
                       F32.lit_100
      end
    /\ calculateTrendPercentage [F32.zero; F32.of_Z 5; F32.of_Z 8] = F32.zero
    /\ (forall sortedData : list (string * float),
           increasing (trend_of sortedData)
           = F32.ltb F32.zero (changePercentage (trend_of sortedData)))
    /\ (exists trend a',
           call (analyzeFoodTypeTrend key days a) db = Returns (trend, a') db
           /\ changePercentage trend = calculateTrendPercentage (values trend)
           /\ increasing trend = F32.ltb F32.zero (changePercentage trend))
    /\ (exists trend a',
           call (analyzeMealPeriodTrend key days a) db = Returns (trend, a') db
           /\ changePercentage trend = calculateTrendPercentage (values trend)
           /\ increasing trend = F32.ltb F32.zero (changePercentage trend)).
Proof.
  intros P series key days a db. split; [|split; [|split; [|split]]].
  - destruct series as [|first [|second rest]]; try reflexivity.
    unfold calculateTrendPercentage.
    change (List.length (first :: second :: rest) <? 2)%nat with false.
    cbv iota.
    destruct (performLinearRegression _ _) as [[i s] r]. reflexivity.
  - vm_compute. reflexivity.
  - reflexivity.
  - unfold call, analyzeFoodTypeTrend, bind.
    change (getEntries key "" "" false db) with (call (getEntries key "" "") db).
    rewrite Query.getEntries_returns.
    match goal with
    | |- context [match ?l with [] => _ | _ :: _ => _ end] => destruct l
    end; do 2 eexists; (split; [reflexivity|split; reflexivity]).
  - unfold call, analyzeMealPeriodTrend, bind.
    change (getEntries "" "" "" false db) with (call (getEntries "" "" "") db).
    rewrite Query.getEntries_returns.
    match goal with
    | |- context [match ?l with [] => _ | _ :: _ => _ end] => destruct l
    end; do 2 eexists; (split; [reflexivity|split; reflexivity]).
Qed.



End Trend.

(* ================================================================== *)
(** ** Entries whose timestamp does not parse *)

Module Undated.
Import CLib Data Analysis Props Samples.

Section WithPlatform.
Context {P : Platform}.

(** In the loop of [calculateStatistics], an entry whose timestamp does
    not parse adds its weight to the total, to its food type and to its
    meal period, and leaves the weekday, month and date buckets alone. *)
Lemma accumulate_entry_undated (acc : Totals) (entry : WasteEntry) :
  get_time (timestamp entry) timestamp_format = None ->
  accumulate_entry acc entry
  = {| t_totalWeight := F32.add (t_totalWeight acc) (weight entry);
       t_weightByType :=
         StdMap.add_weight (foodType entry) (weight entry) (t_weightByType acc);
       t_countByType := StdMap.incr (foodType entry) (t_countByType acc);
       t_weightByMeal :=
         StdMap.add_weight (mealPeriod entry) (weight entry) (t_weightByMeal acc);
       t_weightByDay := t_weightByDay acc;
       t_weightByMonth := t_weightByMonth acc;
       t_dailyWeight := t_dailyWeight acc |}.
Proof. intros H. unfold accumulate_entry. rewrite H. reflexivity. Qed.

(** The week-over-week sums skip it too. *)
Lemma accumulate_week_undated (now : Z) (acc : float * float) (entry : WasteEntry) :
  get_time (timestamp entry) timestamp_format = None ->
  accumulate_week now acc entry = acc.
Proof. intros H. unfold accumulate_week. rewrite H. destruct acc. reflexivity. Qed.

(** And a query with a date bound does not return it. *)
Lemma in_window_undated (startDate endDate : string) (entry : WasteEntry) :
  get_time (timestamp entry) timestamp_format = None ->
  in_window startDate endDate entry = false.
Proof. intros H. unfold in_window. rewrite H. reflexivity. Qed.

End WithPlatform.

(** C4: the code misses it in the trend of a food type.  The entry stamped
    ["yesterday noon"] does not parse; the all-time snapshot counts its 10 g
    in the total, the item count, its food type and its meal period, and
    has no weekday, month or daily bucket for it; but
    [analyzeFoodTypeTrend] takes the first ten characters of the
    timestamp for the date without parsing it, and returns a series with
    the bucket ["yesterday "] of 10 g. *)
Theorem food_type_trend_buckets_an_undated_entry :
  get_time (Platform := RefLib.ref_platform)
           (timestamp undated_entry) timestamp_format = None
  /\ (let stats :=
        calculateStatistics (P := RefLib.ref_platform) last_second [undated_entry] in
      totalWeight stats = F32.of_Z 10
      /\ totalItems stats = 1
      /\ weightByType stats = [("pasta", F32.of_Z 10)]
      /\ weightByMeal stats = [("Lunch", F32.of_Z 10)]
      /\ weightByDay stats = []
      /\ weightByMonth stats = []
      /\ Forall (fun w => w = F32.zero) (dailyTrend stats))
  /\ exists trend a',
       call (analyzeFoodTypeTrend (P := RefLib.ref_platform) "pasta" 30 blank)
            (ledger_of [undated_entry])
       = Returns (trend, a') (ledger_of [undated_entry])
       /\ timeLabels trend = ["yesterday "]
       /\ values trend = [F32.of_Z 10].
Proof.
  split; [vm_compute; reflexivity|]. split.
  - cbv zeta. repeat split; try (vm_compute; reflexivity).
    vm_compute. repeat constructor.
  - do 2 eexists. split; [vm_compute; reflexivity|].
    split; vm_compute; reflexivity.
Qed.

End Undated.

(* ================================================================== *)
(** ** Outliers *)

Module Outliers.
Import CLib Data Analysis Props Samples.

Lemma add_zero_zero (x y : float) :
  is_zero x = true -> is_zero y = true -> is_zero (F32.add x y) = true.
Proof.
  destruct x as [sx| | |]; try discriminate.
  destruct y as [sy| | |]; try discriminate.
  intros _ _. destruct sx, sy; reflexivity.
Qed.

Lemma mul_zero_zero (x y : float) :
  is_zero x = true -> is_zero y = true -> is_zero (F32.mul x y) = true.
Proof.
  destruct x as [sx| | |]; try discriminate.
  destruct y as [sy| | |]; try discriminate.
  reflexivity.
Qed.

Lemma div_zero_numerator (x y : float) :
  is_zero x = true -> zero_or_nan (F32.div x y) = true.
Proof.
  destruct x as [sx| | |]; try discriminate. intros _.
  destruct y; reflexivity.
Qed.

Lemma sqrt_zero_or_nan (x : float) :
  zero_or_nan x = true -> zero_or_nan (F32.sqrt x) = true.
Proof. destruct x; try discriminate; intros _; reflexivity. Qed.

(** 0 / 0 and 0 / NaN are NaN. *)
Lemma zScore_of_the_mean (value mean stdDev : float) :
  is_zero (F32.sub value mean) = true ->
  zero_or_nan stdDev = true ->
  zScore value mean stdDev = S754_nan.
Proof.
  unfold zScore. intros Hd Hs.
  destruct (F32.sub value mean) as [sd| | |]; try discriminate.
  destruct stdDev; try discriminate; reflexivity.
Qed.

(** No comparison with NaN holds. *)
Lemma ltb_nan (x : float) : F32.ltb x S754_nan = false.
Proof. destruct x; reflexivity. Qed.

Lemma varianceSum_zero (mean : float) (values : list float) (acc : float) :
  Forall (fun value => is_zero (F32.sub value mean) = true) values ->
  is_zero acc = true ->
  is_zero (fold_left (fun varianceSum value =>
                        let diff := F32.sub value mean in
                        F32.add varianceSum (F32.mul diff diff))
                     values acc) = true.
Proof.
  intros H. revert acc. induction H as [|v vs Hv Hvs IH]; intros acc Hacc;
    [exact Hacc|].
  cbn [fold_left]. apply IH. apply add_zero_zero; [exact Hacc|].
  apply mul_zero_zero; exact Hv.
Qed.

Lemma stdDev_zero_or_nan (data : smap float) :
  (forall kv, In kv data ->
     is_zero (F32.sub (snd kv) (fst (mean_stdDev data))) = true) ->
  zero_or_nan (snd (mean_stdDev data)) = true.
Proof.
  intros H. unfold mean_stdDev in *. cbn [fst snd] in *.
  apply sqrt_zero_or_nan, div_zero_numerator, varianceSum_zero; [|reflexivity].
  apply Forall_forall. intros v Hv. apply in_map_iff in Hv.
  destruct Hv as (kv & <- & Hkv). apply H. exact Hkv.
Qed.

(** C5: the code misses it in [identifyOutliers].  When every value of
    the distribution equals the mean ([value - mean] is zero), the
    standard deviation is zero and the loop divides by it with no guard:
    every z-score is 0 / 0, NaN.  No key is flagged, because no
    comparison with NaN holds. *)
Theorem identifyOutliers_divides_by_a_zero_deviation :
  forall (data : smap float) (threshold : float),
    (forall kv, In kv data ->
       is_zero (F32.sub (snd kv) (fst (mean_stdDev data))) = true) ->
    Forall (fun kz => snd kz = S754_nan) (zScores data)
    /\ identifyOutliers data threshold = [].
Proof.
  intros data threshold H.
  pose proof (stdDev_zero_or_nan data H) as Hsd.
  unfold zScores, identifyOutliers.
  destruct (mean_stdDev data) as [mean stdDev]. cbn [fst snd] in *.
  split.
  - apply Forall_forall. intros kz Hkz. apply in_map_iff in Hkz.
    destruct Hkz as (kv & <- & Hkv). cbn [snd].
    apply zScore_of_the_mean; auto.
  - destruct data as [|kv0 rest]; [reflexivity|].
    set (l := kv0 :: rest) in *.
    assert (Hall : forall kv, In kv l -> zScore (snd kv) mean stdDev = S754_nan)
      by (intros kv Hkv; apply zScore_of_the_mean; auto).
    clearbody l. clear H. induction l as [|kv l IH]; [reflexivity|].
    cbn [fold_left]. rewrite (Hall kv (or_introl eq_refl)), ltb_nan.
    apply IH. intros kv' Hkv'. apply Hall. right. exact Hkv'.
Qed.

(** Friday and Monday at 10 g each: the mean is 10, both z-scores are NaN
    and neither day is flagged at the threshold 1.5. *)
Lemma identifyOutliers_divides_by_a_zero_deviation_witness :
  Forall (fun kz => snd kz = S754_nan)
         (zScores [("Friday", F32.of_Z 10); ("Monday", F32.of_Z 10)])
  /\ identifyOutliers [("Friday", F32.of_Z 10); ("Monday", F32.of_Z 10)]
                      F32.lit_1_5 = [].
Proof.
  apply (identifyOutliers_divides_by_a_zero_deviation
           [("Friday", F32.of_Z 10); ("Monday", F32.of_Z 10)] F32.lit_1_5).
  intros kv [<-|[<-|[]]]; vm_compute; reflexivity.
Defined.

End Outliers.

(* ================================================================== *)
(** ** Batches of detections *)

Module Ledger.
Import CLib Data Samples Props.

Lemma addDetection_returns (item : Detection.FoodItem) (db : WasteDatabase) :
  call (addDetection item) db =
  Returns tt
    (with_callbacks
       (with_entries db
          (m_entries db ++ [entry_of (label_of (m_currentMealPeriod db)) item])
          true)
       (m_changeCallbacks db) (invoked db ++ m_changeCallbacks db)).
Proof. destruct db as [? ? ? ? []]; reflexivity. Qed.

Lemma addDetections_returns (items : Detection.DetectionResult) :
  forall db : WasteDatabase,
  call (addDetections items) db =
  Returns tt
    match items with
    | [] => db
    | _ =>
      with_callbacks
       (with_entries db
          (m_entries db
           ++ map (entry_of (label_of (m_currentMealPeriod db))) items)
          true)
       (m_changeCallbacks db)
       (invoked db
        ++ List.concat (repeat (m_changeCallbacks db) (List.length items)))
    end.
Proof.
  induction items as [|item rest IH]; intros db; [reflexivity|].
  change (call (addDetections (item :: rest)) db)
    with (match call (addDetection item) db with
          | Returns _ db' => call (addDetections rest) db'
          | SelfDeadlock db' => SelfDeadlock db'
          end).
  rewrite addDetection_returns, IH.
  destruct rest as [|item' rest]; simpl.
  - rewrite app_nil_r. reflexivity.
  - unfold with_callbacks, with_entries; simpl.
    rewrite <- !app_assoc. reflexivity.
Qed.

(** X1: A batch of detections is appended whole and in its order: the ledger
    is the old one followed by one entry per item, each with the item's
    class, weight, timestamp and confidence, an empty image name and the
    label of the meal period that was current when the batch arrived;
    every registered callback runs once per item; an unfiltered query
    then returns the old entries and the new ones in that order.  An
    empty batch changes nothing. *)
Theorem addDetections_appends_the_batch_in_order :
  forall (P : Platform) (items : Detection.DetectionResult) (db : WasteDatabase),
  exists db',
    call (addDetections items) db = Returns tt db'
    /\ m_entries db'
       = m_entries db ++ map (entry_of (label_of (m_currentMealPeriod db))) items
    /\ invoked db'
       = invoked db
         ++ List.concat (repeat (m_changeCallbacks db) (List.length items))
    /\ m_statisticsDirty db'
       = match items with [] => m_statisticsDirty db | _ => true end
    /\ m_statistics db' = m_statistics db
    /\ disk db' = disk db
    /\ call (getEntries "" "" "") db'
       = Returns (m_entries db
                  ++ map (entry_of (label_of (m_currentMealPeriod db))) items)
                 db'.
Proof.
  intros P items db. eexists. split; [apply addDetections_returns|].
  destruct items as [|item rest].
  - cbn [map List.length repeat List.concat]. rewrite !app_nil_r.
    repeat split.
  - repeat split.
Qed.

(** X2: The operator's choice of meal period labels every detection stored
    after it, whatever the timestamps of the items and the time ranges
    say. *)
Theorem setMealPeriod_labels_the_detections_after_it :
  forall (period : MealPeriod) (items : Detection.DetectionResult)
         (db : WasteDatabase),
  exists db',
    call (_ <- setMealPeriod period ;; addDetections items) db = Returns tt db'
    /\ m_currentMealPeriod db' = period
    /\ m_entries db' = m_entries db ++ map (entry_of (label_of period)) items
    /\ Forall (fun entry => mealPeriod entry = label_of period)
              (skipn (List.length (m_entries db)) (m_entries db')).
Proof.
  intros period items db.
  change (call (_ <- setMealPeriod period ;; addDetections items) db)
    with (call (addDetections items) (with_meal db (m_mealTimeRanges db) period)).
  rewrite addDetections_returns. eexists. split; [reflexivity|].
  assert (Hall : forall l, Forall (fun entry => mealPeriod entry = label_of period)
                  (map (entry_of (label_of period)) l)).
  { induction l; constructor; [reflexivity|assumption]. }
  destruct items as [|item rest].
  - cbn [map]. rewrite app_nil_r. repeat split.
    cbn [with_meal m_entries]. rewrite skipn_all. constructor.
  - cbn [with_callbacks with_entries with_meal m_entries m_currentMealPeriod].
    repeat split.
    rewrite skipn_app, skipn_all, Nat.sub_diag. cbn [skipn app]. apply Hall.
Qed.

End Ledger.

(* ================================================================== *)
(** ** What a query selects *)

Module Selection.
Import CLib Data Samples Props.

Lemma filter_filter {A} (f g : A -> bool) (l : list A) :
  filter f (filter g l) = filter (fun x => g x && f x) l.
Proof.
  induction l as [|x l IH]; [reflexivity|]. cbn [filter].
  destruct (g x); cbn [filter andb]; rewrite IH; reflexivity.
Qed.

Lemma filter_all {A} (f : A -> bool) (l : list A) :
  (forall x, In x l -> f x = true) -> filter f l = l.
Proof.
  induction l as [|x l IH]; intros H; [reflexivity|]. cbn [filter].
  rewrite (H x (or_introl eq_refl)), IH; [reflexivity|].
  intros y Hy. apply H. right. exact Hy.
Qed.

Section WithPlatform.
Context {P : Platform}.

Lemma getEntries_matches (foodType_ startDate endDate : string)
  (db : WasteDatabase) :
  call (getEntries foodType_ startDate endDate) db
  = Returns (filter (matches_query foodType_ startDate endDate) (m_entries db))
            db.
Proof.
  rewrite Query.getEntries_returns. f_equal. unfold matches_query.
  destruct (Std.empty foodType_), (Std.empty startDate && Std.empty endDate);
    cbn [orb andb].
  - symmetry. apply filter_all. reflexivity.
  - reflexivity.
  - apply filter_ext. intros x. rewrite andb_true_r. reflexivity.
  - rewrite filter_filter. reflexivity.
Qed.

Lemma in_window_dated (startDate endDate : string) (entry : WasteEntry) :
  in_window startDate endDate entry = true -> dated entry = true.
Proof.
  unfold in_window, dated.
  destruct (get_time (timestamp entry) timestamp_format);
    [reflexivity|discriminate].
Qed.

End WithPlatform.

(** X3: A query never fails and leaves the database as it is.  It returns, in
    ledger order, exactly the entries that match: of the food type asked
    for (compared exactly; any type when the argument is empty) and, when
    a date is given, with a timestamp that parses and lies from the start
    date at 00:00:00 to the end date at 23:59:59. *)
Theorem getEntries_selects_the_matching_entries :
  forall (P : Platform) (foodType_ startDate endDate : string)
         (db : WasteDatabase),
  exists result,
    call (getEntries foodType_ startDate endDate) db = Returns result db
    /\ result
       = filter (matches_query foodType_ startDate endDate) (m_entries db)
    /\ (forall entry,
          In entry result <->
          In entry (m_entries db)
          /\ matches_query foodType_ startDate endDate entry = true)
    /\ (forall entry,
          In entry result ->
          Std.empty foodType_ = false -> foodType entry = foodType_).
Proof.
  intros P f s e db. eexists. split; [apply getEntries_matches|].
  split; [reflexivity|]. split.
  - intros entry. apply filter_In.
  - intros entry Hin Hf. apply filter_In in Hin. destruct Hin as [_ Hm].
    unfold matches_query in Hm. rewrite Hf in Hm. cbn [orb] in Hm.
    apply andb_true_iff in Hm. destruct Hm as [Hm _].
    apply String.eqb_eq. exact Hm.
Qed.

(** X4: As soon as a query names a date, the entries whose timestamp does not
    parse are left out, wherever they stand in the ledger; and a date
    that does not parse itself bounds nothing: with no date that parses,
    the query returns every entry of the food type whose timestamp
    parses. *)
Theorem dated_query_drops_the_undated_entries :
  forall (P : Platform) (foodType_ startDate endDate : string)
         (db : WasteDatabase),
  exists result,
    call (getEntries foodType_ startDate endDate) db = Returns result db
    /\ (Std.empty startDate && Std.empty endDate = false ->
        forall entry, In entry result -> dated entry = true)
    /\ (Std.empty startDate && Std.empty endDate = false ->
        get_time startDate date_format = None ->
        get_time endDate date_format = None ->
        result
        = filter (fun entry => matches_query foodType_ "" "" entry && dated entry)
                 (m_entries db)).
Proof.
  intros P f s e db. eexists. split; [apply Selection.getEntries_matches|].
  split.
  - intros Hd entry Hin. apply filter_In in Hin. destruct Hin as [_ Hm].
    unfold matches_query in Hm. rewrite Hd in Hm. cbn [orb] in Hm.
    apply andb_true_iff in Hm. destruct Hm as [_ Hm].
    apply (in_window_dated s e). exact Hm.
  - intros Hd Hs He. apply filter_ext. intros entry.
    unfold matches_query. rewrite Hd. cbn [Std.empty andb orb].
    rewrite andb_true_r. f_equal.
    unfold in_window, dated. rewrite Hs, He.
    destruct (get_time (timestamp entry) timestamp_format); [|reflexivity].
    destruct (Std.empty s), (Std.empty e); reflexivity.
Qed.

(** A start date written day first does not parse and bounds nothing, yet
    the entry with no date is left out. *)
Lemma dated_query_drops_the_undated_entries_witness :
  exists result,
    call (getEntries (P := RefLib.ref_platform) "" "10/03/2024" "")
         (ledger_of [rice_lunch; undated_entry; bread_boundary])
    = Returns result (ledger_of [rice_lunch; undated_entry; bread_boundary])
    /\ result = [rice_lunch; bread_boundary].
Proof.
  destruct (dated_query_drops_the_undated_entries RefLib.ref_platform
              "" "10/03/2024" ""
              (ledger_of [rice_lunch; undated_entry; bread_boundary]))
    as (result & Hcall & _ & Hbound).
  exists result. split; [exact Hcall|].
  rewrite Hbound; [vm_compute; reflexivity|reflexivity|reflexivity|reflexivity].
Defined.

End Selection.

(* ================================================================== *)
(** ** What every operation keeps *)

Module Invariant.
Import CLib Data Samples Props.

Section WithPlatform.
Context {P : Platform}.

Lemma getTopWastedFoods_returns (limit now : Z) (db : WasteDatabase) :
  call (getTopWastedFoods limit now) db
  = let db' := if m_statisticsDirty db then refreshed now db else db in
    let top := topWastedFoods (m_statistics db') in
    Returns (firstn (Z.to_nat (Z.min (Std.to_size_t limit)
                                     (Z.of_nat (List.length top)))) top)
            db'.
Proof.
  unfold getTopWastedFoods. run_method.
  destruct (m_statisticsDirty db); reflexivity.
Qed.

Lemma getAverageWastePerDay_bounded (period : TimePeriod) (now : Z)
  (db : WasteDatabase) :
  is_ALL_TIME period = false ->
  call (getAverageWastePerDay period now) db = SelfDeadlock (refreshed now db).
Proof.
  intros H.
  pose proof (Locking.getStatistics_bounded period now db H) as Hs.
  unfold call in Hs.
  unfold getAverageWastePerDay, getTotalWasteWeight, call.
  destruct period; try discriminate H;
    unfold bind; cbn [Z.eqb]; unfold ret at 1; rewrite Hs; reflexivity.
Qed.

Lemma getAverageWastePerDay_ALL_TIME (now : Z) (db : WasteDatabase) :
  call (getAverageWastePerDay ALL_TIME now) db
  = match ledger_days (m_entries db) with
    | None => Returns F32.zero db
    | Some days =>
        if m_statisticsDirty db
        then Returns (F32.div (totalWeight (calculateStatistics now (m_entries db)))
                              (F32.of_Z days))
                     (refreshed now db)
        else Returns (F32.div (totalWeight (m_statistics db)) (F32.of_Z days)) db
    end.
Proof.
  pose proof (Locking.getStatistics_ALL_TIME now db) as Hs. unfold call in Hs.
  unfold getAverageWastePerDay, getTotalWasteWeight, call.
  unfold bind at 1. cbn [Z.eqb]. unfold lock_guard at 1.
  unfold bind at 1. unfold this at 1. unfold ret at 1.
  destruct (ledger_days (m_entries db)) as [days|]; [|reflexivity].
  unfold bind. rewrite Hs.
  destruct (m_statisticsDirty db); reflexivity.
Qed.



Lemma perform_grows (db : WasteDatabase) (op : Operation) :
  exists added, m_entries (perform db op) = m_entries db ++ added.
Proof.
  destruct op as [entry|items|period| |f s e|period now|limit now
                  |period now| ]; cbn [perform].
  - exists [entry]. reflexivity.
  - rewrite Ledger.addDetections_returns.
    destruct items as [|item rest].
    + exists []. symmetry. apply app_nil_r.
    + eexists. reflexivity.
  - exists []. symmetry. apply app_nil_r.
  - exists []. symmetry. apply app_nil_r.
  - rewrite Query.getEntries_returns. exists []. symmetry. apply app_nil_r.
  - rewrite Locking.getStatistics_keeps_entries.
    exists []. symmetry. apply app_nil_r.
  - rewrite getTopWastedFoods_returns. exists [].
    destruct (m_statisticsDirty db); symmetry; apply app_nil_r.
  - exists []. rewrite app_nil_r.
    destruct (is_ALL_TIME period) eqn:Hp.
    + destruct period; try discriminate Hp.
      rewrite getAverageWastePerDay_ALL_TIME.
      destruct (ledger_days (m_entries db)); [|reflexivity].
      destruct (m_statisticsDirty db); reflexivity.
    + rewrite (getAverageWastePerDay_bounded period now db Hp). reflexivity.
  - exists []. rewrite app_nil_r. unfold saveToFile. run_method.
    destruct (disk db); reflexivity.
Qed.

End WithPlatform.


(** X6: The ledger is append-only: after any sequence of appends, queries,
    statistics requests and saves, the entries of before are still there,
    first and in their order; there is no operation that edits or deletes
    one. *)
Theorem ledger_only_grows :
  forall (P : Platform) (ops : list Operation) (db : WasteDatabase),
  exists added,
    m_entries (fold_left perform ops db) = m_entries db ++ added.
Proof.
  intros P ops. induction ops as [|op ops IH]; intros db.
  - exists []. symmetry. apply app_nil_r.
  - cbn [fold_left]. destruct (IH (perform db op)) as [later Hl].
    destruct (perform_grows db op) as [added Ha].
    exists (added ++ later). rewrite Hl, Ha. symmetry. apply app_assoc.
Qed.

End Invariant.

(* ================================================================== *)
(** ** Loading: bad records, short records, restarts *)

Module Reload.
Import CLib Data Samples Props.

Section WithPlatform.
Context {P : Platform}.

Lemma write_entries_lines (good : list WasteEntry) (tail : string) :
  Forall storable good ->
  Std.getline_all Std.nl (write_entries good ++ tail)
  = map record_text good ++ Std.getline_all Std.nl tail.
Proof.
  intros H. induction H as [|entry rest Hentry Hrest IH]; [reflexivity|].
  cbn [write_entries map]. unfold nl_string.
  rewrite !Persistence.append_assoc. cbn [append].
  rewrite Persistence.getline_all_line
    by (apply Persistence.storable_record_lacks_nl; exact Hentry).
  rewrite IH. reflexivity.
Qed.

Lemma write_file_then_lines (good : list WasteEntry) (tail : string) :
  Forall storable good ->
  tl (Std.getline_all Std.nl (write_file good ++ tail))
  = map record_text good ++ Std.getline_all Std.nl tail.
Proof.
  intros H. unfold write_file, nl_string.
  rewrite !Persistence.append_assoc. cbn [append].
  rewrite Persistence.getline_all_line by reflexivity.
  cbn [tl]. apply write_entries_lines. exact H.
Qed.

Lemma read_entries_after_records (good : list WasteEntry) (lines : list string)
  (acc : list WasteEntry) :
  Forall storable good ->
  read_entries (map record_text good ++ lines) acc
  = read_entries lines (acc ++ good).
Proof.
  intros H. revert acc.
  induction H as [|entry rest Hentry Hrest IH]; intros acc; cbn [map app read_entries].
  - rewrite app_nil_r. reflexivity.
  - rewrite (Persistence.read_entry_record_text entry Hentry), IH, <- app_assoc.
    reflexivity.
Qed.


End WithPlatform.

(** X7: A record whose weight or confidence [std::stof] rejects stops the
    load: [loadFromFile] returns [false], the ledger in memory is replaced
    by the records read before the bad one, the records after it are not
    read, and the dirty flag is left as it was.  So when the cache was
    clean, the next snapshot request still answers with the snapshot of
    the ledger that is gone. *)
Theorem bad_record_stops_the_load :
  forall (P : Platform) (db : WasteDatabase) (good : list WasteEntry)
         (bad rest : string) (now : Z),
    Forall storable good ->
    lacks Std.nl bad = true ->
    read_entry bad = None ->
    disk db = FileText (write_file good ++ bad ++ nl_string ++ rest) ->
    exists db',
      call loadFromFile db = Returns false db'
      /\ m_entries db' = good
      /\ m_statisticsDirty db' = m_statisticsDirty db
      /\ m_statistics db' = m_statistics db
      /\ (m_statisticsDirty db = false ->
          call (getStatistics ALL_TIME now) db' = Returns (m_statistics db) db').
Proof.
  intros P db good bad rest now Hgood Hnl Hbad Hdisk.
  assert (Hload : call loadFromFile db
                  = Returns false (with_entries db good (m_statisticsDirty db))).
  { unfold loadFromFile. run_method. rewrite Hdisk.
    rewrite (write_file_then_lines good _ Hgood).
    unfold nl_string. cbn [append].
    rewrite (Persistence.getline_all_line _ _ _ Hnl).
    rewrite (read_entries_after_records good _ [] Hgood).
    cbn [read_entries app]. rewrite Hbad. reflexivity. }
  eexists. split; [exact Hload|]. repeat split.
  intros Hd. rewrite Locking.getStatistics_ALL_TIME.
  cbn [with_entries m_statisticsDirty m_statistics]. rewrite Hd. reflexivity.
Qed.

Lemma bad_record_stops_the_load_witness :
  exists db',
    call (loadFromFile (P := RefLib.ref_platform))
      (with_disk (with_statistics (ledger_of [rice_lunch; third_entry])
                    (calculateStatistics (P := RefLib.ref_platform) morning
                       [rice_lunch; third_entry]) false)
         (FileText (write_file (P := RefLib.ref_platform) [rice_lunch]
                    ++ "bread,heavy,2024-03-10 12:00:00,0.5,Lunch,"
                    ++ nl_string
                    ++ record_text (P := RefLib.ref_platform) third_entry)))
    = Returns false db'
    /\ m_entries db' = [rice_lunch]
    /\ m_statisticsDirty db' = false.
Proof.
  destruct (bad_record_stops_the_load RefLib.ref_platform
              (with_disk (with_statistics (ledger_of [rice_lunch; third_entry])
                    (calculateStatistics (P := RefLib.ref_platform) morning
                       [rice_lunch; third_entry]) false)
                 (FileText (write_file (P := RefLib.ref_platform) [rice_lunch]
                    ++ "bread,heavy,2024-03-10 12:00:00,0.5,Lunch,"
                    ++ nl_string
                    ++ record_text (P := RefLib.ref_platform) third_entry)))
              [rice_lunch] "bread,heavy,2024-03-10 12:00:00,0.5,Lunch,"
              (record_text (P := RefLib.ref_platform) third_entry) morning)
    as (db' & Hcall & Hentries & Hdirty & _).
  - repeat constructor; vm_compute; reflexivity.
  - reflexivity.
  - vm_compute. reflexivity.
  - reflexivity.
  - exists db'. split; [exact Hcall|]. split; [exact Hentries|].
    rewrite Hdirty. reflexivity.
Defined.





End Reload.

(* ================================================================== *)
(** ** Facts about [std::map] *)

Module Maps.
Import Props.

Lemma ascii_compare_trans (a b c : ascii) :
  Ascii.compare a b = Lt -> Ascii.compare b c = Lt -> Ascii.compare a c = Lt.
Proof.
  unfold Ascii.compare. rewrite !N.compare_lt_iff. apply N.lt_trans.
Qed.

Lemma ascii_compare_eq (a b : ascii) : Ascii.compare a b = Eq -> a = b.
Proof. apply Ascii.compare_eq_iff. Qed.

Lemma compare_trans (a : string) :
  forall b c : string,
    String.compare a b = Lt -> String.compare b c = Lt -> String.compare a c = Lt.
Proof.
  induction a as [|x a IH]; intros [|y b] [|z c]; cbn [String.compare];
    try discriminate; try reflexivity.
  destruct (Ascii.compare x y) eqn:Hxy; try discriminate.
  - apply ascii_compare_eq in Hxy. subst y.
    destruct (Ascii.compare x z); try discriminate; [apply IH|reflexivity].
  - intros _. destruct (Ascii.compare y z) eqn:Hyz; try discriminate.
    + apply ascii_compare_eq in Hyz. subst z. rewrite Hxy. reflexivity.
    + rewrite (ascii_compare_trans x y z Hxy Hyz). reflexivity.
Qed.

Lemma compare_refl (a : string) : String.compare a a = Eq.
Proof.
  pose proof (String.compare_antisym a a) as H.
  destruct (String.compare a a); try discriminate H; reflexivity.
Qed.

Lemma compare_gt_lt (a b : string) :
  String.compare a b = Gt -> String.compare b a = Lt.
Proof. intros H. rewrite String.compare_antisym, H. reflexivity. Qed.

Lemma compare_neq (a b : string) : a <> b -> String.compare a b <> Eq.
Proof. intros H E. apply H. apply String.compare_eq_iff. exact E. Qed.

Section WithValue.
Context {V : Type}.
Implicit Types (m : smap V) (k : string) (f : V -> V) (d : V).

Lemma find_cons k k' (v : V) m :
  StdMap.find String.compare k ((k', v) :: m)
  = match String.compare k k' with
    | Eq => Some v
    | _ => StdMap.find String.compare k m
    end.
Proof. reflexivity. Qed.

(** A key below every key of the map is not in it. *)
Lemma find_below k m :
  Forall (fun kv => String.compare k (fst kv) = Lt) m ->
  StdMap.sfind k m = None.
Proof.
  induction 1 as [|[k' v] rest Hlt _ IH]; [reflexivity|].
  cbn [StdMap.sfind StdMap.find fst] in *. rewrite Hlt. exact IH.
Qed.

Lemma below_trans k k' m :
  String.compare k k' = Lt ->
  Forall (fun kv : string * V => String.compare k' (fst kv) = Lt) m ->
  Forall (fun kv : string * V => String.compare k (fst kv) = Lt) m.
Proof.
  intros Hk H. induction H as [|kv rest Hkv _ IH]; constructor; [|exact IH].
  exact (compare_trans _ _ _ Hk Hkv).
Qed.

Lemma modify_below k0 k f d m :
  String.compare k0 k = Lt ->
  Forall (fun kv : string * V => String.compare k0 (fst kv) = Lt) m ->
  Forall (fun kv : string * V => String.compare k0 (fst kv) = Lt)
         (StdMap.modify String.compare k f d m).
Proof.
  intros Hk H. induction H as [|[k' v] rest Hkv Hrest IH]; cbn [StdMap.modify].
  - constructor; [exact Hk|constructor].
  - destruct (String.compare k k') eqn:Hc.
    + constructor; [exact Hkv|exact Hrest].
    + constructor; [exact Hk|]. constructor; [exact Hkv|exact Hrest].
    + constructor; [exact Hkv|exact IH].
Qed.

(** [operator[]] keeps the keys in increasing order. *)
Lemma modify_increasing k f d m :
  increasing_keys m -> increasing_keys (StdMap.modify String.compare k f d m).
Proof.
  unfold increasing_keys.
  induction 1 as [|[k' v] rest Hrest IH Hhead]; cbn [StdMap.modify].
  - constructor; constructor.
  - destruct (String.compare k k') eqn:Hc.
    + constructor; [exact Hrest|exact Hhead].
    + constructor; [constructor; assumption|].
      constructor; [exact Hc|]. exact (below_trans _ _ _ Hc Hhead).
    + constructor; [exact IH|].
      apply modify_below; [apply compare_gt_lt; exact Hc|exact Hhead].
Qed.

Lemma find_modify_same k f d m :
  increasing_keys m ->
  StdMap.sfind k (StdMap.modify String.compare k f d m)
  = Some (f match StdMap.sfind k m with Some v => v | None => d end).
Proof.
  unfold increasing_keys, StdMap.sfind.
  induction 1 as [|[k' v] rest Hrest IH Hhead]; cbn [StdMap.modify StdMap.find].
  - rewrite compare_refl. reflexivity.
  - destruct (String.compare k k') eqn:Hc; rewrite !find_cons.
    + rewrite Hc. reflexivity.
    + rewrite compare_refl.
      pose proof (find_below k rest (below_trans _ _ _ Hc Hhead)) as Hn.
      unfold StdMap.sfind in Hn. rewrite Hn. reflexivity.
    + rewrite Hc. exact IH.
Qed.

Lemma find_modify_other k k' f d m :
  k <> k' ->
  StdMap.sfind k (StdMap.modify String.compare k' f d m) = StdMap.sfind k m.
Proof.
  intros Hne. unfold StdMap.sfind.
  induction m as [|[k0 v] rest IH]; cbn [StdMap.modify StdMap.find].
  - destruct (String.compare k k') eqn:Hc; try reflexivity.
    exfalso. exact (compare_neq _ _ Hne Hc).
  - destruct (String.compare k' k0) eqn:Hc; cbn [StdMap.find].
    + apply String.compare_eq_iff in Hc. subst k0.
      destruct (String.compare k k') eqn:Hk; try reflexivity.
      exfalso. exact (compare_neq _ _ Hne Hk).
    + destruct (String.compare k k') eqn:Hk; try reflexivity.
      exfalso. exact (compare_neq _ _ Hne Hk).
    + rewrite IH. reflexivity.
Qed.

(** The keys after [operator[]]: the key and the keys of before. *)
Lemma modify_keys k k' f d m :
  In k (map fst (StdMap.modify String.compare k' f d m))
  <-> k = k' \/ In k (map fst m).
Proof.
  induction m as [|[k0 v] rest IH]; cbn [StdMap.modify map fst In].
  - intuition.
  - destruct (String.compare k' k0) eqn:Hc; cbn [map fst In].
    + apply String.compare_eq_iff in Hc. subst k0. intuition.
    + intuition.
    + rewrite IH. intuition.
Qed.

(** The keys do not depend on the values. *)
Lemma modify_same_keys {W} k f d (g : W -> W) (d' : W) m (m' : smap W) :
  map fst m = map fst m' ->
  map fst (StdMap.modify String.compare k f d m)
  = map fst (StdMap.modify String.compare k g d' m').
Proof.
  revert m'. induction m as [|[k0 v] rest IH]; intros [|[k1 w] rest'] H;
    try discriminate H; [reflexivity|].
  cbn [map fst] in H. injection H as Hk Hrest. subst k1.
  cbn [StdMap.modify]. destruct (String.compare k k0); cbn [map fst].
  - f_equal. exact Hrest.
  - f_equal. f_equal. exact Hrest.
  - f_equal. apply IH. exact Hrest.
Qed.

Lemma modify_length k f d m :
  (List.length (StdMap.modify String.compare k f d m) <= S (List.length m))%nat.
Proof.
  induction m as [|[k0 v] rest IH]; cbn [StdMap.modify List.length]; [lia|].
  destruct (String.compare k k0); cbn [List.length]; lia.
Qed.

Lemma find_In k v m : StdMap.sfind k m = Some v -> In (k, v) m.
Proof.
  unfold StdMap.sfind. induction m as [|[k0 w] rest IH]; cbn [StdMap.find];
    [discriminate|].
  destruct (String.compare k k0) eqn:Hc; intros H.
  - apply String.compare_eq_iff in Hc. subst k0. injection H as ->. left.
    reflexivity.
  - right. exact (IH H).
  - right. exact (IH H).
Qed.

Lemma In_find k v m : increasing_keys m -> In (k, v) m -> StdMap.sfind k m = Some v.
Proof.
  unfold increasing_keys, StdMap.sfind.
  induction 1 as [|[k0 w] rest Hrest IH Hhead]; intros Hin; [contradiction|].
  cbn [StdMap.find]. destruct Hin as [Heq|Hin].
  - injection Heq as -> ->. rewrite compare_refl. reflexivity.
  - pose proof (proj1 (Forall_forall _ _) Hhead _ Hin) as Hlt. cbn [fst] in Hlt.
    rewrite String.compare_antisym, Hlt. cbn [CompOpp]. exact (IH Hin).
Qed.

End WithValue.

(** [m[k]++] counts one more. *)
Lemma sum_counts_incr (k : string) (m : smap Z) :
  sum_counts (StdMap.incr k m) = sum_counts m + 1.
Proof.
  unfold sum_counts, StdMap.incr.
  induction m as [|[k0 v] rest IH]; cbn [StdMap.modify map snd fold_right];
    [lia|].
  destruct (String.compare k k0); cbn [map snd fold_right]; lia.
Qed.

(** *** A map filled in a loop

    The loop [for (e : es) if (key e) m[*key e] = f(e, m[*key e])] leaves
    under every key the fold of [f] over the elements of that key. *)
Section Grouping.
Context {A V : Type}.
Variable key : A -> option string.
Variable f : A -> V -> V.
Variable d : V.


Lemma fold_step_increasing (es : list A) :
  forall m, increasing_keys m -> increasing_keys (fold_left (fill_step key f d) es m).
Proof.
  induction es as [|e es IH]; intros m H; [exact H|].
  cbn [fold_left]. apply IH. unfold fill_step.
  destruct (key e); [apply modify_increasing|]; exact H.
Qed.

Lemma find_fold_step (k : string) (es : list A) :
  forall m,
    increasing_keys m ->
    StdMap.sfind k (fold_left (fill_step key f d) es m)
    = match filter (has_key key k) es with
      | [] => StdMap.sfind k m
      | sel =>
          Some (fold_left (fun v e => f e v) sel
                  match StdMap.sfind k m with Some v => v | None => d end)
      end.
Proof.
  induction es as [|e es IH]; intros m H; [reflexivity|].
  cbn [fold_left filter]. unfold has_key at 1, fill_step at 2.
  destruct (key e) as [k'|] eqn:Hk; [|apply IH; exact H].
  rewrite IH by (apply modify_increasing; exact H).
  destruct (String.eqb k' k) eqn:He.
  - apply String.eqb_eq in He. subst k'.
    rewrite find_modify_same by exact H. cbn [fold_left].
    destruct (filter (has_key key k) es); reflexivity.
  - apply String.eqb_neq in He.
    rewrite find_modify_other by (intros E; apply He; symmetry; exact E).
    reflexivity.
Qed.

Lemma fold_step_keys (k : string) (es : list A) :
  forall m,
    In k (map fst (fold_left (fill_step key f d) es m))
    <-> In k (map fst m) \/ exists e, In e es /\ key e = Some k.
Proof.
  induction es as [|e es IH]; intros m; cbn [fold_left].
  - split; [intros H; left; exact H|].
    intros [H|[e [[] _]]]. exact H.
  - rewrite IH. unfold fill_step. destruct (key e) as [k'|] eqn:Hk.
    + rewrite modify_keys. split.
      * intros [[->|H]|[e' [Hin He']]].
        -- right. exists e. split; [left; reflexivity|exact Hk].
        -- left. exact H.
        -- right. exists e'. split; [right; exact Hin|exact He'].
      * intros [H|[e' [[<-|Hin] He']]].
        -- left. right. exact H.
        -- left. left. congruence.
        -- right. exists e'. split; assumption.
    + split.
      * intros [H|[e' [Hin He']]]; [left; exact H|].
        right. exists e'. split; [right; exact Hin|exact He'].
      * intros [H|[e' [[<-|Hin] He']]]; [left; exact H|congruence|].
        right. exists e'. split; assumption.
Qed.

Lemma fold_step_length (es : list A) :
  forall m,
    (List.length (fold_left (fill_step key f d) es m) <= List.length m + List.length es)%nat.
Proof.
  induction es as [|e es IH]; intros m; cbn [fold_left List.length]; [lia|].
  specialize (IH (fill_step key f d m e)). unfold fill_step in *.
  destruct (key e) as [k|]; [|lia].
  pose proof (modify_length k (f e) d m). lia.
Qed.

End Grouping.

End Maps.

(* ================================================================== *)
(** ** What the snapshot holds *)

Module Snapshot.
Import CLib Data Samples Props.

Section WithPlatform.
Context {P : Platform}.

Lemma fold_accumulate_maps (entries : list WasteEntry) :
  forall acc : Totals,
    let acc' := fold_left accumulate_entry entries acc in
    t_weightByType acc'
    = fold_left (fill_step by_type weigh F32.zero) entries (t_weightByType acc)
    /\ t_countByType acc'
       = fold_left (fill_step by_type (fun _ v => v + 1) 0) entries
                   (t_countByType acc)
    /\ t_weightByMeal acc'
       = fold_left (fill_step by_meal weigh F32.zero) entries (t_weightByMeal acc)
    /\ t_weightByDay acc'
       = fold_left (fill_step (by_time "%A") weigh F32.zero) entries
                   (t_weightByDay acc)
    /\ t_weightByMonth acc'
       = fold_left (fill_step (by_time "%B") weigh F32.zero) entries
                   (t_weightByMonth acc)
    /\ t_dailyWeight acc'
       = fold_left (fill_step (by_time date_format) weigh F32.zero) entries
                   (t_dailyWeight acc).
Proof.
  induction entries as [|e es IH]; intros acc; [repeat split|].
  cbn zeta in *. cbn [fold_left].
  destruct (IH (accumulate_entry acc e)) as (H1 & H2 & H3 & H4 & H5 & H6).
  rewrite H1, H2, H3, H4, H5, H6.
  unfold accumulate_entry, fill_step, by_time, by_type, by_meal.
  cbn [t_weightByType t_countByType t_weightByMeal t_weightByDay
       t_weightByMonth t_dailyWeight].
  destruct (get_time (timestamp e) timestamp_format); repeat split.
Qed.

Lemma empty_increasing {V} : increasing_keys (@nil (string * V)).
Proof. constructor. Qed.

Lemma sum_as_fold (sel : list WasteEntry) :
  fold_left (fun v e => weigh e v) sel F32.zero = sum_weights sel.
Proof. reflexivity. Qed.

Lemma count_as_fold (sel : list WasteEntry) (n : Z) :
  fold_left (fun v (_ : WasteEntry) => v + 1) sel n = n + Z.of_nat (List.length sel).
Proof.
  revert n. induction sel as [|e sel IH]; intros n; cbn [fold_left List.length].
  - lia.
  - rewrite IH. lia.
Qed.

Lemma find_group_weight (key : WasteEntry -> option string) (k : string)
  (entries : list WasteEntry) :
  StdMap.sfind k (fold_left (fill_step key weigh F32.zero) entries [])
  = group_weight key k entries.
Proof.
  rewrite Maps.find_fold_step by apply empty_increasing.
  unfold group_weight, has_key. reflexivity.
Qed.

Lemma find_group_count (key : WasteEntry -> option string) (k : string)
  (entries : list WasteEntry) :
  StdMap.sfind k (fold_left (fill_step key (fun _ v => v + 1) 0) entries [])
  = group_count key k entries.
Proof.
  rewrite Maps.find_fold_step by apply empty_increasing.
  unfold group_count, has_key.
  destruct (filter _ entries) as [|e sel] eqn:Hsel; [reflexivity|].
  cbn [StdMap.sfind StdMap.find]. rewrite count_as_fold. reflexivity.
Qed.

(** The maps of a snapshot, as the folds that fill them. *)
Lemma calculateStatistics_maps (now : Z) (entries : list WasteEntry) :
  let s := calculateStatistics now entries in
  weightByType s = fold_left (fill_step by_type weigh F32.zero) entries []
  /\ countByType s = fold_left (fill_step by_type (fun _ v => v + 1) 0) entries []
  /\ weightByMeal s = fold_left (fill_step by_meal weigh F32.zero) entries []
  /\ weightByDay s = fold_left (fill_step (by_time "%A") weigh F32.zero) entries []
  /\ weightByMonth s
     = fold_left (fill_step (by_time "%B") weigh F32.zero) entries []
  /\ topWastedFoods s = top_foods (weightByType s)
  /\ dailyTrend s
     = match entries with
       | [] => []
       | _ =>
         map (fun date =>
                match StdMap.sfind date
                        (fold_left (fill_step (by_time date_format) weigh F32.zero)
                                   entries []) with
                | Some w => w
                | None => F32.zero
                end)
             (recent_dates now 30)
       end.
Proof.
  destruct entries as [|e es]; [repeat split|].
  destruct (fold_accumulate_maps (e :: es) Totals_new)
    as (H1 & H2 & H3 & H4 & H5 & H6).
  cbn zeta in *. unfold calculateStatistics.
  destruct (fold_left (accumulate_week now) (e :: es) (F32.zero, F32.zero)).
  cbn [weightByType countByType weightByMeal weightByDay weightByMonth
       topWastedFoods dailyTrend].
  rewrite H1, H2, H3, H4, H5, H6. repeat split.
Qed.

Lemma recent_dates_length (now : Z) (n : nat) :
  List.length (recent_dates now n) = n.
Proof. induction n as [|n IH]; cbn [recent_dates List.length]; congruence. Qed.

Lemma fold_incr_sum (entries : list WasteEntry) :
  forall m,
    sum_counts (fold_left (fill_step by_type (fun _ v => v + 1) 0) entries m)
    = sum_counts m + Z.of_nat (List.length entries).
Proof.
  induction entries as [|e es IH]; intros m; cbn [fold_left List.length]; [lia|].
  rewrite IH. unfold fill_step, by_type.
  change (StdMap.modify String.compare (foodType e) (fun v => v + 1) 0 m)
    with (StdMap.incr (foodType e) m).
  rewrite Maps.sum_counts_incr. lia.
Qed.

End WithPlatform.

(** X10: The snapshot files every entry under its food type and its meal
    period, and every entry whose timestamp parses under its weekday and
    its month: the weight on record for a key is the [+=] sum, in ledger
    order, of the weights of the entries with that key, the count is their
    number, and a key with no entry is absent.  An entry whose timestamp
    does not parse weighs on no weekday and no month.  Every map iterates
    in increasing key order. *)
Theorem snapshot_files_every_entry_under_its_keys :
  forall (P : Platform) (now : Z) (entries : list WasteEntry) (k : string),
    let s := calculateStatistics now entries in
    StdMap.sfind k (weightByType s) = group_weight by_type k entries
    /\ StdMap.sfind k (countByType s) = group_count by_type k entries
    /\ StdMap.sfind k (weightByMeal s) = group_weight by_meal k entries
    /\ StdMap.sfind k (weightByDay s) = group_weight (by_time "%A") k entries
    /\ StdMap.sfind k (weightByMonth s) = group_weight (by_time "%B") k entries
    /\ increasing_keys (weightByType s)
    /\ increasing_keys (countByType s)
    /\ increasing_keys (weightByMeal s)
    /\ increasing_keys (weightByDay s)
    /\ increasing_keys (weightByMonth s).
Proof.
  intros P now entries k s.
  destruct (calculateStatistics_maps now entries)
    as (H1 & H2 & H3 & H4 & H5 & _).
  fold s in H1, H2, H3, H4, H5. rewrite H1, H2, H3, H4, H5.
  rewrite !find_group_weight, find_group_count.
  repeat split; apply Maps.fold_step_increasing; apply empty_increasing.
Qed.

(** X11: The per-type counts of a snapshot add up to the number of entries,
    which is [totalItems] as long as that fits an [int]; the per-type
    weights and the per-type counts have the same keys, the food types
    that occur in the ledger. *)
Theorem snapshot_counts_every_entry_once :
  forall (P : Platform) (now : Z) (entries : list WasteEntry),
    let s := calculateStatistics now entries in
    sum_counts (countByType s) = Z.of_nat (List.length entries)
    /\ (Z.of_nat (List.length entries) < 2 ^ 31 ->
        totalItems s = sum_counts (countByType s))
    /\ map fst (weightByType s) = map fst (countByType s)
    /\ (forall k,
          In k (map fst (countByType s))
          <-> exists entry, In entry entries /\ foodType entry = k).
Proof.
  intros P now entries s.
  destruct (calculateStatistics_maps now entries) as (H1 & H2 & _).
  fold s in H1, H2.
  assert (Hsum : sum_counts (countByType s) = Z.of_nat (List.length entries)).
  { rewrite H2, fold_incr_sum. reflexivity. }
  split; [exact Hsum|]. split; [|split].
  - intros Hsmall. rewrite Hsum. unfold s.
    rewrite Cache.calculateStatistics_totalItems.
    apply Cache.to_int_small. lia.
  - rewrite H1, H2.
    assert (Hkeys : forall es (m : smap float) (m' : smap Z),
               map fst m = map fst m' ->
               map fst (fold_left (fill_step by_type weigh F32.zero) es m)
               = map fst (fold_left (fill_step by_type (fun _ v => v + 1) 0)
                                    es m')).
    { induction es as [|e es IH]; intros m m' Hm; [exact Hm|].
      cbn [fold_left]. apply IH. unfold fill_step, by_type.
      apply Maps.modify_same_keys. exact Hm. }
    apply Hkeys. reflexivity.
  - intros k. rewrite H2, Maps.fold_step_keys. cbn [map In]. unfold by_type.
    split.
    + intros [[]|[e [Hin He]]]. exists e. split; [exact Hin|congruence].
    + intros [e [Hin He]]. right. exists e. split; [exact Hin|congruence].
Qed.

(** X12: The daily trend of a snapshot of a ledger that is not empty has 30
    values, one for each of the 30 days that end at the time of the
    request, oldest first; each is the [+=] sum of the weights of the
    entries whose timestamp parses to that date, 0 where there is none.
    The snapshot of an empty ledger has no trend values. *)
Theorem daily_trend_sums_each_of_the_last_30_days :
  forall (P : Platform) (now : Z) (entries : list WasteEntry),
    let s := calculateStatistics now entries in
    dailyTrend s
    = match entries with
      | [] => []
      | _ =>
          map (fun date =>
                 sum_weights (filter (has_key (by_time date_format) date) entries))
              (recent_dates now 30)
      end
    /\ List.length (dailyTrend s)
       = match entries with [] => 0%nat | _ => 30%nat end.
Proof.
  intros P now entries s.
  destruct (calculateStatistics_maps now entries) as (_ & _ & _ & _ & _ & _ & H).
  fold s in H.
  assert (Hd : dailyTrend s
               = match entries with
                 | [] => []
                 | _ =>
                   map (fun date =>
                          sum_weights
                            (filter (has_key (by_time date_format) date) entries))
                       (recent_dates now 30)
                 end).
  { rewrite H. destruct entries as [|e es]; [reflexivity|].
    apply map_ext. intros date. rewrite find_group_weight.
    unfold group_weight, has_key.
    destruct (filter _ (e :: es)); reflexivity. }
  split; [exact Hd|]. rewrite Hd.
  destruct entries; [reflexivity|].
  rewrite length_map. apply recent_dates_length.
Qed.


End Snapshot.

(* ================================================================== *)
(** ** Facts about the comparison of floats and about [std::sort] *)

Module Order.
Import Props.

Lemma compare_cont_antisym (m1 m2 : positive) :
  Pos.compare_cont Eq m2 m1 = CompOpp (Pos.compare_cont Eq m1 m2).
Proof. apply (Pos.compare_antisym m1 m2). Qed.

Lemma SFcompare_antisym (a b : float) :
  SFcompare b a
  = match SFcompare a b with Some c => Some (CompOpp c) | None => None end.
Proof.
  destruct a as [s1|s1| |s1 m1 e1], b as [s2|s2| |s2 m2 e2];
    try reflexivity; try (destruct s1; reflexivity);
    try (destruct s2; reflexivity);
    try (destruct s1, s2; reflexivity).
  cbn [SFcompare]. rewrite (Z.compare_antisym e1 e2), compare_cont_antisym.
  destruct s1, s2; try reflexivity;
    destruct (e1 ?= e2); cbn [CompOpp]; try reflexivity;
    destruct (Pos.compare_cont Eq m1 m2); reflexivity.
Qed.

(** [a < b] excludes [b < a]. *)
Lemma ltb_asym (a b : float) : F32.ltb a b = true -> F32.ltb b a = false.
Proof.
  unfold F32.ltb, SFltb. rewrite (SFcompare_antisym a b).
  destruct (SFcompare a b) as [[| |]|]; cbn [CompOpp]; congruence.
Qed.

Lemma ltb_leb (a b : float) : F32.ltb a b = true -> F32.leb a b = true.
Proof.
  unfold F32.ltb, F32.leb, SFltb, SFleb.
  destruct (SFcompare a b) as [[| |]|]; congruence.
Qed.

Lemma SFcompare_some (a b : float) :
  F32.is_nan a = false -> F32.is_nan b = false ->
  exists c, SFcompare a b = Some c.
Proof.
  destruct a as [s1|s1| |s1 m1 e1], b as [s2|s2| |s2 m2 e2];
    intros Ha Hb; try discriminate Ha; try discriminate Hb;
    cbn [SFcompare]; eexists; reflexivity.
Qed.

Lemma ltb_not_nan (a b : float) :
  F32.ltb a b = true -> F32.is_nan a = false /\ F32.is_nan b = false.
Proof.
  destruct a as [s1|s1| |s1 m1 e1], b as [s2|s2| |s2 m2 e2];
    intros H; try discriminate H; split; reflexivity.
Qed.

(** Of two floats that are numbers, one is no more than the other. *)
Lemma not_ltb_leb (a b : float) :
  F32.is_nan a = false -> F32.is_nan b = false ->
  F32.ltb b a = false -> F32.leb a b = true.
Proof.
  intros Ha Hb. destruct (SFcompare_some a b Ha Hb) as [c Hc].
  unfold F32.ltb, F32.leb, SFltb, SFleb.
  rewrite (SFcompare_antisym a b), Hc.
  destruct c; cbn [CompOpp]; congruence.
Qed.

Section Sort.
Context {A : Type}.
Variable comp : A -> A -> bool.

Lemma insert_sorted_perm (x : A) (l : list A) :
  Permutation (x :: l) (Std.insert_sorted comp x l).
Proof.
  induction l as [|z l IH]; cbn [Std.insert_sorted]; [reflexivity|].
  destruct (comp x z); [reflexivity|].
  rewrite perm_swap. constructor. exact IH.
Qed.

(** Sorting rearranges: it keeps every element, as often as it occurs. *)
Lemma sort_perm (l : list A) : Permutation l (Std.sort comp l).
Proof.
  unfold Std.sort. change l with ([] ++ l) at 1. generalize (@nil A).
  induction l as [|x l IH]; intros acc; cbn [fold_left].
  - rewrite app_nil_r. reflexivity.
  - rewrite <- IH. rewrite <- Permutation_middle.
    apply (Permutation_app_tail l (insert_sorted_perm x acc)).
Qed.

Lemma sort_In (y : A) (l : list A) : In y (Std.sort comp l) <-> In y l.
Proof.
  split; apply Permutation_in; [symmetry|]; apply sort_perm.
Qed.

Lemma sort_length (l : list A) : List.length (Std.sort comp l) = List.length l.
Proof. symmetry. apply Permutation_length. apply sort_perm. Qed.

Lemma sort_NoDup (l : list A) : NoDup l -> NoDup (Std.sort comp l).
Proof. apply Permutation_NoDup. apply sort_perm. Qed.

(** When the comparison is asymmetric, no element of the sorted sequence
    goes before its predecessor. *)
Hypothesis comp_asym : forall a b, comp a b = true -> comp b a = false.

Lemma insert_sorted_Sorted (x : A) (l : list A) :
  Sorted (fun a b => comp b a = false) l ->
  Sorted (fun a b => comp b a = false) (Std.insert_sorted comp x l).
Proof.
  induction 1 as [|z l Hl IH Hhd]; cbn [Std.insert_sorted].
  - constructor; constructor.
  - destruct (comp x z) eqn:Hc.
    + constructor; [constructor; assumption|].
      constructor. apply comp_asym. exact Hc.
    + constructor; [exact IH|].
      destruct l as [|w l]; cbn [Std.insert_sorted].
      * constructor. exact Hc.
      * destruct (comp x w); constructor; [exact Hc|].
        inversion Hhd; assumption.
Qed.

Lemma sort_Sorted (l : list A) :
  Sorted (fun a b => comp b a = false) (Std.sort comp l).
Proof.
  unfold Std.sort.
  assert (H : Sorted (fun a b => comp b a = false) (@nil A)) by constructor.
  revert H. generalize (@nil A).
  induction l as [|x l IH]; intros acc H; [exact H|].
  cbn [fold_left]. apply IH. apply insert_sorted_Sorted. exact H.
Qed.

End Sort.

Lemma firstn_In {A} (n : nat) (l : list A) (x : A) :
  In x (firstn n l) -> In x l.
Proof.
  revert l. induction n as [|n IH]; intros [|y l]; cbn [firstn In];
    try contradiction.
  intros [H|H]; [left; exact H|right; exact (IH _ H)].
Qed.


Lemma firstn_Sorted {A} (R : A -> A -> Prop) (n : nat) (l : list A) :
  Sorted R l -> Sorted R (firstn n l).
Proof.
  revert l. induction n as [|n IH]; intros [|y l] H; cbn [firstn];
    try constructor.
  - inversion H; subst. apply IH. assumption.
  - inversion H as [|? ? Hl Hhd]; subst.
    destruct n; [constructor|]. destruct l as [|z l]; [constructor|].
    cbn [firstn]. constructor. inversion Hhd; assumption.
Qed.

(** The keys of a map in increasing order are distinct. *)
Lemma increasing_keys_NoDup {V} (m : smap V) :
  increasing_keys m -> NoDup (map fst m).
Proof.
  unfold increasing_keys.
  induction 1 as [|[k v] rest Hrest IH Hhead]; cbn [map fst]; constructor;
    [|exact IH].
  intros Hin. apply in_map_iff in Hin. destruct Hin as [[k' v'] [Hk Hin]].
  cbn [fst] in Hk. subst k'.
  pose proof (proj1 (Forall_forall _ _) Hhead _ Hin) as Hlt. cbn [fst] in Hlt.
  rewrite Maps.compare_refl in Hlt. discriminate Hlt.
Qed.

Lemma increasing_NoDup {V} (m : smap V) : increasing_keys m -> NoDup m.
Proof.
  intros H. apply increasing_keys_NoDup in H.
  exact (NoDup_map_inv fst m H).
Qed.

End Order.

(* ================================================================== *)
(** ** Requests that lock twice, and requests that return *)

Module Requests.
Import CLib Data Analysis Samples Props.

Section WithPlatform.
Context {P : Platform}.

Lemma after_getStatistics_bounded {A} (period : TimePeriod) (now : Z)
  (k : WasteStatistics -> Method A) (db : WasteDatabase) :
  is_ALL_TIME period = false ->
  call (stats <- getStatistics period now ;; k stats) db
  = SelfDeadlock (refreshed now db).
Proof.
  intros H. unfold call, bind.
  change (getStatistics period now false db)
    with (call (getStatistics period now) db).
  rewrite (Locking.getStatistics_bounded period now db H). reflexivity.
Qed.

Lemma updateStats_deadlocks (now : Z) (a : StatsAnalyzer) (db : WasteDatabase) :
  call (updateStats now a) db = SelfDeadlock (refreshed now db).
Proof.
  unfold call, updateStats, bind.
  change (getStatistics ALL_TIME now false db)
    with (call (getStatistics ALL_TIME now) db).
  rewrite Locking.getStatistics_ALL_TIME.
  destruct (m_statisticsDirty db) eqn:Hd;
    match goal with
    | |- context [analyzeDailyTrend 30 now ?x false ?d] =>
        change (analyzeDailyTrend 30 now x false d)
          with (call (analyzeDailyTrend 30 now x) d);
        rewrite Trend.analyzeDailyTrend_never_returns
    end; [reflexivity|].
  (* the cache was clean: the trend request refreshes it all the same *)
  reflexivity.
Qed.



End WithPlatform.

(** X14: Every request about a bounded period never returns: the total, the
    weights by type and by meal, the trend and the daily average of a day,
    a week, a month or a year all start with the statistics request that
    locks the mutex twice.  Each leaves the cache refreshed and the mutex
    locked. *)
Theorem bounded_period_requests_never_return :
  forall (P : Platform) (now : Z) (db : WasteDatabase),
    Forall
      (fun period =>
         call (getTotalWasteWeight period now) db = SelfDeadlock (refreshed now db)
         /\ call (getWasteByType period now) db = SelfDeadlock (refreshed now db)
         /\ call (getWasteByMeal period now) db = SelfDeadlock (refreshed now db)
         /\ call (getWasteTrend period now) db = SelfDeadlock (refreshed now db)
         /\ call (getAverageWastePerDay period now) db
            = SelfDeadlock (refreshed now db))
      [DAY; WEEK; MONTH; YEAR].
Proof.
  intros P now db.
  repeat constructor;
    try (apply after_getStatistics_bounded; reflexivity);
    try (apply Invariant.getAverageWastePerDay_bounded; reflexivity).
Qed.

(** X15: The analyzer cannot be brought up to date: its constructor, every
    [updateStats], every daily trend whatever the number of days, and the
    potential savings (which ask for the average of the default period, a
    month) never return.  The entries stay as they are and the cache of
    the database is left refreshed. *)
Theorem analyzer_refresh_never_returns :
  forall (P : Platform) (now days : Z) (pricePerKg : float)
         (a : StatsAnalyzer) (db : WasteDatabase),
    call (StatsAnalyzer_new now) db = SelfDeadlock (refreshed now db)
    /\ call (updateStats now a) db = SelfDeadlock (refreshed now db)
    /\ call (analyzeDailyTrend days now a) db = SelfDeadlock (refreshed now db)
    /\ call (calculatePotentialSavings days pricePerKg now a) db
       = SelfDeadlock (refreshed now db)
    /\ m_entries (refreshed now db) = m_entries db.
Proof.
  intros P now days price a db. repeat split.
  - apply updateStats_deadlocks.
  - apply updateStats_deadlocks.
  - apply Trend.analyzeDailyTrend_never_returns.
  - unfold calculatePotentialSavings, call, bind.
    change (getAverageWastePerDay MONTH now false db)
      with (call (getAverageWastePerDay MONTH now) db).
    rewrite Invariant.getAverageWastePerDay_bounded by reflexivity.
    reflexivity.
Qed.

Lemma predictFutureWaste_poor_fit (P : Platform) (daysInFuture now : Z)
  (a : StatsAnalyzer) (db : WasteDatabase) :
  (0 <= daysInFuture -> poor_fit a = true ->
   call (predictFutureWaste daysInFuture now a) db
   = SelfDeadlock (refreshed now db))
  /\ (0 <= daysInFuture -> poor_fit a = false ->
      call (predictFutureWaste daysInFuture now a) db
      = Returns (forecast a daysInFuture, a) db).
Proof.
  split; intros Hd Hfit; apply Z.ltb_ge in Hd;
    unfold call, predictFutureWaste; rewrite Hd, Hfit; [|reflexivity].
  unfold bind.
  change (updateStats now a false db) with (call (updateStats now a) db).
  rewrite updateStats_deadlocks. reflexivity.
Qed.

(** X16: A forecast for a day in the past is 0, whatever the model.  For a day
    that is not in the past, an analyzer whose model fits (|R^2| is not
    below 0.1) answers from the model it has and changes nothing; one
    whose model fits poorly first refreshes, and so never returns. *)
Theorem predictFutureWaste_answers_only_from_a_model_that_fits :
  forall (P : Platform) (daysInFuture now : Z) (a : StatsAnalyzer)
         (db : WasteDatabase),
    (daysInFuture < 0 ->
     call (predictFutureWaste daysInFuture now a) db = Returns (F32.zero, a) db)
    /\ (0 <= daysInFuture -> poor_fit a = false ->
        call (predictFutureWaste daysInFuture now a) db
        = Returns (forecast a daysInFuture, a) db)
    /\ (0 <= daysInFuture -> poor_fit a = true ->
        call (predictFutureWaste daysInFuture now a) db
        = SelfDeadlock (refreshed now db)).
Proof.
  intros P d now a db. repeat split.
  - intros Hd. apply Z.ltb_lt in Hd.
    unfold call, predictFutureWaste. rewrite Hd. reflexivity.
  - intros Hd Hfit. apply Z.ltb_ge in Hd.
    unfold call, predictFutureWaste. rewrite Hd, Hfit. reflexivity.
  - intros Hd Hfit. apply Z.ltb_ge in Hd.
    unfold call, predictFutureWaste. rewrite Hd, Hfit. unfold bind.
    change (updateStats now a false db) with (call (updateStats now a) db).
    rewrite updateStats_deadlocks. reflexivity.
Qed.





End Requests.

(* ================================================================== *)
(** ** The trend of a food type and of a meal period *)

Module Series.
Import CLib Data Analysis Samples Props.

Lemma sorted_app {A} (R : A -> A -> Prop) (l1 l2 : list A) :
  StronglySorted R (l1 ++ l2) ->
  StronglySorted R l1 /\ StronglySorted R l2
  /\ forall a b, In a l1 -> In b l2 -> R a b.
Proof.
  induction l1 as [|x l1 IH]; cbn [app]; intros H.
  - split; [constructor|]. split; [exact H|]. intros a b [].
  - inversion H as [|? ? Hs Hf]; subst. destruct (IH Hs) as (H1 & H2 & H12).
    split; [|split; [exact H2|]].
    + constructor; [exact H1|].
      apply Forall_forall. intros y Hy.
      apply (proj1 (Forall_forall _ _) Hf). apply in_or_app. left. exact Hy.
    + intros a b [<-|Ha] Hb.
      * apply (proj1 (Forall_forall _ _) Hf). apply in_or_app. right. exact Hb.
      * exact (H12 a b Ha Hb).
Qed.

Lemma insert_sorted_last (x : string * float) (acc : list (string * float)) :
  (forall y, In y acc -> String.compare (fst y) (fst x) = Lt) ->
  Std.insert_sorted Std.pair_lt x acc = acc ++ [x].
Proof.
  induction acc as [|y acc IH]; intros H; cbn [Std.insert_sorted app];
    [reflexivity|].
  assert (Hy : String.compare (fst y) (fst x) = Lt) by (apply H; left; reflexivity).
  assert (Hx : String.compare (fst x) (fst y) = Gt).
  { rewrite String.compare_antisym, Hy. reflexivity. }
  unfold Std.pair_lt at 1. unfold String.ltb.
  rewrite Hy, Hx. cbn [orb negb andb].
  rewrite IH; [reflexivity|]. intros z Hz. apply H. right. exact Hz.
Qed.

(** A map is already in the order of [operator<] on its pairs: sorting the
    copy of it changes nothing. *)
Lemma sort_increasing (m : smap float) :
  increasing_keys m -> Std.sort Std.pair_lt m = m.
Proof.
  assert (H : forall (m acc : smap float),
             increasing_keys (acc ++ m) ->
             fold_left (fun acc x => Std.insert_sorted Std.pair_lt x acc) m acc
             = acc ++ m).
  { clear m. induction m as [|x m IH]; intros acc H; cbn [fold_left].
    - symmetry. apply app_nil_r.
    - rewrite insert_sorted_last.
      + rewrite IH; [rewrite <- app_assoc; reflexivity|].
        rewrite <- app_assoc. exact H.
      + destruct (sorted_app _ _ _ H) as (_ & _ & H12).
        intros y Hy. apply (H12 y x Hy). left. reflexivity. }
  intros Hm. apply (H m []). exact Hm.
Qed.

Lemma limit_days_suffix {A} (l : list A) (days : Z) :
  exists pre, l = pre ++ limit_days l days.
Proof.
  unfold limit_days. destruct (_ <? _).
  - exists (firstn (List.length l - Z.to_nat days) l).
    symmetry. apply firstn_skipn.
  - exists []. reflexivity.
Qed.

Lemma limit_days_length {A} (l : list A) (days : Z) :
  0 <= days < 2 ^ 64 ->
  Z.of_nat (List.length (limit_days l days)) <= days.
Proof.
  intros Hd. unfold limit_days, Std.to_size_t.
  rewrite (Z.mod_small days) by lia.
  destruct (days <? Z.of_nat (List.length l)) eqn:Hlt.
  - apply Z.ltb_lt in Hlt. rewrite length_skipn. lia.
  - apply Z.ltb_ge in Hlt. exact Hlt.
Qed.

Lemma combine_fst_snd {A B} (l : list (A * B)) :
  combine (map fst l) (map snd l) = l.
Proof.
  induction l as [|[a b] l IH]; cbn [map combine fst snd]; congruence.
Qed.

Lemma keys_increasing_labels {V} (m : smap V) :
  increasing_keys m -> increasing_labels (map fst m).
Proof.
  unfold increasing_keys, increasing_labels.
  induction 1 as [|kv rest Hrest IH Hhd]; cbn [map]; constructor.
  - exact IH.
  - apply Forall_forall. intros k Hk. apply in_map_iff in Hk.
    destruct Hk as [kv' [<- Hin]].
    exact (proj1 (Forall_forall _ _) Hhd kv' Hin).
Qed.

(** What the lemmas above give for the trend built from a map. *)
Lemma trend_of_map (key : WasteEntry -> option string)
  (entries : list WasteEntry) (days : Z) :
  let dailyWeights := fold_left (fill_step key weigh F32.zero) entries [] in
  let trend := trend_of (limit_days (Std.sort Std.pair_lt dailyWeights) days) in
  List.length (timeLabels trend) = List.length (values trend)
  /\ (0 <= days < 2 ^ 31 -> Z.of_nat (List.length (timeLabels trend)) <= days)
  /\ increasing_labels (timeLabels trend)
  /\ Forall (fun kv => group_weight key (fst kv) entries = Some (snd kv))
            (combine (timeLabels trend) (values trend))
  /\ (dailyWeights = [] -> timeLabels trend = []).
Proof.
  intros dailyWeights trend.
  assert (Hinc : increasing_keys dailyWeights).
  { apply Maps.fold_step_increasing. apply Snapshot.empty_increasing. }
  subst trend. rewrite (sort_increasing _ Hinc).
  destruct (limit_days_suffix dailyWeights days) as [pre Hpre].
  cbn [trend_of timeLabels values].
  split; [rewrite !length_map; reflexivity|].
  split; [|split; [|split]].
  - intros Hd. rewrite length_map. apply limit_days_length.
    change (2 ^ 31) with 2147483648 in Hd.
    change (2 ^ 64) with 18446744073709551616. lia.
  - unfold increasing_keys in Hinc. rewrite Hpre in Hinc.
    destruct (sorted_app _ _ _ Hinc) as (_ & Hs & _).
    apply keys_increasing_labels. exact Hs.
  - rewrite combine_fst_snd. apply Forall_forall. intros [k w] Hin.
    cbn [fst snd].
    assert (Hin' : In (k, w) dailyWeights).
    { rewrite Hpre. apply in_or_app. right. exact Hin. }
    apply (Maps.In_find _ _ _ Hinc) in Hin'.
    unfold dailyWeights in Hin'. rewrite Snapshot.find_group_weight in Hin'.
    exact Hin'.
  - intros He.
    assert (Hl : pre ++ limit_days dailyWeights days = [])
      by (rewrite <- Hpre; exact He).
    apply app_eq_nil in Hl. destruct Hl as [_ Hl]. rewrite Hl. reflexivity.
Qed.

Section WithPlatform.
Context {P : Platform}.

Lemma analyzeFoodTypeTrend_returns (foodType_ : string) (days : Z)
  (a : StatsAnalyzer) (db : WasteDatabase) :
  let selected := filter (matches_query foodType_ "" "") (m_entries db) in
  let trend :=
    trend_of (limit_days
                (Std.sort Std.pair_lt
                   (fold_left (fill_step by_date_text weigh F32.zero) selected []))
                days) in
  call (analyzeFoodTypeTrend foodType_ days a) db
  = match selected with
    | [] => Returns (TrendData_new, a) db
    | _ =>
        Returns (trend,
                 with_trends a
                   (StdMap.modify String.compare foodType_ (fun _ => trend) trend
                                  (m_foodTypeTrends a))
                   (m_mealPeriodTrends a))
                db
    end.
Proof.
  intros selected trend. unfold call, analyzeFoodTypeTrend, bind.
  change (getEntries foodType_ "" "" false db)
    with (call (getEntries foodType_ "" "" ) db).
  rewrite Selection.getEntries_matches. fold selected.
  destruct selected; reflexivity.
Qed.

Lemma fold_meal_filter (mealPeriod_ : string) (entries : list WasteEntry) :
  forall m,
    fold_left
      (fun dailyWeights entry =>
         if String.eqb (mealPeriod entry) mealPeriod_
         then StdMap.add_weight (substring 0 10 (timestamp entry))
                                (weight entry) dailyWeights
         else dailyWeights)
      entries m
    = fold_left (fill_step (by_date_text_in mealPeriod_) weigh F32.zero) entries m.
Proof.
  induction entries as [|e es IH]; intros m; [reflexivity|].
  cbn [fold_left]. rewrite IH. f_equal. unfold fill_step, by_date_text_in.
  destruct (String.eqb (mealPeriod e) mealPeriod_); reflexivity.
Qed.

Lemma analyzeMealPeriodTrend_returns (mealPeriod_ : string) (days : Z)
  (a : StatsAnalyzer) (db : WasteDatabase) :
  let trend :=
    trend_of (limit_days
                (Std.sort Std.pair_lt
                   (fold_left (fill_step (by_date_text_in mealPeriod_) weigh F32.zero)
                              (m_entries db) []))
                days) in
  call (analyzeMealPeriodTrend mealPeriod_ days a) db
  = match m_entries db with
    | [] => Returns (TrendData_new, a) db
    | _ =>
        Returns (trend,
                 with_trends a
                   (m_foodTypeTrends a)
                   (StdMap.modify String.compare mealPeriod_ (fun _ => trend) trend
                                  (m_mealPeriodTrends a)))
                db
    end.
Proof.
  intros trend. unfold call, analyzeMealPeriodTrend, bind.
  change (getEntries "" "" "" false db) with (call (getEntries "" "" "" ) db).
  rewrite Query.getEntries_returns. cbn [Std.empty andb].
  destruct (m_entries db) as [|e es] eqn:He; [reflexivity|].
  rewrite fold_meal_filter. reflexivity.
Qed.

End WithPlatform.

(** X19: The trend of a food type returns and leaves the database as it is.
    Its labels are the date texts (the first ten characters of the
    timestamps) of the entries of that type, in strictly increasing
    order and so each once, the latest [days] of them; under each label
    the value is the [+=] sum, in ledger order, of the weights of the
    entries of that type with that date text.  The trend is stored under
    the food type and found there afterwards.  With no entry of that type
    the result is an empty trend and nothing is stored. *)
Theorem food_type_trend_sums_each_date_once :
  forall (P : Platform) (foodType_ : string) (days : Z) (a : StatsAnalyzer)
         (db : WasteDatabase),
    let selected := filter (matches_query foodType_ "" "") (m_entries db) in
    exists trend a',
      call (analyzeFoodTypeTrend foodType_ days a) db = Returns (trend, a') db
      /\ List.length (timeLabels trend) = List.length (values trend)
      /\ (0 <= days < 2 ^ 31 -> Z.of_nat (List.length (timeLabels trend)) <= days)
      /\ increasing_labels (timeLabels trend)
      /\ Forall (fun kv => group_weight by_date_text (fst kv) selected
                           = Some (snd kv))
                (combine (timeLabels trend) (values trend))
      /\ (selected = [] -> trend = TrendData_new /\ a' = a)
      /\ (selected <> [] -> increasing_keys (m_foodTypeTrends a) ->
          StdMap.sfind foodType_ (m_foodTypeTrends a') = Some trend
          /\ m_mealPeriodTrends a' = m_mealPeriodTrends a).
Proof.
  intros P foodType_ days a db selected.
  pose proof (analyzeFoodTypeTrend_returns foodType_ days a db) as Hcall.
  cbn zeta in Hcall. fold selected in Hcall.
  destruct (trend_of_map by_date_text selected days) as (H1 & H2 & H3 & H4 & _).
  destruct selected as [|e es] eqn:Hsel.
  - exists TrendData_new, a. split; [exact Hcall|].
    split; [reflexivity|]. split; [intros Hd; cbn; lia|].
    split; [constructor|]. split; [constructor|].
    split; [intros _; split; reflexivity|].
    intros Hne. contradiction Hne. reflexivity.
  - eexists. eexists. split; [exact Hcall|].
    split; [exact H1|]. split; [exact H2|]. split; [exact H3|].
    split; [exact H4|]. split; [intros He; discriminate He|].
    intros _ Hinc. split; [|reflexivity].
    cbn [with_trends m_foodTypeTrends].
    rewrite (Maps.find_modify_same _ _ _ _ Hinc). reflexivity.
Qed.

(** Two entries of rice on one day, and one of bread: the trend of rice
    has that day once. *)
Lemma food_type_trend_sums_each_date_once_witness :
  exists trend a',
    call (analyzeFoodTypeTrend (P := RefLib.ref_platform) "rice" 30 falling)
         (ledger_of [rice_lunch; rice_lunch; bread_boundary])
    = Returns (trend, a') (ledger_of [rice_lunch; rice_lunch; bread_boundary])
    /\ timeLabels trend = ["2024-03-10"]
    /\ values trend = [F32.of_Z 240].
Proof.
  destruct (food_type_trend_sums_each_date_once RefLib.ref_platform
              "rice" 30 falling
              (ledger_of [rice_lunch; rice_lunch; bread_boundary]))
    as (trend & a' & Hcall & _).
  exists trend, a'. split; [exact Hcall|].
  vm_compute in Hcall. injection Hcall as <- _. split; reflexivity.
Defined.

(** X20: The trend of a meal period, likewise: its labels are the date texts
    of the entries of that meal period, strictly increasing, the latest
    [days] of them, each with the sum of the weights of those entries.
    On a ledger that is not empty the trend is stored under the meal
    period even when no entry has it (an empty trend); on an empty ledger
    nothing is stored. *)
Theorem meal_period_trend_sums_each_date_once :
  forall (P : Platform) (mealPeriod_ : string) (days : Z) (a : StatsAnalyzer)
         (db : WasteDatabase),
    exists trend a',
      call (analyzeMealPeriodTrend mealPeriod_ days a) db = Returns (trend, a') db
      /\ List.length (timeLabels trend) = List.length (values trend)
      /\ (0 <= days < 2 ^ 31 -> Z.of_nat (List.length (timeLabels trend)) <= days)
      /\ increasing_labels (timeLabels trend)
      /\ Forall (fun kv =>
                   group_weight (by_date_text_in mealPeriod_) (fst kv)
                                (m_entries db)
                   = Some (snd kv))
                (combine (timeLabels trend) (values trend))
      /\ ((forall entry, In entry (m_entries db) ->
                         mealPeriod entry <> mealPeriod_) ->
          timeLabels trend = [])
      /\ (m_entries db = [] -> a' = a)
      /\ (m_entries db <> [] -> increasing_keys (m_mealPeriodTrends a) ->
          StdMap.sfind mealPeriod_ (m_mealPeriodTrends a') = Some trend
          /\ m_foodTypeTrends a' = m_foodTypeTrends a).
Proof.
  intros P mealPeriod_ days a db.
  pose proof (analyzeMealPeriodTrend_returns mealPeriod_ days a db) as Hcall.
  cbn zeta in Hcall.
  destruct (trend_of_map (by_date_text_in mealPeriod_) (m_entries db) days)
    as (H1 & H2 & H3 & H4 & H5).
  assert (Hnone : (forall entry, In entry (m_entries db) ->
                                 mealPeriod entry <> mealPeriod_) ->
                  fold_left (fill_step (by_date_text_in mealPeriod_) weigh F32.zero)
                            (m_entries db) [] = []).
  { assert (Hg : forall (es : list WasteEntry) (m : smap float),
               (forall entry, In entry es -> mealPeriod entry <> mealPeriod_) ->
               fold_left (fill_step (by_date_text_in mealPeriod_) weigh F32.zero)
                         es m = m); [|apply Hg].
    induction es as [|e es IH]; intros m H; [reflexivity|].
    cbn [fold_left].
    assert (Hstep : fill_step (by_date_text_in mealPeriod_) weigh F32.zero m e = m).
    { unfold fill_step, by_date_text_in.
      destruct (String.eqb (mealPeriod e) mealPeriod_) eqn:He; [|reflexivity].
      apply String.eqb_eq in He. exfalso. exact (H e (or_introl eq_refl) He). }
    rewrite Hstep. apply IH. intros x Hx. apply H. right. exact Hx. }
  destruct (m_entries db) as [|e es] eqn:Hentries.
  - exists TrendData_new, a. split; [exact Hcall|].
    split; [reflexivity|]. split; [intros Hd; cbn; lia|].
    split; [constructor|]. split; [constructor|].
    split; [intros _; reflexivity|]. split; [intros _; reflexivity|].
    intros Hne. contradiction Hne. reflexivity.
  - eexists. eexists. split; [exact Hcall|].
    split; [exact H1|]. split; [exact H2|]. split; [exact H3|].
    split; [exact H4|]. split; [|split].
    + intros Hall. apply H5. apply Hnone. exact Hall.
    + intros He. discriminate He.
    + intros _ Hinc. split; [|reflexivity].
      cbn [with_trends m_mealPeriodTrends].
      rewrite (Maps.find_modify_same _ _ _ _ Hinc). reflexivity.
Qed.

End Series.

(* ================================================================== *)
(** ** Recommendations *)

Module Advice.
Import CLib Data Analysis Samples Props.

Lemma pair_compare_eq (a b : string * string) : pair_compare a b = Eq -> a = b.
Proof.
  destruct a as [a1 a2], b as [b1 b2]. unfold pair_compare. cbn [fst snd].
  destruct (String.compare a1 b1) eqn:H1; try discriminate.
  intros H2. apply String.compare_eq_iff in H1, H2. congruence.
Qed.

Lemma modify_pair_In (k : string * string) (f : float -> float) (d : float)
  (kv : string * string * float) (m : list (string * string * float)) :
  In kv (StdMap.modify pair_compare k f d m) ->
  fst kv = k \/ In (fst kv) (map fst m).
Proof.
  induction m as [|[k0 v] rest IH]; cbn [StdMap.modify In map fst].
  - intros [<-|[]]. left. reflexivity.
  - destruct (pair_compare k k0) eqn:Hc; cbn [In].
    + intros [<-|H]; [right; left; reflexivity|].
      right. right. apply in_map. exact H.
    + intros [<-|[<-|H]]; [left; reflexivity|right; left; reflexivity|].
      right. right. apply in_map. exact H.
    + intros [<-|H]; [right; left; reflexivity|].
      destruct (IH H) as [Hk|Hin]; [left; exact Hk|right; right; exact Hin].
Qed.

Lemma modify_pair_length (k : string * string) (f : float -> float) (d : float)
  (m : list (string * string * float)) :
  (List.length (StdMap.modify pair_compare k f d m) <= S (List.length m))%nat.
Proof.
  induction m as [|[k0 v] rest IH]; cbn [StdMap.modify List.length]; [lia|].
  destruct (pair_compare k k0); cbn [List.length]; lia.
Qed.

Lemma combinedWaste_from (entries : list WasteEntry) :
  forall m,
    let combined :=
      fold_left
        (fun combined entry =>
           StdMap.modify pair_compare (foodType entry, mealPeriod entry)
                         (fun v => F32.add v (weight entry)) F32.zero combined)
        entries m in
    (List.length combined <= List.length m + List.length entries)%nat
    /\ forall kv, In kv combined ->
                  In (fst kv) (map fst m)
                  \/ exists entry, In entry entries
                                   /\ fst kv = (foodType entry, mealPeriod entry).
Proof.
  induction entries as [|e es IH]; intros m; cbn zeta; cbn [fold_left List.length].
  - split; [lia|]. intros kv H. left. apply in_map. exact H.
  - destruct (IH (StdMap.modify pair_compare (foodType e, mealPeriod e)
                    (fun v => F32.add v (weight e)) F32.zero m)) as [Hlen Hin].
    cbn zeta in Hlen, Hin. split.
    + pose proof (modify_pair_length (foodType e, mealPeriod e)
                    (fun v => F32.add v (weight e)) F32.zero m). lia.
    + intros kv Hkv. destruct (Hin kv Hkv) as [Hm|[e' [He' Hk]]].
      * apply in_map_iff in Hm. destruct Hm as [kv' [Hfst Hm]].
        apply modify_pair_In in Hm. rewrite Hfst in Hm.
        destruct Hm as [Hk|Hm]; [|left; exact Hm].
        right. exists e. split; [left; reflexivity|exact Hk].
      * right. exists e'. split; [right; exact He'|exact Hk].
Qed.

Section WithPlatform.
Context {P : Platform} {F : Formatting}.

Lemma generateRecommendations_returns (limit now : Z) (a : StatsAnalyzer)
  (db : WasteDatabase) :
  let sortedCombinations :=
    Std.sort (fun x y : string * string * float => F32.ltb (snd y) (snd x))
             (combinedWaste (m_entries db)) in
  call (generateRecommendations limit now a) db
  = Returns
      (map recommend
           (firstn (Z.to_nat (Z.min (Std.to_size_t limit)
                                    (Z.of_nat (List.length sortedCombinations))))
                   sortedCombinations),
       a)
      (if m_statisticsDirty db then refreshed now db else db).
Proof.
  cbn zeta. unfold call, generateRecommendations, bind.
  change (getTopWastedFoods 5 now false db)
    with (call (getTopWastedFoods 5 now) db).
  rewrite Invariant.getTopWastedFoods_returns. cbn zeta.
  unfold getWasteByMeal, bind.
  match goal with
  | |- context [getStatistics ALL_TIME now false ?d] =>
      change (getStatistics ALL_TIME now false d)
        with (call (getStatistics ALL_TIME now) d)
  end.
  rewrite Locking.getStatistics_ALL_TIME.
  destruct (m_statisticsDirty db) eqn:Hd.
  - cbn [refreshed with_statistics m_statisticsDirty]. unfold ret at 1.
    change (getEntries "" "" "" false (refreshed now db))
      with (call (getEntries "" "" "") (refreshed now db)).
    rewrite Query.getEntries_returns. reflexivity.
  - rewrite Hd. unfold ret at 1.
    change (getEntries "" "" "" false db) with (call (getEntries "" "" "") db).
    rewrite Query.getEntries_returns. reflexivity.
Qed.

End WithPlatform.

(** X21: The recommendations request returns and leaves the analyzer and the
    entries as they are and the cache clean.  There are at most [limit]
    recommendations and at most one per entry, none for an empty ledger;
    each is made of a combination of food type and meal period that
    occurs in the ledger, with a potential saving of 0.3 times (in
    [float]) the weight on record for the combination; and no
    combination is lighter than the one recommended after it. *)
Theorem recommendations_are_the_heaviest_combinations :
  forall (P : Platform) (F : Formatting) (limit now : Z) (a : StatsAnalyzer)
         (db : WasteDatabase),
  exists (ranked : list (string * string * float)) db',
    call (generateRecommendations limit now a) db
    = Returns (map recommend ranked, a) db'
    /\ m_entries db' = m_entries db
    /\ m_statisticsDirty db' = false
    /\ (0 <= limit -> Z.of_nat (List.length ranked) <= limit)
    /\ (List.length ranked <= List.length (m_entries db))%nat
    /\ (forall food meal w,
          In (food, meal, w) ranked ->
          In (food, meal, w) (combinedWaste (m_entries db))
          /\ (exists entry, In entry (m_entries db)
                            /\ foodType entry = food /\ mealPeriod entry = meal)
          /\ WasteRecommendation.potentialSavings (recommend (food, meal, w))
             = F32.mul w F32.lit_0_3
          /\ WasteRecommendation.foodType (recommend (food, meal, w)) = food
          /\ WasteRecommendation.mealPeriod (recommend (food, meal, w)) = meal)
    /\ Sorted (fun x y : string * string * float => F32.ltb (snd x) (snd y) = false)
              ranked.
Proof.
  intros P F limit now a db.
  pose proof (generateRecommendations_returns limit now a db) as Hcall.
  cbn zeta in Hcall.
  set (comp := fun x y : string * string * float => F32.ltb (snd y) (snd x)) in *.
  set (n := Z.to_nat _) in Hcall.
  destruct (combinedWaste_from (m_entries db) []) as [Hlen Hin].
  cbn zeta in Hlen, Hin. fold (combinedWaste (m_entries db)) in Hlen, Hin.
  eexists. eexists. split; [exact Hcall|].
  split; [destruct (m_statisticsDirty db); reflexivity|].
  split; [destruct (m_statisticsDirty db) eqn:Hd; [reflexivity|exact Hd]|].
  split; [|split; [|split]].
  - intros Hl. rewrite length_firstn. subst n.
    assert (Std.to_size_t limit = limit \/ 2 ^ 64 <= limit) as [Hs|Hs].
    { unfold Std.to_size_t.
      destruct (Z_lt_ge_dec limit (2 ^ 64)); [left|right; lia].
      apply Z.mod_small. lia. }
    + rewrite Hs. lia.
    + pose proof (Z.mod_pos_bound limit (2 ^ 64) eq_refl) as Hb.
      unfold Std.to_size_t. lia.
  - rewrite length_firstn, Order.sort_length. cbn [List.length] in Hlen. lia.
  - intros food meal w Hr.
    apply Order.firstn_In, Order.sort_In in Hr.
    split; [exact Hr|]. split; [|repeat split].
    destruct (Hin _ Hr) as [[]|[e [He Hk]]].
    exists e. cbn [fst] in Hk. injection Hk as -> ->. repeat split. exact He.
  - apply Order.firstn_Sorted. apply (Order.sort_Sorted comp).
    intros x y. unfold comp. apply Order.ltb_asym.
Qed.

End Advice.

(* ================================================================== *)
(** ** Outliers and the weekday pattern *)

Module Patterns.
Import CLib Data Analysis Samples Props.

(** A key above every key of the map goes to its end. *)
Lemma modify_last {V} (k : string) (f : V -> V) (d : V) (m : smap V) :
  (forall kv, In kv m -> String.compare (fst kv) k = Lt) ->
  StdMap.modify String.compare k f d m = m ++ [(k, f d)].
Proof.
  induction m as [|[k0 v] rest IH]; intros H; cbn [StdMap.modify app];
    [reflexivity|].
  assert (H0 : String.compare k k0 = Gt).
  { pose proof (H (k0, v) (or_introl eq_refl)) as Hlt. cbn [fst] in Hlt.
    rewrite String.compare_antisym, Hlt. reflexivity. }
  rewrite H0, IH; [reflexivity|]. intros kv Hkv. apply H. right. exact Hkv.
Qed.

Lemma fold_outliers (p : string * float -> bool) (rest : smap float) :
  forall acc : smap float,
    increasing_keys (acc ++ rest) ->
    fold_left
      (fun outliers (kv : string * float) =>
         if p kv
         then StdMap.modify String.compare (fst kv) (fun _ => snd kv) (snd kv)
                            outliers
         else outliers)
      rest acc
    = acc ++ filter p rest.
Proof.
  induction rest as [|[k v] rest IH]; intros acc H; cbn [fold_left filter].
  - symmetry. apply app_nil_r.
  - destruct (Series.sorted_app _ _ _ H) as (Hacc & Hrest & Hcross).
    destruct (p (k, v)).
    + cbn [fst snd]. rewrite modify_last.
      * rewrite IH; [rewrite <- app_assoc; reflexivity|].
        rewrite <- app_assoc. exact H.
      * intros kv Hkv. apply (Hcross kv (k, v) Hkv). left. reflexivity.
    + apply IH. unfold increasing_keys in *.
      inversion Hrest as [|? ? Hrest' Hhd]; subst.
      clear IH H. induction acc as [|a acc IHa]; cbn [app]; [exact Hrest'|].
      inversion Hacc as [|? ? Hacc' Ha]; subst.
      constructor.
      * apply IHa; [exact Hacc'|].
        intros x y Hx Hy. apply Hcross; [right; exact Hx|exact Hy].
      * apply Forall_forall. intros y Hy. apply in_app_or in Hy.
        destruct Hy as [Hy|Hy].
        -- exact (proj1 (Forall_forall _ _) Ha y Hy).
        -- apply Hcross; [left; reflexivity|right; exact Hy].
Qed.

Lemma identifyOutliers_filter (data : smap float) (threshold : float) :
  increasing_keys data ->
  identifyOutliers data threshold = filter (far_from_mean data threshold) data.
Proof.
  intros H. unfold identifyOutliers, far_from_mean.
  destruct data as [|kv0 rest]; [reflexivity|].
  destruct (mean_stdDev (kv0 :: rest)) as [mean stdDev]. cbn [fst snd].
  exact (fold_outliers
           (fun kv => F32.ltb threshold (zScore (snd kv) mean stdDev))
           (kv0 :: rest) [] H).
Qed.

(** *** The weekday pattern *)

Lemma modify_present_keys {V} (k : string) (f : V -> V) (d : V) (m : smap V) :
  increasing_keys m -> In k (map fst m) ->
  map fst (StdMap.modify String.compare k f d m) = map fst m.
Proof.
  unfold increasing_keys.
  induction 1 as [|[k0 v] rest Hrest IH Hhd]; intros Hin; [contradiction|].
  cbn [StdMap.modify]. destruct (String.compare k k0) eqn:Hc; cbn [map fst].
  - reflexivity.
  - exfalso. cbn [map fst In] in Hin. destruct Hin as [->|Hin].
    + rewrite Maps.compare_refl in Hc. discriminate Hc.
    + apply in_map_iff in Hin. destruct Hin as [kv [Hk Hin]].
      pose proof (proj1 (Forall_forall _ _) Hhd kv Hin) as Hlt.
      cbn [fst] in Hlt. rewrite Hk in Hlt.
      pose proof (Maps.compare_trans _ _ _ Hc Hlt) as Hkk.
      rewrite Maps.compare_refl in Hkk. discriminate Hkk.
  - f_equal. apply IH. cbn [map fst In] in Hin. destruct Hin as [->|Hin].
    + rewrite Maps.compare_refl in Hc. discriminate Hc.
    + exact Hin.
Qed.

Lemma fold_present_keys {A V} (key : A -> option string) (f : A -> V -> V)
  (d : V) (es : list A) :
  forall m : smap V,
    increasing_keys m ->
    (forall e k, In e es -> key e = Some k -> In k (map fst m)) ->
    map fst (fold_left (fill_step key f d) es m) = map fst m.
Proof.
  induction es as [|e es IH]; intros m Hm H; [reflexivity|].
  cbn [fold_left].
  assert (Hstep : map fst (fill_step key f d m e) = map fst m).
  { unfold fill_step. destruct (key e) as [k|] eqn:Hk; [|reflexivity].
    apply modify_present_keys; [exact Hm|].
    exact (H e k (or_introl eq_refl) Hk). }
  rewrite IH.
  - exact Hstep.
  - unfold fill_step. destruct (key e); [apply Maps.modify_increasing|]; exact Hm.
  - intros e' k He' Hk. rewrite Hstep. apply (H e' k); [right; exact He'|exact Hk].
Qed.

Lemma day_averages_keys (pattern : smap float) (dayCounts : smap Z) :
  map fst (day_averages pattern dayCounts) = map fst pattern.
Proof.
  unfold day_averages. rewrite map_map. reflexivity.
Qed.

Lemma find_day_averages (k : string) (pattern : smap float) (dayCounts : smap Z) :
  StdMap.sfind k (day_averages pattern dayCounts)
  = match StdMap.sfind k pattern with
    | Some w =>
        let count := match StdMap.sfind k dayCounts with
                     | Some c => c
                     | None => 0
                     end in
        Some (if 0 <? count then F32.div w (F32.of_Z count) else w)
    | None => None
    end.
Proof.
  unfold StdMap.sfind, day_averages.
  induction pattern as [|[k0 w] rest IH]; [reflexivity|].
  cbn [map StdMap.find fst snd].
  destruct (String.compare k k0) eqn:Hc; try exact IH.
  apply String.compare_eq_iff in Hc. subst k0. reflexivity.
Qed.

Section WithPlatform.
Context {P : Platform}.

Lemma fold_accumulate_day (entries : list WasteEntry) :
  forall (pattern : smap float) (dayCounts : smap Z),
    weekdays_in_range entries ->
    fold_left accumulate_day entries (Some (pattern, dayCounts))
    = Some (fold_left (fill_step weekday_of weigh F32.zero) entries pattern,
            fold_left (fill_step weekday_of (fun _ v => v + 1) 0) entries
                      dayCounts).
Proof.
  induction entries as [|e es IH]; intros pattern dayCounts H; [reflexivity|].
  cbn [fold_left].
  assert (Hes : weekdays_in_range es).
  { intros e' t He'. apply H. right. exact He'. }
  assert (Hstep : accumulate_day (Some (pattern, dayCounts)) e
                  = Some (fill_step weekday_of weigh F32.zero pattern e,
                          fill_step weekday_of (fun _ v => v + 1) 0 dayCounts e)).
  { unfold accumulate_day, fill_step, weekday_of.
    destruct (get_time (timestamp e) timestamp_format) as [t|] eqn:Ht;
      [|reflexivity].
    pose proof (H e t (or_introl eq_refl) Ht) as [Hlo Hhi].
    apply Z.leb_le in Hlo. apply Z.ltb_lt in Hhi. rewrite Hlo, Hhi.
    reflexivity. }
  rewrite Hstep. apply IH. exact Hes.
Qed.

Lemma weekday_of_dayNames (entries : list WasteEntry) :
  weekdays_in_range entries ->
  forall e k, In e entries -> weekday_of e = Some k -> In k dayNames.
Proof.
  intros H e k He. unfold weekday_of.
  destruct (get_time (timestamp e) timestamp_format) as [t|] eqn:Ht;
    [|discriminate].
  intros Hk. destruct (H e t He Ht) as [Hlo Hhi].
  assert (Hn : nth (Z.to_nat (tm_wday t)) dayNames EmptyString = k) by congruence.
  rewrite <- Hn. apply nth_In. change (List.length dayNames) with 7%nat. lia.
Qed.

Lemma calculateDayOfWeekPattern_returns (db : WasteDatabase) :
  weekdays_in_range (m_entries db) ->
  call calculateDayOfWeekPattern db
  = Returns
      (Some (day_averages
               (fold_left (fill_step weekday_of weigh F32.zero) (m_entries db)
                          (fst day_pattern_init))
               (fold_left (fill_step weekday_of (fun _ v => v + 1) 0)
                          (m_entries db) (snd day_pattern_init))))
      db.
Proof.
  intros H. unfold call, calculateDayOfWeekPattern, bind.
  change (getEntries "" "" "" false db) with (call (getEntries "" "" "") db).
  rewrite Query.getEntries_returns. cbn [Std.empty andb]. unfold ret.
  rewrite (surjective_pairing day_pattern_init).
  rewrite (fold_accumulate_day _ _ _ H). reflexivity.
Qed.

End WithPlatform.

Lemma day_pattern_init_increasing :
  increasing_keys (fst day_pattern_init) /\ increasing_keys (snd day_pattern_init).
Proof. split; repeat constructor. Qed.

Lemma day_pattern_init_find (day : string) :
  In day dayNames ->
  StdMap.sfind day (fst day_pattern_init) = Some F32.zero
  /\ StdMap.sfind day (snd day_pattern_init) = Some 0.
Proof.
  intros H. cbn [dayNames In] in H.
  repeat (destruct H as [<-|H]; [split; reflexivity|]). contradiction.
Qed.

Lemma count_fold (sel : list WasteEntry) (n : Z) :
  fold_left (fun v (e : WasteEntry) => (fun (_ : WasteEntry) v => v + 1) e v) sel n
  = n + Z.of_nat (List.length sel).
Proof. apply Snapshot.count_as_fold. Qed.

Lemma labels_increasing_keys {V} (m : smap V) :
  increasing_labels (map fst m) -> increasing_keys m.
Proof.
  unfold increasing_keys, increasing_labels.
  induction m as [|kv rest IH]; cbn [map]; intros H; [constructor|].
  inversion H as [|? ? Hrest Hhd]; subst. constructor; [exact (IH Hrest)|].
  apply Forall_forall. intros y Hy.
  apply (proj1 (Forall_forall _ _) Hhd). apply in_map. exact Hy.
Qed.

Section Weekdays.
Context {P : Platform}.

Lemma weekday_pattern (db : WasteDatabase) :
  weekdays_in_range (m_entries db) ->
  exists pattern,
    call calculateDayOfWeekPattern db = Returns (Some pattern) db
    /\ map fst pattern
       = ["Friday"; "Monday"; "Saturday"; "Sunday"; "Thursday"; "Tuesday";
          "Wednesday"]
    /\ (forall day,
          In day dayNames ->
          StdMap.sfind day pattern
          = Some (group_average weekday_of day (m_entries db)))
    /\ ((forall entry, In entry (m_entries db) -> dated entry = false) ->
        pattern = day_averages (fst day_pattern_init) (snd day_pattern_init)).
Proof.
  intros H. eexists. split; [apply calculateDayOfWeekPattern_returns; exact H|].
  destruct day_pattern_init_increasing as [Hp Hc].
  split; [|split].
  - rewrite day_averages_keys, fold_present_keys; [reflexivity|exact Hp|].
    intros e k He Hk. pose proof (weekday_of_dayNames _ H e k He Hk) as Hin.
    cbn [dayNames In] in Hin.
    repeat (destruct Hin as [<-|Hin]; [vm_compute; tauto|]). contradiction.
  - intros day Hday. destruct (day_pattern_init_find day Hday) as [Hfp Hfc].
    rewrite find_day_averages.
    rewrite (Maps.find_fold_step _ _ _ day _ _ Hp).
    rewrite (Maps.find_fold_step _ _ _ day _ _ Hc).
    rewrite Hfp, Hfc. unfold group_average, has_key.
    destruct (filter _ (m_entries db)) as [|e sel]; [reflexivity|].
    cbn zeta. rewrite count_fold.
    assert (Hpos : (0 <? 0 + Z.of_nat (List.length (e :: sel))) = true).
    { apply Z.ltb_lt. cbn [List.length]. lia. }
    rewrite Hpos. rewrite Z.add_0_l. reflexivity.
  - intros Hnone.
    assert (Hg : forall {V} (f : WasteEntry -> V -> V) (d : V) es (m : smap V),
               (forall entry, In entry es -> dated entry = false) ->
               fold_left (fill_step weekday_of f d) es m = m).
    { intros V f d es. induction es as [|e es IH]; intros m Hes; [reflexivity|].
      cbn [fold_left].
      assert (Hstep : fill_step weekday_of f d m e = m).
      { unfold fill_step, weekday_of.
        pose proof (Hes e (or_introl eq_refl)) as He. unfold dated in He.
        destruct (get_time (timestamp e) timestamp_format);
          [discriminate He|reflexivity]. }
      rewrite Hstep. apply IH. intros x Hx. apply Hes. right. exact Hx. }
    rewrite !Hg by exact Hnone. reflexivity.
Qed.

End Weekdays.

Lemma filter_sorted {A} (R : A -> A -> Prop) (p : A -> bool) (l : list A) :
  StronglySorted R l -> StronglySorted R (filter p l).
Proof.
  induction 1 as [|x l Hl IH Hhd]; cbn [filter]; [constructor|].
  destruct (p x); [|exact IH]. constructor; [exact IH|].
  apply Forall_forall. intros y Hy. apply filter_In in Hy.
  exact (proj1 (Forall_forall _ _) Hhd y (proj1 Hy)).
Qed.

Lemma filter_no_longer {A} (p : A -> bool) (l : list A) :
  (List.length (filter p l) <= List.length l)%nat.
Proof.
  induction l as [|x l IH]; cbn [filter List.length]; [lia|].
  destruct (p x); cbn [List.length]; lia.
Qed.

(** X22: An outlier report lists, in key order, exactly the keys whose value
    lies more than the threshold of standard deviations from the mean:
    every flagged pair is a pair of the distribution, with its value
    unchanged, and an empty distribution has no outlier. *)
Theorem identifyOutliers_flags_the_values_far_from_the_mean :
  forall (data : smap float) (threshold : float),
    increasing_keys data ->
    identifyOutliers data threshold = filter (far_from_mean data threshold) data
    /\ (forall kv, In kv (identifyOutliers data threshold) <->
                   In kv data /\ far_from_mean data threshold kv = true)
    /\ increasing_keys (identifyOutliers data threshold)
    /\ (List.length (identifyOutliers data threshold) <= List.length data)%nat.
Proof.
  intros data threshold H. rewrite (identifyOutliers_filter data threshold H).
  split; [reflexivity|]. split; [intros kv; apply filter_In|].
  split; [apply filter_sorted; exact H|apply filter_no_longer].
Qed.

Lemma identifyOutliers_flags_the_values_far_from_the_mean_witness :
  identifyOutliers [("Breakfast", F32.of_Z 10); ("Dinner", F32.of_Z 10);
                    ("Lunch", F32.of_Z 10); ("Snack", F32.of_Z 500)]
                   F32.lit_1_5
  = [("Snack", F32.of_Z 500)].
Proof.
  destruct (identifyOutliers_flags_the_values_far_from_the_mean
              [("Breakfast", F32.of_Z 10); ("Dinner", F32.of_Z 10);
               ("Lunch", F32.of_Z 10); ("Snack", F32.of_Z 500)]
              F32.lit_1_5) as [H _].
  - repeat constructor.
  - rewrite H. vm_compute. reflexivity.
Defined.

(** X23: The weekday pattern always has the seven weekdays, in the order of
    their names; the value of a weekday is the average weight of the
    entries whose timestamp parses to that weekday, 0 when there is none.
    The request returns and changes nothing.  (The platform gives every
    parsed timestamp a weekday from 0 to 6; the code indexes the array of
    names with it unchecked.) *)
Theorem weekday_pattern_averages_each_weekday :
  forall (P : Platform) (db : WasteDatabase),
    weekdays_in_range (m_entries db) ->
    exists pattern,
      call calculateDayOfWeekPattern db = Returns (Some pattern) db
      /\ map fst pattern
         = ["Friday"; "Monday"; "Saturday"; "Sunday"; "Thursday"; "Tuesday";
            "Wednesday"]
      /\ (forall day,
            In day dayNames ->
            StdMap.sfind day pattern
            = Some (group_average weekday_of day (m_entries db))).
Proof.
  intros P db H. destruct (weekday_pattern db H) as (pattern & H1 & H2 & H3 & _).
  exists pattern. repeat split; assumption.
Qed.

Lemma sample_weekdays_in_range :
  weekdays_in_range (P := RefLib.ref_platform)
    (m_entries (ledger_of [rice_lunch; bread_boundary])).
Proof.
  intros e t [<-|[<-|[]]] Ht; vm_compute in Ht; injection Ht as <-;
    cbn [tm_wday]; lia.
Qed.

Lemma weekday_pattern_averages_each_weekday_witness :
  exists pattern,
    call (calculateDayOfWeekPattern (P := RefLib.ref_platform))
         (ledger_of [rice_lunch; bread_boundary])
    = Returns (Some pattern) (ledger_of [rice_lunch; bread_boundary])
    /\ StdMap.sfind "Sunday" pattern = Some (F32.of_Z 80).
Proof.
  destruct (weekday_pattern_averages_each_weekday RefLib.ref_platform
              (ledger_of [rice_lunch; bread_boundary])
              sample_weekdays_in_range)
    as (pattern & Hcall & _ & Hfind).
  exists pattern. split; [exact Hcall|].
  rewrite (Hfind "Sunday"); [vm_compute; reflexivity|].
  left. reflexivity.
Defined.

(** X24: The correlations report returns and changes nothing: its sentences
    are one for every weekday whose average lies more than 1.5 standard
    deviations from the mean of the seven averages, in the order of the
    weekday names, followed by one for every flagged meal period of the
    analyzer's snapshot.  On a ledger with no timestamp that parses, the
    empty ledger included, no weekday is reported. *)
Theorem findCorrelations_reports_the_outlying_weekdays :
  forall (P : Platform) (F : Formatting) (a : StatsAnalyzer)
         (db : WasteDatabase),
    weekdays_in_range (m_entries db) ->
    exists pattern,
      call calculateDayOfWeekPattern db = Returns (Some pattern) db
      /\ call (findCorrelations a) db
         = Returns
             (Some (map correlation_found
                        (filter (far_from_mean pattern F32.lit_1_5) pattern)
                    ++ map correlation_found
                         (identifyOutliers (weightByMeal (m_currentStats a))
                                           F32.lit_1_5)),
              a)
             db
      /\ ((forall entry, In entry (m_entries db) -> dated entry = false) ->
          filter (far_from_mean pattern F32.lit_1_5) pattern = []).
Proof.
  intros P F a db H. destruct (weekday_pattern db H) as (pattern & H1 & H2 & _ & H4).
  exists pattern. split; [exact H1|]. split.
  - unfold call, findCorrelations, bind.
    change (calculateDayOfWeekPattern false db)
      with (call calculateDayOfWeekPattern db).
    rewrite H1. unfold ret. rewrite identifyOutliers_filter; [reflexivity|].
    apply labels_increasing_keys. rewrite H2. repeat constructor.
  - intros Hnone. rewrite (H4 Hnone). vm_compute. reflexivity.
Qed.

Lemma findCorrelations_reports_the_outlying_weekdays_witness :
  exists pattern,
    call (calculateDayOfWeekPattern (P := RefLib.ref_platform))
         (ledger_of [rice_lunch; bread_boundary])
    = Returns (Some pattern) (ledger_of [rice_lunch; bread_boundary])
    /\ call (findCorrelations (P := RefLib.ref_platform)
                              (F := RefLib.ref_formatting) falling)
             (ledger_of [rice_lunch; bread_boundary])
       = Returns (Some ["Correlation found: Sunday consistently has higher waste (80.0g on average)."],
                  falling)
                 (ledger_of [rice_lunch; bread_boundary]).
Proof.
  destruct (findCorrelations_reports_the_outlying_weekdays RefLib.ref_platform
              RefLib.ref_formatting falling
              (ledger_of [rice_lunch; bread_boundary])
              sample_weekdays_in_range)
    as (pattern & Hcall & Hfind & _).
  exists pattern. split; [exact Hcall|].
  rewrite Hfind. vm_compute in Hcall. injection Hcall as <-.
  vm_compute. reflexivity.
Defined.

End Patterns.

(* ================================================================== *)
(** ** The weight estimated for a detection *)

Module Estimate.
Import CLib Data Analysis Samples Props.

(** X25: The weight estimated for a detection is a number from 5 g to 1000 g,
    whatever the box (empty, negative or huge) and the food class, known
    or not, and whatever the table of reference weights holds. *)
Theorem estimateWeight_is_between_5_and_1000 :
  forall (referenceWeights : smap float) (bbox : Z * Z * Z * Z)
         (foodClass : string),
    let estimate := Detection.estimateWeight referenceWeights bbox foodClass in
    le F32.lit_5 estimate
    /\ le estimate F32.lit_1000
    /\ F32.is_nan estimate = false
    /\ F32.ltb estimate F32.zero = false.
Proof.
  intros refs [[[x y] width] height] cls. cbn zeta.
  unfold Detection.estimateWeight, le.
  set (est := F32.mul _ _). unfold F32.max, F32.min.
  destruct (F32.ltb F32.lit_1000 est) eqn:Hhi.
  - repeat split; reflexivity.
  - destruct (F32.ltb F32.lit_5 est) eqn:Hlo; [|repeat split; reflexivity].
    destruct (Order.ltb_not_nan _ _ Hlo) as [_ Hnan].
    split; [apply Order.ltb_leb; exact Hlo|].
    split; [apply Order.not_ltb_leb; [exact Hnan|reflexivity|exact Hhi]|].
    split; [exact Hnan|].
    destruct est as [s|s| |s m e]; try destruct s; try discriminate Hlo;
      reflexivity.
Qed.

End Estimate.

(* ================================================================== *)
(** ** The table of meal periods *)

Module Table.
Import CLib Data Analysis Samples Props.

Section WithPlatform.
Context {P : Platform}.

(** The period of a time of day by the table of a new database. *)
Lemma standard_table (path : string) (file : File) (now hour minute : Z) :
  determineMealPeriod_hm (final (WasteDatabase_new path file now)) hour minute
  = let m := hour * 60 + minute in
    if (360 <=? m) && (m <=? 630) then BREAKFAST
    else if (660 <=? m) && (m <=? 870) then LUNCH
    else if (1020 <=? m) && (m <=? 1260) then DINNER
    else SNACK.
Proof.
  unfold determineMealPeriod_hm. rewrite Meal.WasteDatabase_new_ranges.
  cbn [determineMealPeriod_in startHour startMinute endHour endMinute].
  change (6 * 60 + 0) with 360. change (10 * 60 + 30) with 630.
  change (11 * 60 + 0) with 660. change (14 * 60 + 30) with 870.
  change (17 * 60 + 0) with 1020. change (21 * 60 + 0) with 1260.
  change (23 * 60 + 59) with 1439. cbn zeta.
  destruct ((360 <=? hour * 60 + minute) && (hour * 60 + minute <=? 630));
    [reflexivity|].
  destruct ((660 <=? hour * 60 + minute) && (hour * 60 + minute <=? 870));
    [reflexivity|].
  destruct ((1020 <=? hour * 60 + minute) && (hour * 60 + minute <=? 1260));
    [reflexivity|].
  destruct ((1260 <=? hour * 60 + minute) && (hour * 60 + minute <=? 1439));
    reflexivity.
Qed.

End WithPlatform.

(** X26: By the table that the constructor sets up, a time of day is
    breakfast from 06:00 to 10:30, lunch from 11:00 to 14:30, dinner
    from 17:00 to 21:00, bounds included, and a snack at every other
    time: 21:00, which the snack range also holds, is dinner.  A new
    database takes its current period from the wall clock in this way,
    and a timestamp is classified [UNKNOWN] exactly when it does not
    parse. *)
Theorem standard_table_classifies_every_time_of_day :
  forall (P : Platform) (path : string) (file : File) (now hour minute : Z)
         (ts : string),
    let db := final (WasteDatabase_new path file now) in
    let period_at (h m : Z) :=
      if (360 <=? h * 60 + m) && (h * 60 + m <=? 630) then BREAKFAST
      else if (660 <=? h * 60 + m) && (h * 60 + m <=? 870) then LUNCH
      else if (1020 <=? h * 60 + m) && (h * 60 + m <=? 1260) then DINNER
      else SNACK in
    determineMealPeriod_hm db hour minute = period_at hour minute
    /\ determineMealPeriod_hm db 21 0 = DINNER
    /\ m_currentMealPeriod db
       = period_at (tm_hour (localtime now)) (tm_min (localtime now))
    /\ determineMealPeriod db ts
       = match get_time ts timestamp_format with
         | Some t => period_at (tm_hour t) (tm_min t)
         | None => UNKNOWN
         end
    /\ (determineMealPeriod db ts = UNKNOWN
        <-> get_time ts timestamp_format = None).
Proof.
  intros P path file now hour minute ts db period_at.
  assert (Hts : determineMealPeriod db ts
                = match get_time ts timestamp_format with
                  | Some t => period_at (tm_hour t) (tm_min t)
                  | None => UNKNOWN
                  end).
  { unfold determineMealPeriod.
    destruct (get_time ts timestamp_format); [apply standard_table|reflexivity]. }
  split; [apply standard_table|]. split; [apply standard_table|].
  split; [|split; [exact Hts|]].
  - unfold db. rewrite Meal.WasteDatabase_new_current_period.
    apply standard_table.
  - rewrite Hts. destruct (get_time ts timestamp_format) as [t|].
    + split; [|discriminate]. unfold period_at.
      repeat match goal with
             | |- context [if ?c then _ else _] => destruct c
             end; discriminate.
    + split; reflexivity.
Qed.

End Table.

(* ================================================================== *)
(** ** The insights *)

Module Insights.
Import CLib Data Analysis Samples Props.

Section WithPlatform.
Context {P : Platform} {F : Formatting}.

Lemma insights_before_forecast_length (a : StatsAnalyzer) :
  (1 <= List.length (insights_before_forecast a) <= 6)%nat
  /\ hd_error (insights_before_forecast a)
     = Some ("Total food waste recorded: "
             ++ ostream_fixed1 (totalWeight (m_currentStats a))
             ++ "g across " ++ Std.show_int (totalItems (m_currentStats a))
             ++ " items.")%string.
Proof.
  unfold insights_before_forecast.
  destruct (topWastedFoods (m_currentStats a));
    destruct (1 <? List.length (values (m_dailyTrend a)))%nat;
    destruct (weightByMeal (m_currentStats a));
    destruct (weightByDay (m_currentStats a));
    destruct (F32.ltb F32.zero (wasteSavedTotal (m_currentStats a)));
    cbn [app List.length hd_error]; split; try reflexivity; lia.
Qed.

End WithPlatform.

(** X27: The insights are cached: with a list that is not empty and not marked
    dirty, the request returns it and changes nothing.  Otherwise the
    list is rebuilt, which ends with the forecast for day 7: with a model
    that fits poorly the request never returns; with one that fits it
    returns from two to seven sentences, the first about the total and
    the last about the forecast, keeps them, and answers the next
    request with the same list. *)
Theorem getInsights_rebuilds_only_a_stale_list :
  forall (P : Platform) (F : Formatting) (now later : Z) (a : StatsAnalyzer)
         (db : WasteDatabase),
    let stale :=
      m_insightsDirty a || match m_insights a with [] => true | _ => false end in
    (stale = false -> call (getInsights now a) db = Returns (m_insights a, a) db)
    /\ (stale = true -> poor_fit a = true ->
        call (getInsights now a) db = SelfDeadlock (refreshed now db))
    /\ (stale = true -> poor_fit a = false ->
        exists insights a',
          call (getInsights now a) db = Returns (insights, a') db
          /\ insights
             = insights_before_forecast a ++ [forecast_insight (forecast a 7)]
          /\ (2 <= List.length insights <= 7)%nat
          /\ m_insights a' = insights
          /\ m_insightsDirty a' = false
          /\ m_currentStats a' = m_currentStats a
          /\ call (getInsights later a') db = Returns (insights, a') db).
Proof.
  intros P F now later a db stale. subst stale. split; [|split].
  - intros Hs. unfold call, getInsights. rewrite Hs. reflexivity.
  - intros Hs Hfit. unfold call, getInsights. rewrite Hs. unfold bind.
    match goal with
    | |- context [predictFutureWaste 7 now ?x false db] =>
        change (predictFutureWaste 7 now x false db)
          with (call (predictFutureWaste 7 now x) db);
        destruct (Requests.predictFutureWaste_poor_fit P 7 now x db) as [H _]
    end.
    rewrite H; [reflexivity|lia|exact Hfit].
  - intros Hs Hfit.
    destruct (insights_before_forecast_length a) as [Hlen _].
    eexists. eexists. split; [|split; [reflexivity|]].
    + unfold call, getInsights. rewrite Hs. unfold bind.
      match goal with
      | |- context [predictFutureWaste 7 now ?x false db] =>
          change (predictFutureWaste 7 now x false db)
            with (call (predictFutureWaste 7 now x) db);
          destruct (Requests.predictFutureWaste_poor_fit P 7 now x db) as [_ H]
      end.
      rewrite H; [reflexivity|lia|exact Hfit].
    + split; [rewrite length_app; cbn [List.length]; lia|].
      split; [reflexivity|]. split; [reflexivity|]. split; [reflexivity|].
      unfold call, getInsights. cbn [with_insights m_insightsDirty m_insights].
      destruct (insights_before_forecast a) as [|s rest] eqn:Hi;
        [cbn in Hlen; lia|]. reflexivity.
Qed.

(** An analyzer with the series 100, 50, 0 and a model that fits it, and
    no statistics yet. *)
Lemma getInsights_rebuilds_only_a_stale_list_witness :
  exists insights a',
    call (getInsights (P := RefLib.ref_platform) (F := RefLib.ref_formatting)
                      morning falling) fresh
    = Returns (insights, a') fresh
    /\ insights
       = ["Total food waste recorded: 0.0g across 0 items.";
          "Waste is decreasing by 100.0% over the last 3 days.";
          "Predicted waste for next week: 0.0g."].
Proof.
  destruct (getInsights_rebuilds_only_a_stale_list RefLib.ref_platform
              RefLib.ref_formatting morning morning falling fresh)
    as (_ & _ & Hfit).
  destruct (Hfit eq_refl eq_refl) as (insights & a' & Hcall & Hins & _).
  exists insights, a'. split; [exact Hcall|].
  rewrite Hins. vm_compute. reflexivity.
Defined.

End Insights.

(* ================================================================== *)
(** ** The trend of the whole ledger *)

Module Week.
Import CLib Data Analysis Samples Props.

Lemma set_zero_increasing (labels : list string) :
  forall m : smap float,
    increasing_keys m ->
    increasing_keys (fold_left (fun trend label => set_zero label trend) labels m).
Proof.
  induction labels as [|l ls IH]; intros m H; [exact H|].
  cbn [fold_left]. apply IH. apply Maps.modify_increasing. exact H.
Qed.

Lemma find_set_zero (d : string) (labels : list string) :
  forall m : smap float,
    increasing_keys m ->
    StdMap.sfind d (fold_left (fun trend label => set_zero label trend) labels m)
    = if existsb (String.eqb d) labels then Some F32.zero else StdMap.sfind d m.
Proof.
  induction labels as [|l ls IH]; intros m H; [reflexivity|].
  cbn [fold_left existsb].
  rewrite IH by (apply Maps.modify_increasing; exact H).
  destruct (existsb (String.eqb d) ls); [rewrite orb_true_r; reflexivity|].
  rewrite orb_false_r. unfold set_zero.
  destruct (String.eqb d l) eqn:Hd.
  - apply String.eqb_eq in Hd. subst l.
    rewrite (Maps.find_modify_same _ _ _ _ H). reflexivity.
  - apply String.eqb_neq in Hd. apply Maps.find_modify_other. exact Hd.
Qed.

Section WithPlatform.
Context {P : Platform}.

Lemma add_dated_increasing (entries : list WasteEntry) :
  forall trend, increasing_keys trend ->
                increasing_keys (fold_left add_dated entries trend).
Proof.
  induction entries as [|e es IH]; intros trend H; [exact H|].
  cbn [fold_left]. apply IH. unfold add_dated.
  destruct (get_time (timestamp e) timestamp_format); [|exact H].
  cbn zeta. destruct (StdMap.count _ _ _); [|exact H].
  apply Maps.modify_increasing. exact H.
Qed.

Lemma find_add_dated (d : string) (entries : list WasteEntry) :
  forall trend,
    increasing_keys trend ->
    StdMap.sfind d (fold_left add_dated entries trend)
    = match StdMap.sfind d trend with
      | Some z =>
          Some (fold_left (fun v e => weigh e v)
                          (filter (has_key (by_time date_format) d) entries) z)
      | None => None
      end.
Proof.
  induction entries as [|e es IH]; intros trend H.
  - cbn [fold_left filter]. destruct (StdMap.sfind d trend); reflexivity.
  - cbn [fold_left filter].
    rewrite IH by (apply (add_dated_increasing [e]); exact H).
    unfold add_dated, has_key, by_time.
    destruct (get_time (timestamp e) timestamp_format) as [t|]; [|reflexivity].
    cbn zeta. unfold StdMap.count.
    change (StdMap.find String.compare (put_time t date_format) trend)
      with (StdMap.sfind (put_time t date_format) trend).
    destruct (String.eqb (put_time t date_format) d) eqn:Hd.
    + apply String.eqb_eq in Hd. rewrite Hd.
      destruct (StdMap.sfind d trend) as [z|] eqn:Hz; [|rewrite Hz; reflexivity].
      unfold StdMap.add_weight. rewrite (Maps.find_modify_same _ _ _ _ H), Hz.
      reflexivity.
    + apply String.eqb_neq in Hd.
      destruct (StdMap.sfind (put_time t date_format) trend); [|reflexivity].
      unfold StdMap.add_weight.
      rewrite Maps.find_modify_other by (intros E; apply Hd; symmetry; exact E).
      reflexivity.
Qed.

Lemma getWasteTrend_ALL_TIME (now : Z) (db : WasteDatabase) :
  call (getWasteTrend ALL_TIME now) db
  = Returns
      (fold_left add_dated (m_entries db)
         (fold_left (fun trend dateStr => set_zero dateStr trend)
                    (recent_dates now 7) []))
      (if m_statisticsDirty db then refreshed now db else db).
Proof.
  unfold call, getWasteTrend, bind.
  change (getStatistics ALL_TIME now false db)
    with (call (getStatistics ALL_TIME now) db).
  rewrite Locking.getStatistics_ALL_TIME.
  destruct (m_statisticsDirty db).
  - change (getEntries "" "" "" false (refreshed now db))
      with (call (getEntries "" "" "") (refreshed now db)).
    rewrite Query.getEntries_returns. reflexivity.
  - change (getEntries "" "" "" false db) with (call (getEntries "" "" "") db).
    rewrite Query.getEntries_returns. reflexivity.
Qed.

End WithPlatform.

(** X28: The trend of the whole ledger returns, and it covers the last seven
    days only: its keys are the dates of the seven days that end at the
    time of the request, in increasing order, and the value of a date is
    the [+=] sum of the weights of the entries whose timestamp parses to
    that date, 0 when there is none.  Entries of other dates and entries
    whose timestamp does not parse count nowhere.  The request refreshes
    a dirty cache and leaves the entries as they are. *)
Theorem whole_ledger_trend_covers_the_last_seven_days :
  forall (P : Platform) (now : Z) (db : WasteDatabase),
  exists trend db',
    call (getWasteTrend ALL_TIME now) db = Returns trend db'
    /\ m_entries db' = m_entries db
    /\ m_statisticsDirty db' = false
    /\ increasing_keys trend
    /\ (forall date,
          StdMap.sfind date trend
          = if existsb (String.eqb date) (recent_dates now 7)
            then Some (sum_weights
                         (filter (has_key (by_time date_format) date)
                                 (m_entries db)))
            else None)
    /\ (List.length trend <= 7)%nat.
Proof.
  intros P now db. eexists. eexists.
  split; [apply getWasteTrend_ALL_TIME|].
  split; [destruct (m_statisticsDirty db); reflexivity|].
  split; [destruct (m_statisticsDirty db) eqn:Hd; [reflexivity|exact Hd]|].
  assert (H0 : increasing_keys
                 (fold_left (fun trend dateStr => set_zero dateStr trend)
                            (recent_dates now 7) [])).
  { apply set_zero_increasing. apply Snapshot.empty_increasing. }
  split; [apply add_dated_increasing; exact H0|]. split.
  - intros date. rewrite (find_add_dated date _ _ H0).
    rewrite find_set_zero by apply Snapshot.empty_increasing.
    destruct (existsb (String.eqb date) (recent_dates now 7)); reflexivity.
  - assert (Hlen : forall (labels : list string) (m : smap float),
               (List.length
                  (fold_left (fun trend label => set_zero label trend) labels m)
                <= List.length m + List.length labels)%nat).
    { induction labels as [|l ls IH]; intros m; cbn [fold_left List.length];
        [lia|].
      specialize (IH (set_zero l m)).
      pose proof (Maps.modify_length l (fun _ => F32.zero) F32.zero m) as Hm.
      unfold set_zero in *. lia. }
    assert (Hkeep : forall (es : list WasteEntry) (m : smap float),
               increasing_keys m ->
               List.length (fold_left add_dated es m) = List.length m).
    { induction es as [|e es IH]; intros m Hm; [reflexivity|].
      cbn [fold_left].
      rewrite IH by (apply (add_dated_increasing [e]); exact Hm).
      unfold add_dated.
      destruct (get_time (timestamp e) timestamp_format) as [t|]; [|reflexivity].
      cbn zeta. unfold StdMap.count.
      destruct (StdMap.find String.compare (put_time t date_format) m) as [v|] eqn:Hf;
        [|reflexivity].
      rewrite <- (length_map fst), <- (length_map fst m).
      f_equal. apply Patterns.modify_present_keys; [exact Hm|].
      apply Maps.find_In in Hf. apply in_map_iff.
      exists (put_time t date_format, v). split; [reflexivity|exact Hf]. }
    rewrite (Hkeep _ _ H0). specialize (Hlen (recent_dates now 7) []).
    rewrite Snapshot.recent_dates_length in Hlen. cbn [List.length] in Hlen. lia.
Qed.

End Week.
